(** * Vibespine: posture classification, smoothing and session aggregation

    A shallow embedding of the posture engine of the Vibespine browser
    application and the proofs of its specified properties.

    Sources embedded here:
    - [src/js/posture-analysis.js]  (class PostureAnalysis)
    - [src/unnamed/part_001]        (class PostureGuardian, session tracking)
    - [src/js/pose-detection.js]    (class DataStorage, statistics and streak)

    JavaScript numbers are IEEE-754 binary64 values.  Measurements, angles,
    visibilities and scores are modelled by Rocq's primitive [float], whose
    operations are the binary64 operations of the JavaScript engine.
    Integer-valued quantities (millisecond clocks, counters, array lengths)
    are modelled by [Z] and [nat]: binary64 adds and subtracts integers of
    magnitude below 2^53 without rounding ([JsFacts.number_of_Z_add],
    [JsFacts.number_of_Z_sub]), which covers millisecond clocks and
    per-frame counters. *)

From Stdlib Require Import ZArith List Bool Lia String QArith.
From Stdlib Require Import Floats.
Import ListNotations.

Set Warnings "-inexact-float".
Close Scope Q_scope.

(* ================================================================== *)
(** * Part I: the embedding *)
(* ================================================================== *)

(** ** JavaScript numbers *)

Module Js.

Open Scope float_scope.

(** The binary64 value nearest to an integer (ToNumber of an integer). *)
Definition number_of_Z (z : Z) : float :=
  SF2Prim (binary_normalize prec emax z 0 false).

Definition number_of_nat (n : nat) : float := number_of_Z (Z.of_nat n).

(** The exact rational denoted by a finite number; [None] for NaN and the
    infinities. *)
Definition SF2Q (x : spec_float) : option Q :=
  match x with
  | S754_zero _ => Some 0%Q
  | S754_finite s m e =>
      Some ((if s then - inject_Z (Zpos m) else inject_Z (Zpos m)) * Qpower 2 e)%Q
  | S754_infinity _ | S754_nan => None
  end.

Definition value (x : float) : option Q := SF2Q (Prim2SF x).

(** [a > b], [a >= b] of JavaScript, in terms of the primitive tests. *)
Definition gt (a b : float) : bool := b <? a.
Definition ge (a b : float) : bool := b <=? a.

(** Strict equality [===] on numbers, and the SameValueZero comparison
    (the one that also identifies NaN with itself). *)
Definition strict_eq (a b : float) : bool := a =? b.
Definition same_value_zero (a b : float) : bool :=
  (a =? b) || (is_nan a && is_nan b).

(** [Math.PI]. *)
Definition PI : float := 0x1.921fb54442d18p+1.

(** The functions of the [Math] object that binary64 arithmetic does not
    provide; the engine supplies them. *)
Record MathObject := {
  atan2 : float -> float -> float;
  pow : float -> float -> float;
  round : float -> float
}.

(** The number 1 as a binary64 value: mantissa 2^52, exponent -52. *)
Definition SFone64 : spec_float := S754_finite false 4503599627370496 (-52).

(** The number of binary digits of a mantissa, and the exponent that
    binary64 gives a number whose magnitude needs [k] digits before the
    binary point (53 digits of precision, least exponent -1074). *)
Definition digits (m : positive) : Z := Zpos (digits2_pos m).

Definition fexp64 (k : Z) : Z := Z.max (k - 53) (-1074).

(** Every finite binary64 number is an integer multiple of 2^-1074, the
    spacing of the smallest numbers.  [units x] is that integer; it is
    undefined for NaN and the infinities. *)
Definition signed (s : bool) (m : positive) (e : Z) : Z :=
  cond_Zopp s (Zpos m * 2 ^ (e + 1074)).

Definition SFunits (x : spec_float) : option Z :=
  match x with
  | S754_zero _ => Some 0%Z
  | S754_finite s m e => Some (cond_Zopp s (Zpos m * 2 ^ (e + 1074)))
  | S754_infinity _ | S754_nan => None
  end.

Definition units (x : float) : option Z := SFunits (Prim2SF x).

(** An integer number of units is representable when some binary64 number
    carries it. *)
Definition representable (n : Z) : Prop := exists f, units f = Some n.

(** [Math.max] and [Math.min] of two numbers: NaN when either is NaN, and
    +0 counts as larger than -0. *)
Definition Math_max (a b : float) : float :=
  if is_nan a || is_nan b then nan
  else if a <? b then b
  else if is_zero a && is_zero b && get_sign a && negb (get_sign b) then b
  else a.

Definition Math_min (a b : float) : float :=
  if is_nan a || is_nan b then nan
  else if b <? a then b
  else if is_zero a && is_zero b && negb (get_sign a) && get_sign b then b
  else a.

(** The comparisons of binary64 order the numbers as the triples
    (sign class, exponent, mantissa) are ordered lexicographically; NaN
    has no place in the order. *)
Definition SFkey (x : spec_float) : option (Z * Z * Z) :=
  match x with
  | S754_nan => None
  | S754_infinity true => Some (-2, 0, 0)%Z
  | S754_finite true m e => Some (-1, - e, - Zpos m)%Z
  | S754_zero _ => Some (0, 0, 0)%Z
  | S754_finite false m e => Some (1, e, Zpos m)%Z
  | S754_infinity false => Some (2, 0, 0)%Z
  end.

Definition lexle (k k' : Z * Z * Z) : Prop :=
  let '(a, b, c) := k in
  let '(a', b', c') := k' in
  (a < a' \/ (a = a' /\ (b < b' \/ (b = b' /\ c <= c'))))%Z.

Definition lexlt (k k' : Z * Z * Z) : Prop :=
  let '(a, b, c) := k in
  let '(a', b', c') := k' in
  (a < a' \/ (a = a' /\ (b < b' \/ (b = b' /\ c < c'))))%Z.

End Js.

(** ** [PostureAnalysis] (src/js/posture-analysis.js) *)

Module PostureAnalysis.

Import Js.
Open Scope float_scope.

Inductive Status := excellent | good | warning | poor | unknown.

(** A property present once per channel: [{ neck, torso, shoulders }]. *)
Record Channels (A : Type) := {
  neck : A;
  torso : A;
  shoulders : A
}.
Arguments neck {A} _.
Arguments torso {A} _.
Arguments shoulders {A} _.

(** A pose landmark.  An [undefined] visibility behaves as NaN in the two
    places it is read ([> 0.5] and [sum + visibility]). *)
Record Landmark := {
  pos_x : float;
  pos_y : float;
  visibility : float
}.

Record ImageSize := {
  width : float;
  height : float
}.

Record ShoulderData := {
  asymmetry : float;
  leftHeight : float;
  rightHeight : float;
  forwardProjection : float
}.

(** The angle fields of a measurement: what [extractMeasurements] computes
    for a valid frame and what [applySmoothingFilter] returns. *)
Record Angles := {
  neckAngle : float;
  torsoAngle : float;
  shoulderData : ShoulderData
}.

(** The object returned by [extractMeasurements]; an invalid one carries
    only [isValid] and [confidence]. *)
Record Measurements := {
  isValid : bool;
  confidence : float;
  measured : option Angles
}.

(** Result of the per-region analyses.  For the shoulders the fourth
    property is called [asymmetry] in the source. *)
Record Analysis := {
  score : float;
  status : Status;
  issues : list string;
  angle : float
}.

(** The posture state ([currentState]).  The object built by the
    constructor has no [confidence] property. *)
Record PostureState := {
  state_status : Status;
  state_score : float;
  state_angles : Channels float;
  state_issues : list string;
  recommendations : list string;
  timestamp : Z;
  state_confidence : option float
}.

(** The mutable fields of the object.  [thresholds] is written by
    [updateThresholds] and read by no method, so it is left out. *)
Record State := {
  recentMeasurements : Channels (list float);
  currentState : PostureState
}.

(** [this.weights] and [this.smoothingWindow]: assigned in the constructor
    and by no method. *)
Definition weights : Channels float :=
  {| neck := 0.4; torso := 0.35; shoulders := 0.25 |}.

Definition smoothingWindow : nat := 10.

Definition constructor (now : Z) : State :=
  {| recentMeasurements := {| neck := []; torso := []; shoulders := [] |};
     currentState :=
       {| state_status := unknown;
          state_score := 0;
          state_angles := {| neck := 0; torso := 0; shoulders := 0 |};
          state_issues := [];
          recommendations := [];
          timestamp := now;
          state_confidence := None |} |}.

(** [landmarks[i]]: [None] for a hole, [undefined], [null] or an index past
    the end. *)
Definition landmarkAt (landmarks : list (option Landmark)) (i : nat)
  : option Landmark :=
  match nth_error landmarks i with
  | Some l => l
  | None => None
  end.

Definition requiredLandmarks (landmarks : list (option Landmark))
  : list (option Landmark) :=
  [ landmarkAt landmarks 0; landmarkAt landmarks 11; landmarkAt landmarks 12;
    landmarkAt landmarks 23; landmarkAt landmarks 24 ].

(** [landmark && landmark.visibility > 0.5] *)
Definition visible (l : option Landmark) : bool :=
  match l with
  | Some lm => gt (visibility lm) 0.5
  | None => false
  end.

Definition sumVisibility (ls : list Landmark) : float :=
  fold_left (fun sum landmark => sum + visibility landmark) ls 0.

Definition calculateShoulderForwardProjection
    (M : MathObject) (shoulderMidpoint hipMidpoint : float * float) : float :=
  let shoulderToHipDistance :=
    sqrt (pow M (fst shoulderMidpoint - fst hipMidpoint) 2 +
          pow M (snd shoulderMidpoint - snd hipMidpoint) 2) in
  shoulderToHipDistance * 100.

Definition invalidMeasurements : Measurements :=
  {| isValid := false; confidence := 0; measured := None |}.

(** With [landmarks] an array and [imageSize] an object no statement of the
    [try] block throws, so the [catch] branch is not reachable here. *)
Definition extractMeasurements (M : MathObject)
    (landmarks : list (option Landmark)) (imageSize : ImageSize)
  : Measurements :=
  let required := requiredLandmarks landmarks in
  let allVisible := forallb visible required in
  match landmarkAt landmarks 0, landmarkAt landmarks 11,
        landmarkAt landmarks 12, landmarkAt landmarks 23,
        landmarkAt landmarks 24 with
  | Some nose, Some leftShoulder, Some rightShoulder,
    Some leftHip, Some rightHip =>
      if negb allVisible then invalidMeasurements
      else
        let confidence :=
          sumVisibility [nose; leftShoulder; rightShoulder; leftHip; rightHip]
          / number_of_nat (List.length required) in
        let shoulderMidpoint :=
          ((pos_x leftShoulder + pos_x rightShoulder) / 2,
           (pos_y leftShoulder + pos_y rightShoulder) / 2) in
        let neckVector :=
          (pos_x nose - fst shoulderMidpoint,
           pos_y nose - snd shoulderMidpoint) in
        let neckAngle :=
          atan2 M (fst neckVector) (- snd neckVector) * (180 / PI) in
        let hipMidpoint :=
          ((pos_x leftHip + pos_x rightHip) / 2,
           (pos_y leftHip + pos_y rightHip) / 2) in
        let torsoVector :=
          (fst shoulderMidpoint - fst hipMidpoint,
           snd shoulderMidpoint - snd hipMidpoint) in
        let torsoAngle :=
          atan2 M (abs (fst torsoVector)) (- snd torsoVector) * (180 / PI) in
        let shoulderData :=
          {| asymmetry :=
               abs (pos_y leftShoulder - pos_y rightShoulder) * height imageSize;
             leftHeight := pos_y leftShoulder;
             rightHeight := pos_y rightShoulder;
             forwardProjection :=
               calculateShoulderForwardProjection M shoulderMidpoint hipMidpoint |} in
        {| isValid := true;
           confidence := confidence;
           measured := Some {| neckAngle := neckAngle;
                               torsoAngle := torsoAngle;
                               shoulderData := shoulderData |} |}
  | _, _, _, _, _ => invalidMeasurements
  end.

(** [values.reduce((sum, value) => sum + value, 0) / values.length] *)
Definition calculateMovingAverage (values : list float) : float :=
  match values with
  | [] => 0
  | _ => fold_left (fun sum value => sum + value) values 0
         / number_of_nat (List.length values)
  end.

(** [push] followed by the conditional [shift] of one channel. *)
Definition push (values : list float) (v : float) : list float :=
  values ++ [v].

Definition keepRecent (values : list float) : list float :=
  if (smoothingWindow <? List.length values)%nat then tl values else values.

Definition applySmoothingFilter (st : State) (measurements : Angles)
  : State * Angles :=
  let pushed :=
    {| neck := push (neck (recentMeasurements st)) (neckAngle measurements);
       torso := push (torso (recentMeasurements st)) (torsoAngle measurements);
       shoulders := push (shoulders (recentMeasurements st))
                         (asymmetry (shoulderData measurements)) |} in
  let recent :=
    {| neck := keepRecent (neck pushed);
       torso := keepRecent (torso pushed);
       shoulders := keepRecent (shoulders pushed) |} in
  let smoothedNeckAngle := calculateMovingAverage (neck recent) in
  let smoothedTorsoAngle := calculateMovingAverage (torso recent) in
  let smoothedShoulderAsymmetry := calculateMovingAverage (shoulders recent) in
  ({| recentMeasurements := recent; currentState := currentState st |},
   {| neckAngle := smoothedNeckAngle;
      torsoAngle := smoothedTorsoAngle;
      shoulderData :=
        {| asymmetry := smoothedShoulderAsymmetry;
           leftHeight := leftHeight (shoulderData measurements);
           rightHeight := rightHeight (shoulderData measurements);
           forwardProjection := forwardProjection (shoulderData measurements) |} |}).

Definition analyzeNeckPosture (neckAngle : float) : Analysis :=
  let absAngle := abs neckAngle in
  if absAngle <=? 5 then
    {| score := 100; status := excellent; issues := []; angle := neckAngle |}
  else if absAngle <=? 10 then
    {| score := 85; status := good; issues := []; angle := neckAngle |}
  else if absAngle <=? 20 then
    {| score := 60; status := warning;
       issues := [if gt neckAngle 0 then "Forward head posture detected"%string
                  else "Head tilted backward"%string];
       angle := neckAngle |}
  else
    {| score := 30; status := poor;
       issues := [if gt neckAngle 0 then "Severe forward head posture"%string
                  else "Severe backward head tilt"%string];
       angle := neckAngle |}.

Definition analyzeTorsoPosture (torsoAngle : float) : Analysis :=
  if ge torsoAngle 85 && (torsoAngle <=? 95) then
    {| score := 100; status := excellent; issues := []; angle := torsoAngle |}
  else if ge torsoAngle 80 && (torsoAngle <=? 100) then
    {| score := 80; status := good; issues := []; angle := torsoAngle |}
  else if ge torsoAngle 70 && (torsoAngle <=? 110) then
    {| score := 50; status := warning;
       issues := [if torsoAngle <? 85 then "Leaning forward"%string
                  else "Leaning backward"%string];
       angle := torsoAngle |}
  else
    {| score := 20; status := poor;
       issues := [if torsoAngle <? 70 then "Severe forward lean"%string
                  else "Severe backward lean"%string];
       angle := torsoAngle |}.

(** The running [score], [status] and [issues] of [analyzeShoulderPosture]. *)
Record Running := {
  r_score : float;
  r_status : Status;
  r_issues : list string
}.

Definition shoulderStart : Running :=
  {| r_score := 100; r_status := excellent; r_issues := [] |}.

(** The block under "Check shoulder asymmetry". *)
Definition checkAsymmetry (shoulderData : ShoulderData) (r : Running) : Running :=
  if gt (asymmetry shoulderData) 10 then
    {| r_score := r_score r - 30;
       r_status := warning;
       r_issues := r_issues r ++ ["Uneven shoulder height"%string] |}
  else if gt (asymmetry shoulderData) 5 then
    {| r_score := r_score r - 15;
       r_status := match r_status r with excellent => good | s => s end;
       r_issues := r_issues r |}
  else r.

(** The block under "Check forward shoulder projection". *)
Definition checkForwardProjection (shoulderData : ShoulderData) (r : Running)
  : Running :=
  if gt (forwardProjection shoulderData) 20 then
    {| r_score := r_score r - 40;
       r_status := poor;
       r_issues := r_issues r ++ ["Rounded shoulders"%string] |}
  else if gt (forwardProjection shoulderData) 15 then
    {| r_score := r_score r - 20;
       r_status := match r_status r with excellent => warning | s => s end;
       r_issues := r_issues r ++ ["Slight shoulder rounding"%string] |}
  else r.

Definition analyzeShoulderPosture (shoulderData : ShoulderData) : Analysis :=
  let r := checkForwardProjection shoulderData
             (checkAsymmetry shoulderData shoulderStart) in
  {| score := r_score r; status := r_status r; issues := r_issues r;
     angle := asymmetry shoulderData |}.

Definition calculateOverallScore
    (neckAnalysis torsoAnalysis shoulderAnalysis : Analysis) : float :=
  score neckAnalysis * neck weights +
  score torsoAnalysis * torso weights +
  score shoulderAnalysis * shoulders weights.

Definition determinePostureStatus (score : float) : Status :=
  if ge score 90 then excellent
  else if ge score 75 then good
  else if ge score 60 then warning
  else poor.

(** [self.indexOf(issue)] *)
Fixpoint indexOf (issue : string) (self : list string) : option nat :=
  match self with
  | [] => None
  | s :: rest =>
      if String.eqb s issue then Some 0%nat
      else option_map S (indexOf issue rest)
  end.

(** [allIssues.filter((issue, index, self) => self.indexOf(issue) === index)] *)
Fixpoint filterFirst (self : list string) (index : nat) (l : list string)
  : list string :=
  match l with
  | [] => []
  | issue :: rest =>
      let keep := match indexOf issue self with
                  | Some i => Nat.eqb i index
                  | None => false
                  end in
      if keep then issue :: filterFirst self (S index) rest
      else filterFirst self (S index) rest
  end.

Definition identifyPostureIssues
    (neckAnalysis torsoAnalysis shoulderAnalysis : Analysis) : list string :=
  let allIssues :=
    issues neckAnalysis ++ issues torsoAnalysis ++ issues shoulderAnalysis in
  filterFirst allIssues 0 allIssues.

Definition recommendationMap : list (string * string) :=
  [ ("Forward head posture detected",
     "Pull your chin back and align your ears over your shoulders");
    ("Severe forward head posture",
     "Perform neck strengthening exercises and adjust monitor height");
    ("Head tilted backward",
     "Lower your chin slightly and check your screen height");
    ("Leaning forward",
     "Sit back in your chair and engage your core muscles");
    ("Severe forward lean",
     "Take a break and practice spinal extension exercises");
    ("Leaning backward",
     "Engage your core and bring your torso more upright");
    ("Uneven shoulder height",
     "Check your workspace setup and avoid carrying bags on one side");
    ("Rounded shoulders",
     "Pull your shoulder blades together and stretch your chest");
    ("Slight shoulder rounding",
     "Practice shoulder blade squeezes throughout the day") ]%string.

Fixpoint lookup (key : string) (m : list (string * string)) : option string :=
  match m with
  | [] => None
  | (k, v) :: rest => if String.eqb k key then Some v else lookup key rest
  end.

Definition generateRecommendations (issues : list string) : list string :=
  map (fun issue =>
         match lookup issue recommendationMap with
         | Some r => r
         | None => "Maintain good posture awareness"%string
         end) issues.

Definition getDefaultPostureState (now : Z) : PostureState :=
  {| state_status := unknown;
     state_score := 0;
     state_angles := {| neck := 0; torso := 0; shoulders := 0 |};
     state_issues := ["Unable to detect posture"%string];
     recommendations := ["Ensure you are visible to the camera"%string];
     timestamp := now;
     state_confidence := Some 0 |}.

(** The part of [analyzePose] that follows the smoothing: the three
    analyses, the overall score and the new posture state. *)
Definition overallScoreOf (smoothedMeasurements : Angles) : float :=
  let neckAnalysis := analyzeNeckPosture (neckAngle smoothedMeasurements) in
  let torsoAnalysis := analyzeTorsoPosture (torsoAngle smoothedMeasurements) in
  let shoulderAnalysis :=
    analyzeShoulderPosture (shoulderData smoothedMeasurements) in
  calculateOverallScore neckAnalysis torsoAnalysis shoulderAnalysis.

Definition assessPosture (M : MathObject) (smoothedMeasurements : Angles)
    (confidence : float) (now : Z) : PostureState :=
  let neckAnalysis := analyzeNeckPosture (neckAngle smoothedMeasurements) in
  let torsoAnalysis := analyzeTorsoPosture (torsoAngle smoothedMeasurements) in
  let shoulderAnalysis :=
    analyzeShoulderPosture (shoulderData smoothedMeasurements) in
  let overallScore :=
    calculateOverallScore neckAnalysis torsoAnalysis shoulderAnalysis in
  let status := determinePostureStatus overallScore in
  let issues :=
    identifyPostureIssues neckAnalysis torsoAnalysis shoulderAnalysis in
  let recommendations := generateRecommendations issues in
  {| state_status := status;
     state_score := round M overallScore;
     state_angles :=
       {| neck := round M (neckAngle smoothedMeasurements);
          torso := round M (torsoAngle smoothedMeasurements);
          shoulders :=
            round M (asymmetry (shoulderData smoothedMeasurements)) |};
     state_issues := issues;
     recommendations := recommendations;
     timestamp := now;
     state_confidence := Some confidence |}.

(** [analyzePose]; [now] is the value of [Date.now()]. *)
Definition analyzePose (M : MathObject) (st : State)
    (landmarks : list (option Landmark)) (imageSize : ImageSize) (now : Z)
  : State * PostureState :=
  match landmarks with
  | [] => (st, getDefaultPostureState now)
  | _ =>
    let measurements := extractMeasurements M landmarks imageSize in
    match isValid measurements, measured measurements with
    | true, Some raw =>
      let '(st1, smoothedMeasurements) := applySmoothingFilter st raw in
      let current :=
        assessPosture M smoothedMeasurements (confidence measurements) now in
      ({| recentMeasurements := recentMeasurements st1;
          currentState := current |}, current)
    | _, _ => (st, getDefaultPostureState now)
    end
  end.

Definition resetSmoothing (st : State) : State :=
  {| recentMeasurements := {| neck := []; torso := []; shoulders := [] |};
     currentState := currentState st |}.

End PostureAnalysis.

(** ** [PostureGuardian] (src/unnamed/part_001): session tracking *)

Module PostureGuardian.

Import Js.
Open Scope float_scope.

(** The values of [currentPostureState]. *)
Inductive Posture := good | poor | unknown.

Definition Posture_eqb (a b : Posture) : bool :=
  match a, b with
  | good, good | poor, poor | unknown, unknown => true
  | _, _ => false
  end.

Record Settings := {
  neckThreshold : float;
  torsoThresholdMin : float;
  torsoThresholdMax : float
}.

Definition defaultSettings : Settings :=
  {| neckThreshold := 15; torsoThresholdMin := 85; torsoThresholdMax := 95 |}.

Record CurrentAngles := {
  neck : float;
  torso : float
}.

Record Sample := {
  timestamp : Z;
  state : Posture;
  neckAngle : float;
  torsoAngle : float
}.

Record SessionData := {
  totalTime : Z;
  goodPostureTime : Z;
  poorPostureWarnings : Z;
  currentPostureState : Posture;
  postureHistory : list Sample
}.

(** The statistics object kept in [localStorage]; [None] is a property
    that is [undefined]. *)
Record Statistics := {
  totalSessions : option Z;
  statsTotalTime : option Z;
  avgScore : option float;
  currentStreak : option Z;
  bestStreak : option Z;
  lastSessionDate : option string;
  weeklyData : option (list float)
}.

Definition emptyStatistics : Statistics :=
  {| totalSessions := None; statsTotalTime := None; avgScore := None;
     currentStreak := None; bestStreak := None; lastSessionDate := None;
     weeklyData := None |}.

Record Guardian := {
  isRunning : bool;
  sessionStartTime : option Z;
  sessionData : SessionData;
  currentAngles : CurrentAngles;
  settings : Settings;
  savedStats : option Statistics
}.

Definition newSessionData : SessionData :=
  {| totalTime := 0; goodPostureTime := 0; poorPostureWarnings := 0;
     currentPostureState := unknown; postureHistory := [] |}.

Definition constructor : Guardian :=
  {| isRunning := false;
     sessionStartTime := None;
     sessionData := newSessionData;
     currentAngles := {| neck := 0; torso := 0 |};
     settings := defaultSettings;
     savedStats := None |}.

(** The state update of [startMonitoring]; [now] is [Date.now()]. *)
Definition startMonitoring (g : Guardian) (now : Z) : Guardian :=
  {| isRunning := true;
     sessionStartTime := Some now;
     sessionData := newSessionData;
     currentAngles := currentAngles g;
     settings := settings g;
     savedStats := savedStats g |}.

Definition classifyPosture (g : Guardian) (neckAngle torsoAngle : float)
  : Posture :=
  let neckGood := neckAngle <=? neckThreshold (settings g) in
  let torsoGood :=
    ge torsoAngle (torsoThresholdMin (settings g)) &&
    (torsoAngle <=? torsoThresholdMax (settings g) + 15) in
  if neckGood && torsoGood then good else poor.

(** [history.slice(-500)] *)
Definition sliceLast (n : nat) {A : Type} (l : list A) : list A :=
  skipn (List.length l - n) l.

(** [updateSessionData]; [now] is [Date.now()].  The test
    [if (this.sessionStartTime)] fails for [null] and for [0]. *)
Definition updateSessionData (g : Guardian) (now : Z) (postureState : Posture)
  : Guardian :=
  let sd := sessionData g in
  let sd1 :=
    match sessionStartTime g with
    | Some start =>
        if (start =? 0)%Z then sd
        else
          let elapsed := (now - start)%Z in
          {| totalTime := elapsed;
             goodPostureTime :=
               if Posture_eqb postureState good
               then (goodPostureTime sd + 100)%Z
               else goodPostureTime sd;
             poorPostureWarnings := poorPostureWarnings sd;
             currentPostureState := currentPostureState sd;
             postureHistory := postureHistory sd |}
    | None => sd
    end in
  let pushed :=
    postureHistory sd1 ++
    [ {| timestamp := now;
         state := postureState;
         neckAngle := neck (currentAngles g);
         torsoAngle := torso (currentAngles g) |} ] in
  let history :=
    if (1000 <? List.length pushed)%nat then sliceLast 500 pushed else pushed in
  {| isRunning := isRunning g;
     sessionStartTime := sessionStartTime g;
     sessionData :=
       {| totalTime := totalTime sd1;
          goodPostureTime := goodPostureTime sd1;
          poorPostureWarnings := poorPostureWarnings sd1;
          currentPostureState := currentPostureState sd1;
          postureHistory := history |};
     currentAngles := currentAngles g;
     settings := settings g;
     savedStats := savedStats g |}.

(** The counter update of [handlePostureChange] (alerts and sounds are
    outside the model). *)
Definition handlePostureChange (g : Guardian) (newState : Posture) : Guardian :=
  let sd := sessionData g in
  if Posture_eqb newState poor && negb (Posture_eqb (currentPostureState sd) poor)
  then
    {| isRunning := isRunning g;
       sessionStartTime := sessionStartTime g;
       sessionData :=
         {| totalTime := totalTime sd;
            goodPostureTime := goodPostureTime sd;
            poorPostureWarnings := (poorPostureWarnings sd + 1)%Z;
            currentPostureState := currentPostureState sd;
            postureHistory := postureHistory sd |};
       currentAngles := currentAngles g;
       settings := settings g;
       savedStats := savedStats g |}
  else g.

Definition setCurrentPostureState (g : Guardian) (p : Posture) : Guardian :=
  let sd := sessionData g in
  {| isRunning := isRunning g;
     sessionStartTime := sessionStartTime g;
     sessionData :=
       {| totalTime := totalTime sd;
          goodPostureTime := goodPostureTime sd;
          poorPostureWarnings := poorPostureWarnings sd;
          currentPostureState := p;
          postureHistory := postureHistory sd |};
     currentAngles := currentAngles g;
     settings := settings g;
     savedStats := savedStats g |}.

(** [analyzePosture], from the two angles that [calculateNeckAngle] and
    [calculateTorsoAngle] return for the frame. *)
Definition analyzePosture (g : Guardian) (now : Z) (neckAngle torsoAngle : float)
  : Guardian :=
  let g1 :=
    {| isRunning := isRunning g;
       sessionStartTime := sessionStartTime g;
       sessionData := sessionData g;
       currentAngles := {| neck := neckAngle; torso := torsoAngle |};
       settings := settings g;
       savedStats := savedStats g |} in
  let postureState := classifyPosture g1 neckAngle torsoAngle in
  let g2 := updateSessionData g1 now postureState in
  let g3 :=
    if negb (Posture_eqb postureState (currentPostureState (sessionData g2)))
    then handlePostureChange g2 postureState
    else g2 in
  setCurrentPostureState g3 postureState.

(** [onPoseResults]: a frame is processed only while running. *)
Definition onPoseResults (g : Guardian) (now : Z) (neckAngle torsoAngle : float)
  : Guardian :=
  if negb (isRunning g) then g else analyzePosture g now neckAngle torsoAngle.

(** [x || 0] on a stored count, and on a stored score (NaN and zero are
    falsy). *)
Definition orZero (x : option Z) : Z :=
  match x with Some v => v | None => 0%Z end.

Definition orZeroNumber (x : option float) : float :=
  match x with
  | Some v => if is_nan v || is_zero v then 0 else v
  | None => 0
  end.

(** [totalTime > 0 ? (goodPostureTime / totalTime) * 100 : 0] *)
Definition sessionScore (sd : SessionData) : float :=
  if (0 <? totalTime sd)%Z
  then number_of_Z (goodPostureTime sd) / number_of_Z (totalTime sd) * 100
  else 0.

Fixpoint setIndex (l : list float) (i : nat) (v : float) : list float :=
  match l, i with
  | [], _ => []
  | _ :: rest, O => v :: rest
  | a :: rest, S j => a :: setIndex rest j v
  end.

(** The statistics written by [saveSessionData]; [today] is
    [new Date().toDateString()] and [dayIndex] is [new Date().getDay()]. *)
Definition updateStatistics (stats : Statistics) (sd : SessionData)
    (today : string) (dayIndex : nat) : Statistics :=
  let totalSessions' := (orZero (totalSessions stats) + 1)%Z in
  let totalTime' := (orZero (statsTotalTime stats) + totalTime sd)%Z in
  let sessionScore := sessionScore sd in
  let avgScore' :=
    (orZeroNumber (avgScore stats) * number_of_Z (totalSessions' - 1)
     + sessionScore) / number_of_Z totalSessions' in
  let sameDay :=
    match lastSessionDate stats with
    | Some d => String.eqb d today
    | None => false
    end in
  let '(streak, best, last) :=
    if negb sameDay then
      if ge sessionScore 70 then
        let streak := (orZero (currentStreak stats) + 1)%Z in
        (Some streak, Some (Z.max (orZero (bestStreak stats)) streak), Some today)
      else
        (Some 0%Z, bestStreak stats, Some today)
    else (currentStreak stats, bestStreak stats, lastSessionDate stats) in
  let weekly :=
    match weeklyData stats with
    | Some w => w
    | None => [0; 0; 0; 0; 0; 0; 0]
    end in
  {| totalSessions := Some totalSessions';
     statsTotalTime := Some totalTime';
     avgScore := Some avgScore';
     currentStreak := streak;
     bestStreak := best;
     lastSessionDate := last;
     weeklyData := Some (setIndex weekly dayIndex sessionScore) |}.

(** [loadStatistics]: the stored object, or [{}]. *)
Definition loadStatistics (g : Guardian) : Statistics :=
  match savedStats g with
  | Some s => s
  | None => emptyStatistics
  end.

Definition saveSessionData (g : Guardian) (today : string) (dayIndex : nat)
  : Guardian :=
  let stats := updateStatistics (loadStatistics g) (sessionData g) today dayIndex in
  {| isRunning := isRunning g;
     sessionStartTime := sessionStartTime g;
     sessionData := sessionData g;
     currentAngles := currentAngles g;
     settings := settings g;
     savedStats := Some stats |}.

Definition stopMonitoring (g : Guardian) (today : string) (dayIndex : nat)
  : Guardian :=
  saveSessionData
    {| isRunning := false;
       sessionStartTime := sessionStartTime g;
       sessionData := sessionData g;
       currentAngles := currentAngles g;
       settings := settings g;
       savedStats := savedStats g |} today dayIndex.

(** *** The angles of a frame *)

Section Angles.

(** [Math.acos], supplied by the engine. *)
Variable acos : float -> float.

Definition calculateAngleBetweenVectors (v1 v2 : float * float) : float :=
  let dot := fst v1 * fst v2 + snd v1 * snd v2 in
  let mag1 := sqrt (fst v1 * fst v1 + snd v1 * snd v1) in
  let mag2 := sqrt (fst v2 * fst v2 + snd v2 * snd v2) in
  let cos := dot / (mag1 * mag2) in
  let angle := acos (Math_max (-1) (Math_min 1 cos)) * (180 / PI) in
  angle.

(** Points: ear (7), shoulder (11), hip (23). *)
Definition calculateNeckAngle (landmarks : list (option PostureAnalysis.Landmark))
  : float :=
  match PostureAnalysis.landmarkAt landmarks 7,
        PostureAnalysis.landmarkAt landmarks 11,
        PostureAnalysis.landmarkAt landmarks 23 with
  | Some ear, Some shoulder, Some hip =>
      let v1 := (PostureAnalysis.pos_x ear - PostureAnalysis.pos_x shoulder,
                 PostureAnalysis.pos_y ear - PostureAnalysis.pos_y shoulder) in
      let v2 := (PostureAnalysis.pos_x hip - PostureAnalysis.pos_x shoulder,
                 PostureAnalysis.pos_y hip - PostureAnalysis.pos_y shoulder) in
      let angle := calculateAngleBetweenVectors v1 v2 in
      abs (90 - angle)
  | _, _, _ => 0
  end.

(** Points: shoulder (11), hip (23), knee (25). *)
Definition calculateTorsoAngle (landmarks : list (option PostureAnalysis.Landmark))
  : float :=
  match PostureAnalysis.landmarkAt landmarks 11,
        PostureAnalysis.landmarkAt landmarks 23,
        PostureAnalysis.landmarkAt landmarks 25 with
  | Some shoulder, Some hip, Some knee =>
      let v1 := (PostureAnalysis.pos_x shoulder - PostureAnalysis.pos_x hip,
                 PostureAnalysis.pos_y shoulder - PostureAnalysis.pos_y hip) in
      let v2 := (PostureAnalysis.pos_x knee - PostureAnalysis.pos_x hip,
                 PostureAnalysis.pos_y knee - PostureAnalysis.pos_y hip) in
      calculateAngleBetweenVectors v1 v2
  | _, _, _ => 90
  end.

(** [onPoseResults(results)] from the landmarks of the frame;
    [poseLandmarks] is [None] when [results.poseLandmarks] is missing. *)
Definition onPoseLandmarks (g : Guardian) (now : Z)
    (poseLandmarks : option (list (option PostureAnalysis.Landmark))) : Guardian :=
  match poseLandmarks with
  | None => g
  | Some landmarks =>
      onPoseResults g now (calculateNeckAngle landmarks)
                          (calculateTorsoAngle landmarks)
  end.

End Angles.

(** The settings update of [calibratePosture] (the sliders and the stored
    copy of the settings are outside the model). *)
Definition calibratePosture (g : Guardian) : Guardian :=
  if gt (neck (currentAngles g)) 0 && gt (torso (currentAngles g)) 0 then
    {| isRunning := isRunning g;
       sessionStartTime := sessionStartTime g;
       sessionData := sessionData g;
       currentAngles := currentAngles g;
       settings :=
         {| neckThreshold := Math_max 10 (neck (currentAngles g) + 5);
            torsoThresholdMin := Math_max 70 (torso (currentAngles g) - 10);
            torsoThresholdMax := torsoThresholdMax (settings g) |};
       savedStats := savedStats g |}
  else g.

(** *** Achievements and reminders *)

(** An entry of [this.achievements] (the display fields [name],
    [description] and [icon] are never written). *)
Record Achievement := {
  id : string;
  unlocked : bool
}.

Definition initialAchievements : list Achievement :=
  [ {| id := "perfect_hour"; unlocked := false |};
    {| id := "consistency_week"; unlocked := false |};
    {| id := "improvement_streak"; unlocked := false |} ].

Fixpoint setUnlocked (achievements : list Achievement) (index : nat)
  : list Achievement :=
  match achievements, index with
  | [], _ => []
  | a :: rest, O => {| id := id a; unlocked := true |} :: rest
  | a :: rest, S j => a :: setUnlocked rest j
  end.

(** [this.achievements[index].unlocked = true]; [None] is the TypeError
    raised when the array has no such entry. *)
Definition unlockAchievement (achievements : list Achievement) (index : nat)
  : option (list Achievement) :=
  match nth_error achievements index with
  | Some _ => Some (setUnlocked achievements index)
  | None => None
  end.

(** [if (condition && !this.achievements[index].unlocked)
       this.unlockAchievement(index)] *)
Definition unlockIf (condition : bool) (index : nat)
    (achievements : list Achievement) : option (list Achievement) :=
  if condition then
    match nth_error achievements index with
    | Some a => if negb (unlocked a) then unlockAchievement achievements index
                else Some achievements
    | None => None
    end
  else Some achievements.

(** [stats.currentStreak >= n]; false when the property is missing. *)
Definition streakAtLeast (stats : Statistics) (n : Z) : bool :=
  match currentStreak stats with
  | Some s => (n <=? s)%Z
  | None => false
  end.

Definition checkAchievements (achievements : list Achievement)
    (sd : SessionData) (stats : Statistics) : option (list Achievement) :=
  match unlockIf (3600000 <=? goodPostureTime sd)%Z 0 achievements with
  | None => None
  | Some a1 =>
      match unlockIf (streakAtLeast stats 7) 1 a1 with
      | None => None
      | Some a2 => unlockIf (streakAtLeast stats 5) 2 a2
      end
  end.

(** [checkStretchReminder]: whether the reminder is shown, and the new
    value of [this.lastReminder]; [reminderInterval] is a whole number of
    minutes and [now] is [Date.now()]. *)
Definition checkStretchReminder (stretchReminders : bool) (reminderInterval : Z)
    (isRunning : bool) (lastReminder now : Z) : bool * Z :=
  if negb stretchReminders || negb isRunning then (false, lastReminder)
  else
    let reminderInterval := (reminderInterval * 60 * 1000)%Z in
    if (reminderInterval <? now - lastReminder)%Z then (true, now)
    else (false, lastReminder).

End PostureGuardian.

(** ** [DataStorage] (src/js/pose-detection.js): the day streak, the
    achievements and the session statistics *)

Module DataStorage.

Section Dates.

(** [new Date(s).getTime()] for a date string: the milliseconds of the
    parsed date, [None] for an invalid date. *)
Variable parseDate : string -> option Z.

Definition msPerDay : Z := 1000 * 60 * 60 * 24.

(** [Math.ceil(diffTime / msPerDay)].  For [0 <= diffTime < 2^53] the
    binary64 quotient is at most 1 exactly when [diffTime <= msPerDay],
    so the integer ceiling decides [diffDays === 1] as the source does. *)
Definition ceilDiv (a b : Z) : Z := (a + b - 1) / b.

(** [date1] is [dates[streak]], [undefined] past the end of the array. *)
Definition isConsecutiveDay (date1 : option string) (date2 : string) : bool :=
  match date1 with
  | Some s1 =>
      match parseDate s1, parseDate date2 with
      | Some d1, Some d2 =>
          let diffTime := Z.abs (d2 - d1) in
          let diffDays := ceilDiv diffTime msPerDay in
          (diffDays =? 1)%Z
      | _, _ => false
      end
  | None => false
  end.

(** [Array.prototype.sort] without a comparator orders strings by code
    unit. *)
Fixpoint insertSorted (s : string) (l : list string) : list string :=
  match l with
  | [] => [s]
  | h :: t => if String.leb s h then s :: l else h :: insertSorted s t
  end.

Definition sort (l : list string) : list string :=
  fold_right insertSorted [] l.

(** The [for (const date of dates)] loop; [rest] is what remains to be
    visited. *)
Fixpoint streakLoop (dates rest : list string) (today : string) (streak : nat)
  : nat :=
  match rest with
  | [] => streak
  | date :: rest' =>
      if String.eqb date today || isConsecutiveDay (nth_error dates streak) date
      then streakLoop dates rest' today (S streak)
      else streak
  end.

(** [dailyStats] is an object keyed by date strings, given by its
    entries; [today] is [new Date().toDateString()]. *)
Definition calculateStreak {A : Type} (dailyStats : list (string * A))
    (today : string) : nat :=
  let dates := rev (sort (map fst dailyStats)) in
  streakLoop dates dates today 0.

End Dates.

(** *** Achievements *)

(** An entry of the stored achievements array. *)
Record StoredAchievement := {
  id : string;
  unlockedAt : string;
  isNew : bool
}.

(** [getAchievements]: the stored array, or [[]] when the key is missing
    or unreadable. *)
Definition getAchievements (stored : option (list StoredAchievement))
  : list StoredAchievement :=
  match stored with
  | Some achievements => achievements
  | None => []
  end.

(** [achievements.find(a => a.id === achievementId)] *)
Definition findById (achievementId : string) (achievements : list StoredAchievement)
  : option StoredAchievement :=
  find (fun a => String.eqb (id a) achievementId) achievements.

(** [unlockAchievement]: the stored value after the call and the value
    returned; [unlockedAt] is [new Date().toISOString()].  Writes to
    [localStorage] are taken to succeed. *)
Definition unlockAchievement (stored : option (list StoredAchievement))
    (achievementId unlockedAt : string)
  : option (list StoredAchievement) * bool :=
  let achievements := getAchievements stored in
  let achievement :=
    {| id := achievementId; unlockedAt := unlockedAt; isNew := true |} in
  match findById achievementId achievements with
  | None => (Some (achievements ++ [achievement]), true)
  | Some _ => (stored, false)
  end.

(** The assignment [achievement.isNew = false] on the entry that [find]
    returned: the first one with the identifier. *)
Fixpoint markFirst (achievementId : string) (achievements : list StoredAchievement)
  : list StoredAchievement :=
  match achievements with
  | [] => []
  | a :: rest =>
      if String.eqb (id a) achievementId
      then {| id := id a; unlockedAt := unlockedAt a; isNew := false |} :: rest
      else a :: markFirst achievementId rest
  end.

Definition markAchievementAsViewed (stored : option (list StoredAchievement))
    (achievementId : string) : option (list StoredAchievement) :=
  let achievements := getAchievements stored in
  match findById achievementId achievements with
  | Some _ => Some (markFirst achievementId achievements)
  | None => stored
  end.

(** *** Session statistics *)

(** The argument of [addSessionData]. *)
Record SessionSummary := {
  duration : float;
  goodPostureTime : float;
  averageScore : float;
  postureEvents : list string
}.

(** An entry of [dailyStats], with its properties [sessions],
    [totalTime], [goodPostureTime], [averageScore] and [postureEvents]; it
    has no [totalSessions] and no [averagePostureScore] property. *)
Record DayStats := {
  sessions : float;
  dayTotalTime : float;
  dayGoodPostureTime : float;
  dayAverageScore : float;
  dayPostureEvents : list string
}.

Record Statistics := {
  totalSessions : float;
  totalTime : float;
  totalGoodPostureTime : float;
  averagePostureScore : float;
  streakDays : nat;
  lastSessionDate : option string;
  dailyStats : list (string * DayStats)
}.

Definition defaultStatistics : Statistics :=
  {| totalSessions := 0%float; totalTime := 0%float;
     totalGoodPostureTime := 0%float; averagePostureScore := 0%float;
     streakDays := 0; lastSessionDate := None; dailyStats := [] |}.

(** A property read as a number: [undefined] becomes NaN. *)
Definition toNumber (x : option float) : float :=
  match x with
  | Some v => v
  | None => nan
  end.

(** [calculateAverageScore(stats, newScore)], from the two properties of
    [stats] that it reads ([None] when the object has no such property). *)
Definition calculateAverageScore (totalSessions averagePostureScore : option float)
    (newScore : float) : float :=
  if match totalSessions with
     | Some n => Js.strict_eq n 0%float
     | None => false
     end
  then newScore
  else ((toNumber averagePostureScore * toNumber totalSessions + newScore)
        / (toNumber totalSessions + 1))%float.

(** [stats.dailyStats[today]] *)
Fixpoint lookupDay (today : string) (dailyStats : list (string * DayStats))
  : option DayStats :=
  match dailyStats with
  | [] => None
  | (date, d) :: rest => if String.eqb date today then Some d else lookupDay today rest
  end.

(** Writing the entry of a day: in place when the key exists, as the last
    key otherwise. *)
Fixpoint setDay (today : string) (d : DayStats) (dailyStats : list (string * DayStats))
  : list (string * DayStats) :=
  match dailyStats with
  | [] => [(today, d)]
  | (date, old) :: rest =>
      if String.eqb date today then (date, d) :: rest
      else (date, old) :: setDay today d rest
  end.

Definition newDayStats : DayStats :=
  {| sessions := 0%float; dayTotalTime := 0%float; dayGoodPostureTime := 0%float;
     dayAverageScore := 0%float; dayPostureEvents := [] |}.

Section Sessions.

Variable parseDate : string -> option Z.

(** [addSessionData]: the statistics object after the call; [today] is
    [new Date().toDateString()] (the same day at the read in
    [addSessionData] and at the one in [calculateStreak]) and [nowISO] is
    [new Date().toISOString()]. *)
Definition addSessionData (stats : Statistics) (sessionData : SessionSummary)
    (today nowISO : string) : Statistics :=
  let totalSessions' := (totalSessions stats + 1)%float in
  let totalTime' := (totalTime stats + duration sessionData)%float in
  let totalGoodPostureTime' :=
    (totalGoodPostureTime stats + goodPostureTime sessionData)%float in
  let averagePostureScore' :=
    calculateAverageScore (Some totalSessions') (Some (averagePostureScore stats))
      (averageScore sessionData) in
  let dayStats :=
    match lookupDay today (dailyStats stats) with
    | Some d => d
    | None => newDayStats
    end in
  let dayStats' :=
    {| sessions := (sessions dayStats + 1)%float;
       dayTotalTime := (dayTotalTime dayStats + duration sessionData)%float;
       dayGoodPostureTime :=
         (dayGoodPostureTime dayStats + goodPostureTime sessionData)%float;
       dayAverageScore :=
         calculateAverageScore None None (averageScore sessionData);
       dayPostureEvents := dayPostureEvents dayStats ++ postureEvents sessionData |} in
  let dailyStats' := setDay today dayStats' (dailyStats stats) in
  {| totalSessions := totalSessions';
     totalTime := totalTime';
     totalGoodPostureTime := totalGoodPostureTime';
     averagePostureScore := averagePostureScore';
     streakDays := calculateStreak parseDate dailyStats' today;
     lastSessionDate := Some nowISO;
     dailyStats := dailyStats' |}.

End Sessions.

End DataStorage.

(** ** Vocabulary of the statements *)

Module Spec.

Import Js.
Open Scope float_scope.

(** [lo <= x <= hi] on numbers (false when [x] is NaN). *)
Definition within (lo hi x : float) : Prop :=
  (lo <=? x) = true /\ (x <=? hi) = true.

Definition withinb (lo hi x : float) : bool := (lo <=? x) && (x <=? hi).

(** The weighted sum 0.40 n + 0.35 t + 0.25 s of three finite numbers,
    computed in exact rational arithmetic. *)
Definition weightedSum (n t s : float) : option Q :=
  match value n, value t, value s with
  | Some a, Some b, Some c => Some ((2 # 5) * a + (7 # 20) * b + (1 # 4) * c)%Q
  | _, _, _ => None
  end.

(** Two finite numbers denote the same rational. *)
Definition sameRational (a b : option Q) : Prop :=
  match a, b with
  | Some x, Some y => Qeq_bool x y = true
  | _, _ => False
  end.

Definition sameRationalb (a b : option Q) : bool :=
  match a, b with
  | Some x, Some y => Qeq_bool x y
  | _, _ => false
  end.

(** The order of severity of the statuses. *)
Definition severity (s : PostureAnalysis.Status) : nat :=
  match s with
  | PostureAnalysis.excellent => 0
  | PostureAnalysis.good => 1
  | PostureAnalysis.warning => 2
  | PostureAnalysis.poor => 3
  | PostureAnalysis.unknown => 0
  end.

(** The three smoothing channels, with the raw value a frame contributes to
    each, the window kept for each, and the value emitted for each. *)
Inductive Channel := Neck | Torso | Shoulders.

Definition rawOf (c : Channel) (m : PostureAnalysis.Angles) : float :=
  match c with
  | Neck => PostureAnalysis.neckAngle m
  | Torso => PostureAnalysis.torsoAngle m
  | Shoulders => PostureAnalysis.asymmetry (PostureAnalysis.shoulderData m)
  end.

Definition windowOf (c : Channel) (st : PostureAnalysis.State) : list float :=
  match c with
  | Neck => PostureAnalysis.neck (PostureAnalysis.recentMeasurements st)
  | Torso => PostureAnalysis.torso (PostureAnalysis.recentMeasurements st)
  | Shoulders => PostureAnalysis.shoulders (PostureAnalysis.recentMeasurements st)
  end.

(** Feeding a sequence of measurements through [applySmoothingFilter]: the
    final state and the smoothed measurements emitted, in order. *)
Fixpoint runFilter (st : PostureAnalysis.State)
    (frames : list PostureAnalysis.Angles)
  : PostureAnalysis.State * list PostureAnalysis.Angles :=
  match frames with
  | [] => (st, [])
  | m :: rest =>
      let '(st1, out) := PostureAnalysis.applySmoothingFilter st m in
      let '(st2, outs) := runFilter st1 rest in
      (st2, out :: outs)
  end.

(** The states of a [PostureAnalysis] object: the one the constructor
    builds, and those its methods lead to. *)
Inductive reachable (M : MathObject) : PostureAnalysis.State -> Prop :=
| reach_constructor (now : Z) :
    reachable M (PostureAnalysis.constructor now)
| reach_analyzePose st landmarks imageSize now :
    reachable M st ->
    reachable M (fst (PostureAnalysis.analyzePose M st landmarks imageSize now))
| reach_applySmoothingFilter st m :
    reachable M st ->
    reachable M (fst (PostureAnalysis.applySmoothingFilter st m))
| reach_resetSmoothing st :
    reachable M st ->
    reachable M (PostureAnalysis.resetSmoothing st).

Definition windowsBounded (st : PostureAnalysis.State) : Prop :=
  forall c, List.length (windowOf c st) <= PostureAnalysis.smoothingWindow.

(** The last [n] elements of a list (all of it when it is shorter). *)
Definition lastn {A : Type} (n : nat) (l : list A) : list A :=
  skipn (List.length l - n) l.

(** The sum that [calculateMovingAverage] forms, and the mean of ten copies
    of one value. *)
Definition sumOf (values : list float) : float :=
  fold_left (fun sum value => sum + value) values 0.

Definition meanOfTen (v : float) : float :=
  PostureAnalysis.calculateMovingAverage (repeat v 10).

(** [goodPostureTime += 100], [k] times from 0, in binary64 arithmetic. *)
Definition accumulated (k : nat) : float :=
  Nat.iter k (fun t => t + 100) 0.

(** A run of [updateSessionData] calls, each with the clock value and the
    binary posture of a processed frame. *)
Fixpoint feedSamples (g : PostureGuardian.Guardian)
    (frames : list (Z * PostureGuardian.Posture)) : PostureGuardian.Guardian :=
  match frames with
  | [] => g
  | (now, p) :: rest =>
      feedSamples (PostureGuardian.updateSessionData g now p) rest
  end.

(** The history entry that [updateSessionData] appends. *)
Definition sampleOf (g : PostureGuardian.Guardian)
    (frame : Z * PostureGuardian.Posture) : PostureGuardian.Sample :=
  {| PostureGuardian.timestamp := fst frame;
     PostureGuardian.state := snd frame;
     PostureGuardian.neckAngle :=
       PostureGuardian.neck (PostureGuardian.currentAngles g);
     PostureGuardian.torsoAngle :=
       PostureGuardian.torso (PostureGuardian.currentAngles g) |}.

Definition history (g : PostureGuardian.Guardian) : list PostureGuardian.Sample :=
  PostureGuardian.postureHistory (PostureGuardian.sessionData g).

(** The number of frames of a run whose binary state is good. *)
Definition goodFrames (frames : list (Z * PostureGuardian.Posture)) : Z :=
  Z.of_nat (List.length
              (filter (fun f => PostureGuardian.Posture_eqb (snd f)
                                  PostureGuardian.good) frames)).

(** A session is running: [sessionStartTime] holds the (non-zero) clock
    value taken when monitoring started. *)
Definition sessionStarted (g : PostureGuardian.Guardian) : Prop :=
  exists start, PostureGuardian.sessionStartTime g = Some start /\ start <> 0%Z.

(** The binary classification: neck within its threshold and torso between
    the lower threshold and the upper threshold plus 15 degrees. *)
Definition withinThresholds (g : PostureGuardian.Guardian)
    (neckAngle torsoAngle : float) : Prop :=
  (neckAngle <=? PostureGuardian.neckThreshold (PostureGuardian.settings g)) = true
  /\ (PostureGuardian.torsoThresholdMin (PostureGuardian.settings g)
      <=? torsoAngle) = true
  /\ (torsoAngle
      <=? PostureGuardian.torsoThresholdMax (PostureGuardian.settings g) + 15)
     = true.

(** Concrete inputs at which the statements are exercised: a [Math] object
    (the statements hold for every one), a visible landmark, a frame size,
    and a measurement with a given neck angle. *)
Definition sampleMath : MathObject :=
  {| atan2 := fun y x => if x <? 0 then PI else 0;
     pow := fun b e => b * b;
     round := fun v => v |}.

Definition sampleLandmark : PostureAnalysis.Landmark :=
  {| PostureAnalysis.pos_x := 0.5;
     PostureAnalysis.pos_y := 0.5;
     PostureAnalysis.visibility := 0.9 |}.

Definition sampleImage : PostureAnalysis.ImageSize :=
  {| PostureAnalysis.width := 640; PostureAnalysis.height := 480 |}.

Definition sampleAngles (neckAngle : float) : PostureAnalysis.Angles :=
  {| PostureAnalysis.neckAngle := neckAngle;
     PostureAnalysis.torsoAngle := 90;
     PostureAnalysis.shoulderData :=
       {| PostureAnalysis.asymmetry := 0;
          PostureAnalysis.leftHeight := 0.5;
          PostureAnalysis.rightHeight := 0.5;
          PostureAnalysis.forwardProjection := 10 |} |}.

(** The sub-scores range over finitely many values. *)
Definition neckScores : list float := [100; 85; 60; 30].
Definition torsoScores : list float := [100; 80; 50; 20].
Definition shoulderScores : list float := [100; 85; 70; 80; 65; 50; 60; 45; 30].

(** What the statement of the weighted sum asks of three sub-scores, as a
    test that can be run on each of the finitely many combinations. *)
Definition scoreCheck (n t s : float) : bool :=
  let overall := n * 0.4 + t * 0.35 + s * 0.25 in
  sameRationalb (value overall) (weightedSum n t s)
  && withinb 0 100 n && withinb 0 100 t && withinb 0 100 s
  && withinb 0 100 overall.

End Spec.

(** ** Vocabulary of the further statements *)

Module AnalysisSpec.

Import Js PostureAnalysis Spec.
Open Scope float_scope.

(** What a region analysis returns, without the angle it was given. *)
Definition Outcome : Type := float * Status * list string.

Definition outcome (a : Analysis) : Outcome := (score a, status a, issues a).

(** The outcomes that [analyzeNeckPosture], [analyzeTorsoPosture] and
    [analyzeShoulderPosture] can return. *)
Definition neckOutcomes : list Outcome :=
  [ (100, excellent, []); (85, good, []);
    (60, warning, ["Forward head posture detected"%string]);
    (60, warning, ["Head tilted backward"%string]);
    (30, poor, ["Severe forward head posture"%string]);
    (30, poor, ["Severe backward head tilt"%string]) ].

Definition torsoOutcomes : list Outcome :=
  [ (100, excellent, []); (80, good, []);
    (50, warning, ["Leaning forward"%string]);
    (50, warning, ["Leaning backward"%string]);
    (20, poor, ["Severe forward lean"%string]);
    (20, poor, ["Severe backward lean"%string]) ].

Definition shoulderOutcomes : list Outcome :=
  [ (100, excellent, []);
    (100 - 20, warning, ["Slight shoulder rounding"%string]);
    (100 - 40, poor, ["Rounded shoulders"%string]);
    (100 - 15, good, []);
    (100 - 15 - 20, good, ["Slight shoulder rounding"%string]);
    (100 - 15 - 40, poor, ["Rounded shoulders"%string]);
    (100 - 30, warning, ["Uneven shoulder height"%string]);
    (100 - 30 - 20, warning,
     ["Uneven shoulder height"%string; "Slight shoulder rounding"%string]);
    (100 - 30 - 40, poor,
     ["Uneven shoulder height"%string; "Rounded shoulders"%string]) ].

Definition Status_eqb (a b : Status) : bool :=
  match a, b with
  | excellent, excellent | good, good | warning, warning | poor, poor
  | unknown, unknown => true
  | _, _ => false
  end.

Definition isNil {A : Type} (l : list A) : bool :=
  match l with [] => true | _ => false end.

(** The overall score and the issue list of an assessment, from the three
    outcomes. *)
Definition overallOf (n t s : Outcome) : float :=
  fst (fst n) * neck weights + fst (fst t) * torso weights
  + fst (fst s) * shoulders weights.

Definition issuesOf (n t s : Outcome) : list string :=
  let allIssues := snd n ++ snd t ++ snd s in
  filterFirst allIssues 0 allIssues.


Definition statusCheck (n t s : Outcome) : bool :=
  let st := determinePostureStatus (overallOf n t s) in
  negb (Status_eqb st unknown)
  && (if isNil (issuesOf n t s)
      then Status_eqb st excellent || Status_eqb st good else true)
  && (if Status_eqb st excellent then isNil (snd n) && isNil (snd t) else true).

Definition genericRecommendation : string := "Maintain good posture awareness".

(** The issues that [recommendationMap] has no entry for. *)
Definition unmappedIssues : list string :=
  ["Severe backward head tilt"; "Severe backward lean"]%string.

Definition recommendationsCheck (n t s : Outcome) : bool :=
  forallb (fun issue =>
             Bool.eqb (match lookup issue recommendationMap with
                       | Some _ => false
                       | None => true
                       end)
                      (existsb (String.eqb issue) unmappedIssues))
          (issuesOf n t s).

Definition neckMonotoneCheck (n n' t s : Outcome) : bool :=
  if fst (fst n') <=? fst (fst n)
  then overallOf n' t s <=? overallOf n t s else true.

Definition torsoMonotoneCheck (t t' n s : Outcome) : bool :=
  if fst (fst t') <=? fst (fst t)
  then overallOf n t' s <=? overallOf n t s else true.

(** A measurement with its neck angle, or its torso angle, replaced. *)
Definition withNeck (sm : Angles) (a : float) : Angles :=
  {| neckAngle := a; torsoAngle := torsoAngle sm; shoulderData := shoulderData sm |}.

Definition withTorso (sm : Angles) (a : float) : Angles :=
  {| neckAngle := neckAngle sm; torsoAngle := a; shoulderData := shoulderData sm |}.

(** A frame handed to [analyzePose]: the landmarks, the image size and the
    clock value at the call. *)
Definition Frame : Type := (list (option Landmark) * ImageSize * Z)%type.

(** A run of [analyzePose] calls: the final state and the assessments
    returned, in order. *)
Fixpoint runPose (M : MathObject) (st : State) (frames : list Frame)
  : State * list PostureState :=
  match frames with
  | [] => (st, [])
  | (landmarks, imageSize, now) :: rest =>
      let '(st1, out) := analyzePose M st landmarks imageSize now in
      let '(st2, outs) := runPose M st1 rest in
      (st2, out :: outs)
  end.

(** The measurement of a frame that [analyzePose] accepts (none for a
    frame it answers with the default state). *)
Definition acceptedMeasurements (M : MathObject) (frame : Frame) : list Angles :=
  let '(landmarks, imageSize, _) := frame in
  match landmarks with
  | [] => []
  | _ =>
      let measurements := extractMeasurements M landmarks imageSize in
      match isValid measurements, measured measurements with
      | true, Some raw => [raw]
      | _, _ => []
      end
  end.

End AnalysisSpec.

Module GuardianSpec.

Import Js PostureGuardian Spec.
Open Scope Z_scope.

(** A run of [onPoseResults] calls, each with the clock value and the two
    angles computed for the frame. *)
Fixpoint feedFrames (g : Guardian) (frames : list (Z * float * float)) : Guardian :=
  match frames with
  | [] => g
  | (now, neckAngle, torsoAngle) :: rest =>
      feedFrames (onPoseResults g now neckAngle torsoAngle) rest
  end.

(** The binary state that the settings of [g] give a frame. *)
Definition classifyFrame (g : Guardian) (frame : Z * float * float) : Posture :=
  classifyPosture g (snd (fst frame)) (snd frame).

(** The number of entries of a sequence of binary states that are poor
    while the state before them is not. *)
Fixpoint transitionsIntoPoor (previous : Posture) (states : list Posture) : Z :=
  match states with
  | [] => 0
  | p :: rest =>
      (if Posture_eqb p poor && negb (Posture_eqb previous poor) then 1 else 0)
      + transitionsIntoPoor p rest
  end.

(** A sequence of sessions saved one after the other: each with its
    session data, the date string and the day of the week at the save. *)
Fixpoint recordSessions (stats : Statistics)
    (sessions : list (SessionData * string * nat)) : Statistics :=
  match sessions with
  | [] => stats
  | (sd, today, dayIndex) :: rest =>
      recordSessions (updateStatistics stats sd today dayIndex) rest
  end.

(** The streak counters are ordered: the current streak is at most the
    best one, which is at most the number of sessions. *)
Definition streakInvariant (stats : Statistics) : Prop :=
  0 <= orZero (currentStreak stats) <= orZero (bestStreak stats)
  /\ orZero (bestStreak stats) <= orZero (totalSessions stats).

Definition sessionTime (session : SessionData * string * nat) : Z :=
  totalTime (fst (fst session)).


(** [this.achievements[index].unlocked], when there is such an entry. *)
Definition isUnlocked (achievements : list Achievement) (index : nat) : option bool :=
  option_map unlocked (nth_error achievements index).

(** The clock values of a run of frames at which the stretch reminder is
    shown. *)
Fixpoint remindersShown (stretchReminders : bool) (reminderInterval : Z)
    (lastReminder : Z) (clocks : list Z) : list Z :=
  match clocks with
  | [] => []
  | now :: rest =>
      let '(shown, last) :=
        checkStretchReminder stretchReminders reminderInterval true
          lastReminder now in
      if shown then now :: remindersShown stretchReminders reminderInterval last rest
      else remindersShown stretchReminders reminderInterval last rest
  end.

(** Each time of the list is more than [gap] after the one before it. *)
Fixpoint spaced (gap : Z) (previous : Z) (times : list Z) : Prop :=
  match times with
  | [] => True
  | t :: rest => gap < t - previous /\ spaced gap t rest
  end.

End GuardianSpec.

Module StorageSpec.

(** A list of strings in ascending code-unit order. *)
Fixpoint ordered (l : list string) : Prop :=
  match l with
  | [] => True
  | h :: t => Forall (fun x => String.leb h x = true) t /\ ordered t
  end.

(** Today is a key of the daily statistics and no key sorts after it. *)
Definition todayIsLatest (keys : list string) (today : string) : bool :=
  existsb (String.eqb today) keys && forallb (fun k => String.leb k today) keys.

End StorageSpec.

(* ================================================================== *)
(** * Part II: properties *)
(* ================================================================== *)

(** ** Facts about binary64 arithmetic

    The operations on [float] are specified by their counterparts on
    [spec_float] (sign, mantissa, exponent).  The facts below establish when
    they are exact: a sum, difference or quotient that is itself a binary64
    number is returned without rounding.  Numbers are compared through
    [units], their value as an integer multiple of 2^-1074. *)

Module JsFacts.

Import Js.
Open Scope Z_scope.

Lemma Prim2SF_zero : Prim2SF 0%float = S754_zero false.
Proof. reflexivity. Qed.

Lemma Prim2SF_one : Prim2SF 1%float = SFone64.
Proof. reflexivity. Qed.

(** [x <= y] excludes [y < x]. *)
Lemma leb_true_ltb_false (x y : float) :
  (x <=? y)%float = true -> (y <? x)%float = false.
Proof.
  rewrite leb_spec, ltb_spec. unfold SFleb, SFltb.
  destruct (Prim2SF x) as [sx|sx| |sx mx ex], (Prim2SF y) as [sy|sy| |sy my ey];
    simpl; try reflexivity; try discriminate;
    try (destruct sx; simpl; try reflexivity; discriminate);
    try (destruct sy; simpl; try reflexivity; discriminate);
    try (destruct sx, sy; simpl; try reflexivity; discriminate).
  destruct sx, sy; simpl; try reflexivity; try discriminate;
    rewrite (Z.compare_antisym ey ex);
    (destruct (ey ?= ex)%Z; simpl; try reflexivity; try discriminate);
    rewrite !Pos.compare_cont_spec; simpl;
    rewrite (Pos.compare_antisym my mx);
    destruct (my ?= mx)%positive; simpl; try reflexivity; discriminate.
Qed.

(** *** Digits of a mantissa *)


Lemma digits2_size (m : positive) : digits2_pos m = Pos.size m.
Proof. induction m; cbn; congruence. Qed.

Lemma digits_pos (m : positive) : 0 < digits m.
Proof. unfold digits. lia. Qed.

Lemma digits_bounds (m : positive) :
  2 ^ (digits m - 1) <= Zpos m < 2 ^ digits m.
Proof.
  unfold digits. rewrite digits2_size.
  pose proof (Pos.size_gt m) as Hgt. pose proof (Pos.size_le m) as Hle.
  apply Pos2Z.pos_lt_pos in Hgt. apply Pos2Z.pos_le_pos in Hle.
  rewrite Pos2Z.inj_pow in Hgt, Hle.
  change (Zpos m~0) with (2 * Zpos m) in Hle.
  split; [|exact Hgt].
  replace (2 ^ Zpos (Pos.size m)) with (2 * 2 ^ (Zpos (Pos.size m) - 1)) in Hle.
  - lia.
  - rewrite <- Z.pow_succ_r by lia. f_equal. lia.
Qed.

Lemma digits_unique (m : positive) (k : Z) :
  2 ^ (k - 1) <= Zpos m < 2 ^ k -> digits m = k.
Proof.
  intros [Hlo Hhi]. pose proof (digits_bounds m) as [Dlo Dhi].
  pose proof (digits_pos m) as Dp.
  assert (Hk : 0 < k).
  { destruct (Z.ltb_spec 0 k) as [|Hle]; [assumption|].
    assert (2 ^ k <= 1).
    { destruct (Z.eq_dec k 0) as [->|]; [cbn; lia|].
      rewrite Z.pow_neg_r by lia. lia. }
    lia. }
  destruct (Z.lt_trichotomy (digits m) k) as [Hlt|[Heq|Hgt]]; [|exact Heq|].
  - assert (2 ^ digits m <= 2 ^ (k - 1)) by (apply Z.pow_le_mono_r; lia). lia.
  - assert (2 ^ k <= 2 ^ (digits m - 1)) by (apply Z.pow_le_mono_r; lia). lia.
Qed.

(** Shifting a mantissa left by [k] places adds [k] digits. *)
Lemma digits_shift (M m : positive) (k : Z) :
  0 <= k -> Zpos M = Zpos m * 2 ^ k -> digits M = digits m + k.
Proof.
  intros Hk HM. apply digits_unique. rewrite HM.
  pose proof (digits_bounds m) as [Dlo Dhi]. pose proof (digits_pos m).
  replace (digits m + k - 1) with ((digits m - 1) + k) by lia.
  rewrite !Z.pow_add_r by lia.
  assert (0 < 2 ^ k) by (apply Z.pow_pos_nonneg; lia).
  split; nia.
Qed.

Lemma iter_pos_nat {A : Type} (f : A -> A) (p : positive) :
  forall x, iter_pos f p x = Nat.iter (Pos.to_nat p) f x.
Proof.
  induction p as [p IH|p IH|]; intros x; cbn [iter_pos].
  - rewrite !IH, Pos2Nat.inj_xI.
    replace (S (2 * Pos.to_nat p))%nat with (Pos.to_nat p + (Pos.to_nat p + 1))%nat by lia.
    rewrite !Nat.iter_add. cbn. reflexivity.
  - rewrite !IH, Pos2Nat.inj_xO.
    replace (2 * Pos.to_nat p)%nat with (Pos.to_nat p + Pos.to_nat p)%nat by lia.
    rewrite Nat.iter_add. reflexivity.
  - reflexivity.
Qed.

Lemma shiftl_nat_Z (p : positive) (k : nat) :
  Zpos (Pos.shiftl_nat p k) = Zpos p * 2 ^ Z.of_nat k.
Proof.
  induction k as [|k IH].
  - cbn. lia.
  - cbn [Pos.shiftl_nat nat_rect]. unfold Pos.shiftl_nat in *. cbn [Nat.iter nat_rect].
    rewrite Pos2Z.inj_xO, IH, Nat2Z.inj_succ, Z.pow_succ_r by lia. lia.
Qed.

Lemma shr_1_exact_nat (k : nat) :
  forall m,
    Nat.iter k shr_1 {| shr_m := Zpos (Pos.shiftl_nat m k); shr_r := false; shr_s := false |}
    = {| shr_m := Zpos m; shr_r := false; shr_s := false |}.
Proof.
  induction k as [|k IH]; intros m; [reflexivity|].
  rewrite Nat.iter_succ_r.
  unfold Pos.shiftl_nat. cbn [Nat.iter nat_rect shr_1 orb].
  apply IH.
Qed.

Lemma shr_exact (M m : positive) (n : positive) (e : Z) :
  Zpos M = Zpos m * 2 ^ Zpos n ->
  shr {| shr_m := Zpos M; shr_r := false; shr_s := false |} e (Zpos n)
  = ({| shr_m := Zpos m; shr_r := false; shr_s := false |}, e + Zpos n).
Proof.
  intros HM. unfold shr. f_equal.
  rewrite iter_pos_nat.
  assert (E : M = Pos.shiftl_nat m (Pos.to_nat n)).
  { apply Pos2Z.inj. rewrite shiftl_nat_Z, positive_nat_Z. exact HM. }
  rewrite E. apply shr_1_exact_nat.
Qed.


Lemma fexp_eq (k : Z) : fexp prec emax k = fexp64 k.
Proof. reflexivity. Qed.

Lemma bounded_spec (m : positive) (e : Z) :
  bounded prec emax m e = true <-> fexp64 (digits m + e) = e /\ e <= 971.
Proof.
  unfold bounded, canonical_mantissa. rewrite fexp_eq.
  change (emax - prec) with 971. fold (digits m).
  rewrite andb_true_iff, Z.eqb_eq, Z.leb_le. reflexivity.
Qed.

(** *** Exact rounding *)

(** Rounding a mantissa that only needs its trailing zeros removed. *)
Lemma binary_round_aux_exact (s : bool) (M : positive) (e : Z) (m' : positive) (e' : Z) :
  bounded prec emax m' e' = true ->
  e <= e' ->
  Zpos M = Zpos m' * 2 ^ (e' - e) ->
  binary_round_aux prec emax s (Zpos M) e loc_Exact = S754_finite s m' e'.
Proof.
  intros Hb Hle HM. apply bounded_spec in Hb. destruct Hb as [Hc He].
  assert (HdM : digits M = digits m' + (e' - e)) by (apply digits_shift; [lia|exact HM]).
  unfold binary_round_aux, shr_fexp. rewrite !fexp_eq.
  change (Zdigits2 (Zpos M)) with (digits M).
  replace (digits M + e) with (digits m' + e') by lia.
  rewrite Hc.
  cbn [shr_record_of_loc].
  assert (Hstep : shr {| shr_m := Zpos M; shr_r := false; shr_s := false |} e (e' - e)
                  = ({| shr_m := Zpos m'; shr_r := false; shr_s := false |}, e')).
  { destruct (e' - e) as [|n|n] eqn:En.
    - cbn [shr]. f_equal; [|lia].
      f_equal. rewrite HM. cbn. lia.
    - rewrite shr_exact with (m := m') by exact HM. f_equal. lia.
    - lia. }
  rewrite Hstep.
  cbn [shr_m loc_of_shr_record round_nearest_even shr_record_of_loc].
  rewrite ?fexp_eq.
  change (Zdigits2 (Zpos m')) with (digits m').
  rewrite Hc, Z.sub_diag. cbn [shr shr_m].
  change (emax - prec) with 971.
  replace (e' <=? 971) with true by (symmetry; apply Z.leb_le; exact He).
  reflexivity.
Qed.

Lemma pos_iter_xO (m : positive) (d : positive) :
  Zpos (Pos.iter xO m d) = Zpos m * 2 ^ Zpos d.
Proof.
  rewrite Pos2Nat.inj_iter. 
  rewrite <- (positive_nat_Z d).
  change (Nat.iter (Pos.to_nat d) xO m) with (Pos.shiftl_nat m (Pos.to_nat d)).
  apply shiftl_nat_Z.
Qed.

(** Rounding a mantissa and exponent that denote a representable number
    gives the canonical representation of that number. *)
Lemma binary_round_exact (s : bool) (M : positive) (e : Z) (m' : positive) (e' : Z) :
  bounded prec emax m' e' = true ->
  (e <= e' /\ Zpos M = Zpos m' * 2 ^ (e' - e))
  \/ (e' <= e /\ Zpos m' = Zpos M * 2 ^ (e - e')) ->
  binary_round prec emax s M e = S754_finite s m' e'.
Proof.
  intros Hb Hval. pose proof Hb as Hb'.
  apply bounded_spec in Hb'. destruct Hb' as [Hc He].
  unfold binary_round. rewrite fexp_eq. fold (digits M).
  destruct Hval as [[Hle HM] | [Hle Hm]].
  - assert (HdM : digits M = digits m' + (e' - e)) by (apply digits_shift; [lia|exact HM]).
    replace (digits M + e) with (digits m' + e') by lia. rewrite Hc.
    unfold shl_align.
    destruct (e' - e) as [|n|n] eqn:En; try lia;
      apply binary_round_aux_exact; auto; rewrite En; exact HM.
  - assert (Hdm : digits m' = digits M + (e - e')) by (apply digits_shift; [lia|exact Hm]).
    replace (digits M + e) with (digits m' + e') by lia. rewrite Hc.
    unfold shl_align.
    destruct (e' - e) as [|n|n] eqn:En; try lia.
    + apply binary_round_aux_exact; auto; [lia|].
      rewrite En. replace (e - e') with 0 in Hm by lia.
      cbn in *. lia.
    + apply binary_round_aux_exact; auto; [lia|].
      rewrite Z.sub_diag, pos_iter_xO, Hm. 
      replace (e - e') with (Zpos n) by lia. cbn. lia.
Qed.

Lemma bounded_exp_ge (m : positive) (e : Z) :
  bounded prec emax m e = true -> -1074 <= e.
Proof. intros H. apply bounded_spec in H. unfold fexp64 in H. lia. Qed.

Lemma pow2_pos (k : Z) : 0 <= k -> 0 < 2 ^ k.
Proof. intros. apply Z.pow_pos_nonneg; lia. Qed.

(** Cancelling a common power of two. *)
Lemma pow2_cancel (a b p q c : Z) :
  0 <= p -> 0 <= q -> 0 <= c ->
  a * 2 ^ (p + c) = b * 2 ^ (q + c) -> a * 2 ^ p = b * 2 ^ q.
Proof.
  intros Hp Hq Hc H. rewrite !Z.pow_add_r, !Z.mul_assoc in H by lia.
  apply Z.mul_cancel_r in H; [exact H|].
  pose proof (pow2_pos c Hc). lia.
Qed.

(** The canonical representation of a number is unique. *)
Lemma canonical_unique (m m' : positive) (e e' : Z) :
  bounded prec emax m e = true -> bounded prec emax m' e' = true ->
  Zpos m * 2 ^ (e + 1074) = Zpos m' * 2 ^ (e' + 1074) ->
  m = m' /\ e = e'.
Proof.
  intros Hb Hb' Hv.
  pose proof (bounded_exp_ge m e Hb). pose proof (bounded_exp_ge m' e' Hb').
  assert (H1 : binary_round prec emax false m e = S754_finite false m e).
  { apply binary_round_exact; [exact Hb|]. left. split; [lia|].
    rewrite Z.sub_diag. cbn. lia. }
  assert (H2 : binary_round prec emax false m e = S754_finite false m' e').
  { apply binary_round_exact; [exact Hb'|].
    destruct (Z.le_gt_cases e e') as [Hle|Hgt].
    - left. split; [exact Hle|].
      replace (Zpos m) with (Zpos m * 2 ^ 0) by (cbn; lia).
      apply pow2_cancel with (c := e + 1074); try lia.
      replace (0 + (e + 1074)) with (e + 1074) by lia.
      replace (e' - e + (e + 1074)) with (e' + 1074) by lia. exact Hv.
    - right. split; [lia|].
      replace (Zpos m') with (Zpos m' * 2 ^ 0) by (cbn; lia).
      apply pow2_cancel with (c := e' + 1074); try lia.
      replace (0 + (e' + 1074)) with (e' + 1074) by lia.
      replace (e - e' + (e' + 1074)) with (e + 1074) by lia. symmetry. exact Hv. }
  rewrite H1 in H2. inversion H2. split; reflexivity.
Qed.

Lemma shl_align_fst (m : positive) (e e0 : Z) :
  e0 <= e -> Zpos (fst (shl_align m e e0)) = Zpos m * 2 ^ (e - e0).
Proof.
  intros H. unfold shl_align.
  destruct (e0 - e) as [|d|d] eqn:E; cbn [fst].
  - replace (e - e0) with 0 by lia. cbn. lia.
  - lia.
  - rewrite pos_iter_xO. f_equal. f_equal. lia.
Qed.



Lemma fexp64_mono (a b : Z) : a <= b -> fexp64 a <= fexp64 b.
Proof. unfold fexp64. lia. Qed.

Lemma div_eucl_div_mod (a b : Z) : Z.div_eucl a b = (a / b, a mod b).
Proof. unfold Z.div, Z.modulo. destruct (Z.div_eucl a b). reflexivity. Qed.

Lemma new_location_zero (n : Z) : new_location n 0 = loc_Exact.
Proof.
  unfold new_location, new_location_even, new_location_odd.
  destruct (Z.even n); reflexivity.
Qed.

(** *** Exact division, addition and subtraction *)

(** Division whose exact quotient is representable is exact. *)
Lemma SFdiv_exact (s : bool) (mx my mz : positive) (ex ey ez : Z) :
  bounded prec emax mx ex = true ->
  bounded prec emax my ey = true ->
  bounded prec emax mz ez = true ->
  Zpos mx * 2 ^ (ex + 2148) = Zpos my * Zpos mz * 2 ^ (ey + ez + 2148) ->
  SF64div (S754_finite s mx ex) (S754_finite false my ey) = S754_finite s mz ez.
Proof.
  intros Hx Hy Hz Hv.
  pose proof (bounded_exp_ge _ _ Hx) as Gx. pose proof (bounded_exp_ge _ _ Hy) as Gy.
  pose proof (bounded_exp_ge _ _ Hz) as Gz.
  pose proof Hz as Hz'. apply bounded_spec in Hz'. destruct Hz' as [Hcz _].
  pose proof Hx as Hx'. apply bounded_spec in Hx'. destruct Hx' as [_ Lx].
  pose proof Hy as Hy'. apply bounded_spec in Hy'. destruct Hy' as [_ Ly].
  unfold SF64div, SFdiv, SFdiv_core_binary. rewrite fexp_eq.
  change (Zdigits2 (Zpos mx)) with (digits mx).
  change (Zdigits2 (Zpos my)) with (digits my).
  set (e' := Z.min (fexp64 (digits mx + ex - (digits my + ey))) (ex - ey)).
  (* the magnitude of the quotient bounds the working exponent *)
  assert (Hmag : digits mx + ex <= digits my + ey + (digits mz + ez)).
  { pose proof (digits_bounds mx) as [Lmx _].
    pose proof (digits_bounds my) as [_ Umy].
    pose proof (digits_bounds mz) as [_ Umz].
    pose proof (digits_pos mx). pose proof (digits_pos my). pose proof (digits_pos mz).
    assert (Hlt : 2 ^ (digits mx - 1 + (ex + 2148))
                  < 2 ^ (digits my + digits mz + (ey + ez + 2148))).
    { rewrite (Z.pow_add_r 2 (digits mx - 1) (ex + 2148)) by lia.
      rewrite (Z.pow_add_r 2 (digits my + digits mz) (ey + ez + 2148)) by lia.
      rewrite (Z.pow_add_r 2 (digits my) (digits mz)) by lia.
      pose proof (pow2_pos (ex + 2148)) as P1.
      pose proof (pow2_pos (ey + ez + 2148)) as P2.
      pose proof (pow2_pos (digits my)) as P3.
      pose proof (pow2_pos (digits mz)) as P4.
      set (A := 2 ^ (ex + 2148)) in *. set (B := 2 ^ (ey + ez + 2148)) in *.
      set (Dy := 2 ^ digits my) in *. set (Dz := 2 ^ digits mz) in *.
      set (Dx := 2 ^ (digits mx - 1)) in *.
      assert (Dx * A <= Zpos mx * A) by (apply Z.mul_le_mono_nonneg_r; lia).
      assert (Zpos my * Zpos mz < Dy * Dz) by nia.
      assert (Zpos my * Zpos mz * B < Dy * Dz * B)
        by (apply Z.mul_lt_mono_pos_r; lia).
      lia. }
    apply Z.pow_lt_mono_r_iff in Hlt; lia. }
  assert (He' : e' <= ez /\ e' <= ex - ey /\ -2148 <= ey + e').
  { pose proof (fexp64_mono (digits mx + ex - (digits my + ey)) (digits mz + ez)).
    unfold e'. unfold fexp64 in *. lia. }
  destruct He' as [He1 [He2 He3]].
  remember (ex - ey - e') as sh eqn:Esh.
  assert (Hsh : 0 <= sh) by lia.
  assert (Hm' : match sh with
                | Zpos _ => Z.shiftl (Zpos mx) sh
                | 0 => Zpos mx
                | Zneg _ => 0
                end = Zpos mz * 2 ^ (ez - e') * Zpos my).
  { assert (E : Zpos mx * 2 ^ sh = Zpos my * Zpos mz * 2 ^ (ez - e')).
    { apply pow2_cancel with (c := ey + e' + 2148); try lia.
      replace (sh + (ey + e' + 2148)) with (ex + 2148) by lia.
      replace (ez - e' + (ey + e' + 2148)) with (ey + ez + 2148) by lia.
      exact Hv. }
    clear Esh. destruct sh as [|p|p]; try lia.
    rewrite Z.shiftl_mul_pow2 by lia. lia. }
  rewrite Hm', div_eucl_div_mod, Z.div_mul, Z.mod_mul by lia.
  rewrite new_location_zero.
  assert (Hq : 0 < Zpos mz * 2 ^ (ez - e'))
    by (pose proof (pow2_pos (ez - e')); nia).
  destruct (Zpos mz * 2 ^ (ez - e')) as [|Q|Q] eqn:EQ; try lia.
  rewrite xorb_false_r.
  apply binary_round_aux_exact; [exact Hz|exact He1|].
  symmetry. exact EQ.
Qed.


Lemma signed_nonzero s m e : -1074 <= e -> signed s m e <> 0.
Proof.
  intros H. unfold signed. pose proof (pow2_pos (e + 1074)).
  destruct s; cbn [cond_Zopp]; nia.
Qed.

(** The common part of addition and subtraction: normalising an aligned
    integer sum whose value is representable (or zero). *)
Lemma binary_normalize_exact (R e0 : Z) (sz : bool) (mz : positive) (ez : Z) :
  -1074 <= e0 ->
  bounded prec emax mz ez = true ->
  R * 2 ^ (e0 + 1074) = signed sz mz ez ->
  binary_normalize prec emax R e0 false = S754_finite sz mz ez.
Proof.
  intros He0 Hz HR. pose proof (bounded_exp_ge _ _ Hz) as Gz.
  pose proof (pow2_pos (e0 + 1074)) as P0. pose proof (pow2_pos (ez + 1074)) as Pz.
  unfold signed in HR.
  assert (Hround : forall P, Zpos P * 2 ^ (e0 + 1074) = Zpos mz * 2 ^ (ez + 1074) ->
                   forall s, binary_round prec emax s P e0 = S754_finite s mz ez).
  { intros P HP s. apply binary_round_exact; [exact Hz|].
    destruct (Z.le_gt_cases e0 ez) as [Hle|Hgt].
    - left. split; [exact Hle|].
      replace (Zpos P) with (Zpos P * 2 ^ 0) by (cbn; lia).
      apply pow2_cancel with (c := e0 + 1074); try lia.
      replace (0 + (e0 + 1074)) with (e0 + 1074) by lia.
      replace (ez - e0 + (e0 + 1074)) with (ez + 1074) by lia. exact HP.
    - right. split; [lia|].
      replace (Zpos mz) with (Zpos mz * 2 ^ 0) by (cbn; lia).
      apply pow2_cancel with (c := ez + 1074); try lia.
      replace (0 + (ez + 1074)) with (ez + 1074) by lia.
      replace (e0 - ez + (ez + 1074)) with (e0 + 1074) by lia.
      symmetry. exact HP. }
  destruct R as [|P|P]; cbn [binary_normalize].
  - exfalso. destruct sz; cbn [cond_Zopp] in HR; nia.
  - destruct sz; cbn [cond_Zopp] in HR; [exfalso; nia|].
    apply Hround. lia.
  - destruct sz; cbn [cond_Zopp] in HR; [|exfalso; nia].
    apply Hround. rewrite <- Pos2Z.opp_pos, Z.mul_opp_l in HR. lia.
Qed.

Lemma aligned_value (s : bool) (m : positive) (e e0 : Z) :
  -1074 <= e0 -> e0 <= e ->
  cond_Zopp s (Zpos (fst (shl_align m e e0))) * 2 ^ (e0 + 1074) = signed s m e.
Proof.
  intros H0 H. rewrite shl_align_fst by exact H. unfold signed.
  replace (e + 1074) with ((e - e0) + (e0 + 1074)) by lia.
  rewrite (Z.pow_add_r 2 (e - e0) (e0 + 1074)) by lia.
  destruct s; cbn [cond_Zopp]; ring.
Qed.

(** Exact addition, any signs, non-zero sum. *)
Lemma SFadd_exact_signed (sx sy sz : bool) (mx my mz : positive) (ex ey ez : Z) :
  bounded prec emax mx ex = true ->
  bounded prec emax my ey = true ->
  bounded prec emax mz ez = true ->
  signed sz mz ez = signed sx mx ex + signed sy my ey ->
  SF64add (S754_finite sx mx ex) (S754_finite sy my ey) = S754_finite sz mz ez.
Proof.
  intros Hx Hy Hz Hv.
  pose proof (bounded_exp_ge _ _ Hx). pose proof (bounded_exp_ge _ _ Hy).
  unfold SF64add, SFadd.
  apply binary_normalize_exact; [lia|exact Hz|].
  rewrite Z.mul_add_distr_r, !aligned_value by lia. symmetry. exact Hv.
Qed.

Lemma SFadd_cancel (sx sy : bool) (mx my : positive) (ex ey : Z) :
  bounded prec emax mx ex = true ->
  bounded prec emax my ey = true ->
  signed sx mx ex + signed sy my ey = 0 ->
  SF64add (S754_finite sx mx ex) (S754_finite sy my ey) = S754_zero false.
Proof.
  intros Hx Hy Hv.
  pose proof (bounded_exp_ge _ _ Hx). pose proof (bounded_exp_ge _ _ Hy).
  unfold SF64add, SFadd.
  set (e0 := Z.min ex ey).
  assert (He0 : -1074 <= e0 /\ e0 <= ex /\ e0 <= ey) by (unfold e0; lia).
  set (R := cond_Zopp sx (Zpos (fst (shl_align mx ex e0)))
            + cond_Zopp sy (Zpos (fst (shl_align my ey e0)))).
  assert (HR : R * 2 ^ (e0 + 1074) = 0).
  { unfold R. rewrite Z.mul_add_distr_r, !aligned_value by lia. exact Hv. }
  assert (R = 0) by (pose proof (pow2_pos (e0 + 1074)); nia).
  rewrite H1. reflexivity.
Qed.

Lemma SFsub_exact_signed (sx sy sz : bool) (mx my mz : positive) (ex ey ez : Z) :
  bounded prec emax mx ex = true ->
  bounded prec emax my ey = true ->
  bounded prec emax mz ez = true ->
  signed sz mz ez = signed sx mx ex - signed sy my ey ->
  SF64sub (S754_finite sx mx ex) (S754_finite sy my ey) = S754_finite sz mz ez.
Proof.
  intros Hx Hy Hz Hv.
  pose proof (bounded_exp_ge _ _ Hx). pose proof (bounded_exp_ge _ _ Hy).
  unfold SF64sub, SFsub.
  apply binary_normalize_exact; [lia|exact Hz|].
  rewrite Z.mul_sub_distr_r, !aligned_value by lia. symmetry. exact Hv.
Qed.

Lemma SFsub_cancel (sx sy : bool) (mx my : positive) (ex ey : Z) :
  bounded prec emax mx ex = true ->
  bounded prec emax my ey = true ->
  signed sx mx ex - signed sy my ey = 0 ->
  SF64sub (S754_finite sx mx ex) (S754_finite sy my ey) = S754_zero false.
Proof.
  intros Hx Hy Hv.
  pose proof (bounded_exp_ge _ _ Hx). pose proof (bounded_exp_ge _ _ Hy).
  unfold SF64sub, SFsub.
  set (e0 := Z.min ex ey).
  assert (He0 : -1074 <= e0 /\ e0 <= ex /\ e0 <= ey) by (unfold e0; lia).
  set (R := cond_Zopp sx (Zpos (fst (shl_align mx ex e0)))
            - cond_Zopp sy (Zpos (fst (shl_align my ey e0)))).
  assert (HR : R * 2 ^ (e0 + 1074) = 0).
  { unfold R. rewrite Z.mul_sub_distr_r, !aligned_value by lia. exact Hv. }
  assert (R = 0) by (pose proof (pow2_pos (e0 + 1074)); nia).
  rewrite H1. reflexivity.
Qed.





(** *** The same facts on [float] *)

(** A non-zero number of units is carried by a finite float. *)
Lemma units_finite (x : float) (n : Z) :
  units x = Some n -> n <> 0 ->
  exists s m e,
    Prim2SF x = S754_finite s m e
    /\ bounded prec emax m e = true
    /\ signed s m e = n.
Proof.
  unfold units. intros Hu Hn. pose proof (Prim2SF_valid x) as Hv.
  destruct (Prim2SF x) as [s|s| |s m e]; cbn [SFunits] in Hu; try discriminate.
  - assert (n = 0) by congruence. contradiction.
  - exists s, m, e. split; [reflexivity|]. split; [exact Hv|].
    unfold signed. congruence.
Qed.

Lemma units_of_finite (x : float) (s : bool) (m : positive) (e : Z) :
  Prim2SF x = S754_finite s m e -> units x = Some (signed s m e).
Proof. unfold units. intros ->. reflexivity. Qed.

Lemma signed_inj (s s' : bool) (m m' : positive) (e e' : Z) :
  bounded prec emax m e = true -> bounded prec emax m' e' = true ->
  signed s m e = signed s' m' e' ->
  s = s' /\ m = m' /\ e = e'.
Proof.
  intros Hb Hb' Hv. unfold signed in Hv.
  pose proof (bounded_exp_ge _ _ Hb). pose proof (bounded_exp_ge _ _ Hb').
  pose proof (pow2_pos (e + 1074)). pose proof (pow2_pos (e' + 1074)).
  assert (Zpos m * 2 ^ (e + 1074) > 0) by nia.
  assert (Zpos m' * 2 ^ (e' + 1074) > 0) by nia.
  assert (Hs : s = s') by (destruct s, s'; cbn [cond_Zopp] in Hv; try reflexivity; lia).
  subst s'. split; [reflexivity|].
  apply canonical_unique; try assumption.
  destruct s; cbn [cond_Zopp] in Hv; lia.
Qed.

(** A finite non-zero number is determined by its number of units. *)
Lemma units_inj (x y : float) (n : Z) :
  units x = Some n -> units y = Some n -> n <> 0 -> x = y.
Proof.
  intros Hx Hy Hn.
  destruct (units_finite x n Hx Hn) as [sx [mx [ex [Ex [Bx Vx]]]]].
  destruct (units_finite y n Hy Hn) as [sy [my [ey [Ey [By Vy]]]]].
  destruct (signed_inj sx sy mx my ex ey Bx By) as [Es [Em Ee]]; [congruence|].
  apply Prim2SF_inj. rewrite Ex, Ey, Es, Em, Ee. reflexivity.
Qed.

Lemma units_zero (V : float) :
  units V = Some 0 -> V = 0%float \/ V = (-0)%float.
Proof.
  unfold units. intros H. pose proof (Prim2SF_valid V) as Hv.
  destruct (Prim2SF V) as [s|s| |s m e] eqn:E; cbn [SFunits] in H;
    try discriminate.
  - destruct s; [right|left]; apply Prim2SF_inj; rewrite E; reflexivity.
  - exfalso. apply (signed_nonzero s m e (bounded_exp_ge m e Hv)).
    unfold signed. congruence.
Qed.

(** Addition is exact when the sum is a binary64 number. *)
Lemma add_exact (x y z : float) (n m : Z) :
  units x = Some n -> units y = Some m -> units z = Some (n + m) ->
  n <> 0 -> m <> 0 -> n + m <> 0 -> (x + y)%float = z.
Proof.
  intros Hx Hy Hz Hn Hm Hnm.
  destruct (units_finite x n Hx Hn) as [sx [mx [ex [Ex [Bx Vx]]]]].
  destruct (units_finite y m Hy Hm) as [sy [my [ey [Ey [By Vy]]]]].
  destruct (units_finite z (n + m) Hz Hnm) as [sz [mz [ez [Ez [Bz Vz]]]]].
  apply Prim2SF_inj. rewrite add_spec, Ex, Ey, Ez.
  apply SFadd_exact_signed; try assumption. lia.
Qed.

Lemma add_cancel (x y : float) (n : Z) :
  units x = Some n -> units y = Some (- n) -> n <> 0 -> (x + y)%float = 0%float.
Proof.
  intros Hx Hy Hn.
  destruct (units_finite x n Hx Hn) as [sx [mx [ex [Ex [Bx Vx]]]]].
  destruct (units_finite y (- n) Hy) as [sy [my [ey [Ey [By Vy]]]]]; [lia|].
  apply Prim2SF_inj. rewrite add_spec, Ex, Ey.
  apply SFadd_cancel; try assumption. lia.
Qed.

Lemma sub_exact (x y z : float) (n m : Z) :
  units x = Some n -> units y = Some m -> units z = Some (n - m) ->
  n <> 0 -> m <> 0 -> n - m <> 0 -> (x - y)%float = z.
Proof.
  intros Hx Hy Hz Hn Hm Hnm.
  destruct (units_finite x n Hx Hn) as [sx [mx [ex [Ex [Bx Vx]]]]].
  destruct (units_finite y m Hy Hm) as [sy [my [ey [Ey [By Vy]]]]].
  destruct (units_finite z (n - m) Hz Hnm) as [sz [mz [ez [Ez [Bz Vz]]]]].
  apply Prim2SF_inj. rewrite sub_spec, Ex, Ey, Ez.
  apply SFsub_exact_signed; try assumption. lia.
Qed.

Lemma sub_cancel (x y : float) (n : Z) :
  units x = Some n -> units y = Some n -> n <> 0 -> (x - y)%float = 0%float.
Proof.
  intros Hx Hy Hn.
  destruct (units_finite x n Hx Hn) as [sx [mx [ex [Ex [Bx Vx]]]]].
  destruct (units_finite y n Hy Hn) as [sy [my [ey [Ey [By Vy]]]]].
  apply Prim2SF_inj. rewrite sub_spec, Ex, Ey.
  apply SFsub_cancel; try assumption. lia.
Qed.

(** Division is exact when the quotient is a binary64 number. *)
Lemma div_exact (x y z : float) (a b c : Z) :
  units x = Some a -> units y = Some b -> units z = Some c ->
  0 < b -> c <> 0 -> a * 2 ^ 1074 = b * c -> (x / y)%float = z.
Proof.
  intros Hx Hy Hz Hb Hc Hv.
  assert (P : 0 < 2 ^ 1074) by (apply pow2_pos; lia).
  remember (2 ^ 1074) as T eqn:ET.
  assert (Ha : a <> 0).
  { intros ->. rewrite Z.mul_0_l in Hv. symmetry in Hv.
    apply Z.mul_eq_0 in Hv. lia. }
  assert (Hb' : b <> 0) by lia.
  destruct (units_finite x a Hx Ha) as [sx [mx [ex [Ex [Bx Vx]]]]].
  destruct (units_finite y b Hy Hb') as [sy [my [ey [Ey [By Vy]]]]].
  destruct (units_finite z c Hz Hc) as [sz [mz [ez [Ez [Bz Vz]]]]].
  pose proof (bounded_exp_ge _ _ Bx) as Gx. pose proof (bounded_exp_ge _ _ By) as Gy.
  pose proof (bounded_exp_ge _ _ Bz) as Gz.
  pose proof (pow2_pos (ex + 1074)) as Px. pose proof (pow2_pos (ey + 1074)) as Py.
  pose proof (pow2_pos (ez + 1074)) as Pz.
  unfold signed in Vx, Vy, Vz.
  set (X := Zpos mx * 2 ^ (ex + 1074)) in *.
  set (Y := Zpos my * 2 ^ (ey + 1074)) in *.
  set (Z' := Zpos mz * 2 ^ (ez + 1074)) in *.
  assert (HX : 0 < X) by (unfold X; nia).
  assert (HY : 0 < Y) by (unfold Y; nia).
  assert (HZ : 0 < Z') by (unfold Z'; nia).
  assert (Hsy : sy = false) by (destruct sy; cbn [cond_Zopp] in Vy; [lia|reflexivity]).
  subst sy. cbn [cond_Zopp] in Vy.
  assert (Hsz : sz = sx).
  { destruct sx, sz; cbn [cond_Zopp] in Vx, Vz; try reflexivity; nia. }
  subst sz.
  assert (Habs : X * T = Y * Z').
  { destruct sx; cbn [cond_Zopp] in Vx, Vz; nia. }
  apply Prim2SF_inj. rewrite div_spec, Ex, Ey, Ez.
  apply SFdiv_exact; try assumption.
  replace (ex + 2148) with ((ex + 1074) + 1074) by lia.
  replace (ey + ez + 2148) with ((ey + 1074) + (ez + 1074)) by lia.
  rewrite (Z.pow_add_r 2 (ex + 1074) 1074) by lia.
  rewrite (Z.pow_add_r 2 (ey + 1074) (ez + 1074)) by lia.
  rewrite <- ET. unfold X, Y, Z' in Habs.
  rewrite Z.mul_assoc, Habs. ring.
Qed.

Lemma add_zero_l (v : float) :
  (0 + v = v \/ (v = (-0)%float /\ 0 + v = 0))%float.
Proof.
  destruct (Prim2SF v) as [s|s| |s m e] eqn:E.
  - destruct s.
    + right.
      assert (v = (-0)%float) by (apply Prim2SF_inj; rewrite E; reflexivity).
      subst v. split; reflexivity.
    + left. apply Prim2SF_inj. rewrite add_spec, E. reflexivity.
  - left. apply Prim2SF_inj. rewrite add_spec, E. reflexivity.
  - left. apply Prim2SF_inj. rewrite add_spec, E. reflexivity.
  - left. apply Prim2SF_inj. rewrite add_spec, E. reflexivity.
Qed.

(** *** Integers *)

(** The canonical representation of a positive integer below 2^53. *)
Lemma binary_round_integer (s : bool) (p : positive) :
  Zpos p < 2 ^ 53 ->
  exists m e,
    binary_round prec emax s p 0 = S754_finite s m e
    /\ bounded prec emax m e = true
    /\ Zpos m * 2 ^ (e + 1074) = Zpos p * 2 ^ 1074.
Proof.
  intros Hp.
  pose proof (digits_bounds p) as [Lo Hi]. pose proof (digits_pos p) as Dp.
  assert (Hd : digits p <= 53).
  { destruct (Z.le_gt_cases (digits p) 53) as [|Hgt]; [assumption|].
    assert (2 ^ 53 <= 2 ^ (digits p - 1)) by (apply Z.pow_le_mono_r; lia). lia. }
  set (k := 53 - digits p).
  assert (Hk : 0 <= k) by (unfold k; lia).
  assert (Hpos : 0 < Zpos p * 2 ^ k) by (pose proof (pow2_pos k Hk); nia).
  destruct (Zpos p * 2 ^ k) as [|m|m] eqn:Em; try lia.
  exists m, (- k).
  assert (Hdm : digits m = 53).
  { rewrite (digits_shift m p k Hk) by (symmetry; exact Em). unfold k. lia. }
  assert (Hb : bounded prec emax m (- k) = true).
  { apply bounded_spec. rewrite Hdm. unfold fexp64, k. lia. }
  split; [|split; [exact Hb|]].
  - apply binary_round_exact; [exact Hb|].
    right. split; [lia|]. rewrite Z.sub_opp_r, Z.add_0_l. symmetry. exact Em.
  - rewrite <- Em.
    replace (2 ^ 1074) with (2 ^ k * 2 ^ (- k + 1074)).
    + ring.
    + rewrite <- Z.pow_add_r by (unfold k; lia). f_equal. lia.
Qed.

(** Every integer of magnitude below 2^53 is a binary64 number. *)
Lemma number_of_Z_units (z : Z) :
  Z.abs z < 2 ^ 53 -> units (number_of_Z z) = Some (z * 2 ^ 1074).
Proof.
  intros Hz. unfold number_of_Z, units.
  destruct z as [|p|p]; cbn [binary_normalize].
  - reflexivity.
  - destruct (binary_round_integer false p) as [m [e [Er [Hb Hv]]]]; [lia|].
    rewrite Er, Prim2SF_SF2Prim by exact Hb.
    cbn [SFunits cond_Zopp]. f_equal. exact Hv.
  - destruct (binary_round_integer true p) as [m [e [Er [Hb Hv]]]]; [lia|].
    rewrite Er, Prim2SF_SF2Prim by exact Hb.
    cbn [SFunits cond_Zopp]. f_equal. rewrite Hv. lia.
Qed.

Lemma representable_integer (z : Z) :
  Z.abs z < 2 ^ 53 -> representable (z * 2 ^ 1074).
Proof. intros H. exists (number_of_Z z). apply number_of_Z_units, H. Qed.

Lemma number_of_Z_0 : number_of_Z 0 = 0%float.
Proof. reflexivity. Qed.

Lemma scale_nonzero (z : Z) : z <> 0 -> z * 2 ^ 1074 <> 0.
Proof. intros H. pose proof (pow2_pos 1074). nia. Qed.

(** Integer addition and subtraction below 2^53 are exact in binary64. *)
Lemma number_of_Z_add (a b : Z) :
  Z.abs a < 2 ^ 53 -> Z.abs b < 2 ^ 53 -> Z.abs (a + b) < 2 ^ 53 ->
  (number_of_Z a + number_of_Z b)%float = number_of_Z (a + b).
Proof.
  intros Ha Hb Hab.
  pose proof (number_of_Z_units a Ha) as Ua.
  pose proof (number_of_Z_units b Hb) as Ub.
  pose proof (number_of_Z_units (a + b) Hab) as Uab.
  destruct (Z.eq_dec a 0) as [->|Na].
  { rewrite number_of_Z_0, Z.add_0_l.
    destruct (add_zero_l (number_of_Z b)) as [E|[E _]]; [exact E|].
    exfalso. rewrite E in Ub. change (units (-0)%float) with (Some 0) in Ub.
    assert (b = 0) by (pose proof (pow2_pos 1074); assert (0 = b * 2 ^ 1074) by congruence; nia).
    subst b. apply (f_equal Prim2SF) in E. vm_compute in E. discriminate. }
  destruct (Z.eq_dec b 0) as [->|Nb].
  { rewrite number_of_Z_0, Z.add_0_r.
    destruct (units_finite _ _ Ua (scale_nonzero a Na)) as [s [m [e [E _]]]].
    apply Prim2SF_inj. rewrite add_spec, E. reflexivity. }
  destruct (Z.eq_dec (a + b) 0) as [Z0|Nab].
  { rewrite Z0, number_of_Z_0.
    apply (add_cancel _ _ (a * 2 ^ 1074)); [exact Ua| |apply scale_nonzero, Na].
    rewrite Ub. f_equal. nia. }
  apply (add_exact _ _ _ (a * 2 ^ 1074) (b * 2 ^ 1074)); auto using scale_nonzero.
  - rewrite Uab. f_equal. ring.
  - rewrite <- Z.mul_add_distr_r. apply scale_nonzero, Nab.
Qed.

Lemma number_of_Z_sub (a b : Z) :
  Z.abs a < 2 ^ 53 -> Z.abs b < 2 ^ 53 -> Z.abs (a - b) < 2 ^ 53 ->
  (number_of_Z a - number_of_Z b)%float = number_of_Z (a - b).
Proof.
  intros Ha Hb Hab.
  pose proof (number_of_Z_units a Ha) as Ua.
  pose proof (number_of_Z_units b Hb) as Ub.
  pose proof (number_of_Z_units (a - b) Hab) as Uab.
  destruct (Z.eq_dec b 0) as [->|Nb].
  { rewrite number_of_Z_0, Z.sub_0_r.
    destruct (Z.eq_dec a 0) as [->|Na]; [reflexivity|].
    destruct (units_finite _ _ Ua (scale_nonzero a Na)) as [s [m [e [E _]]]].
    apply Prim2SF_inj. rewrite sub_spec, E. reflexivity. }
  destruct (Z.eq_dec a 0) as [->|Na].
  { rewrite number_of_Z_0, Z.sub_0_l.
    destruct (units_finite _ _ Ub (scale_nonzero b Nb)) as [s [m [e [E [B V]]]]].
    apply (units_inj _ _ (- b * 2 ^ 1074)).
    - unfold units. rewrite sub_spec, E. cbn [Prim2SF SFunits].
      change (Prim2SF 0) with (S754_zero false). cbn [SF64sub SFsub SFunits].
      f_equal. unfold signed in V. destruct s; cbn [negb cond_Zopp] in *; lia.
    - rewrite Z.sub_0_l in Uab. exact Uab.
    - apply scale_nonzero. lia. }
  destruct (Z.eq_dec (a - b) 0) as [Z0|Nab].
  { rewrite Z0, number_of_Z_0. assert (a = b) by lia. subst b.
    apply (sub_cancel _ _ (a * 2 ^ 1074)); auto using scale_nonzero. }
  apply (sub_exact _ _ _ (a * 2 ^ 1074) (b * 2 ^ 1074)); auto using scale_nonzero.
  - rewrite Uab. f_equal. ring.
  - rewrite <- Z.mul_sub_distr_r. apply scale_nonzero, Nab.
Qed.

(** [v / 1] is [v], for every number. *)
Lemma div_one_r (v : float) : (v / 1)%float = v.
Proof.
  apply Prim2SF_inj. rewrite div_spec, Prim2SF_one.
  pose proof (Prim2SF_valid v) as Hv.
  destruct (Prim2SF v) as [s|s| |s m e].
  - destruct s; reflexivity.
  - destruct s; reflexivity.
  - reflexivity.
  - apply SFdiv_exact; [exact Hv|reflexivity|exact Hv|].
    pose proof (bounded_exp_ge m e Hv).
    replace (-52 + e + 2148) with (e + 2096) by lia.
    replace (e + 2148) with (52 + (e + 2096)) by lia.
    rewrite (Z.pow_add_r 2 52 (e + 2096)) by lia.
    change (2 ^ 52) with 4503599627370496. ring.
Qed.

Lemma number_of_nat_1 : number_of_nat 1 = 1%float.
Proof. vm_compute. reflexivity. Qed.

Lemma number_of_nat_5 : number_of_nat 5 = 5%float.
Proof. vm_compute. reflexivity. Qed.

Lemma number_of_nat_10 : number_of_nat 10 = 10%float.
Proof. vm_compute. reflexivity. Qed.

End JsFacts.


(** ** Facts about lists *)

Module ListFacts.

Import Spec.

Lemma lastn_length_min {A : Type} (n : nat) (l : list A) :
  List.length (lastn n l) = Nat.min n (List.length l).
Proof. unfold lastn. rewrite length_skipn. lia. Qed.

End ListFacts.

(** ** The posture classifier *)

Module AnalysisProps.

Import Js PostureAnalysis Spec.
Open Scope float_scope.

Lemma neck_score_values (a : float) :
  In (score (analyzeNeckPosture a)) neckScores.
Proof.
  unfold analyzeNeckPosture, neckScores.
  destruct (abs a <=? 5); [simpl; auto|].
  destruct (abs a <=? 10); [simpl; auto|].
  destruct (abs a <=? 20); simpl; auto.
Qed.

Lemma torso_score_values (a : float) :
  In (score (analyzeTorsoPosture a)) torsoScores.
Proof.
  unfold analyzeTorsoPosture, torsoScores.
  destruct (ge a 85 && (a <=? 95)); [simpl; auto|].
  destruct (ge a 80 && (a <=? 100)); [simpl; auto|].
  destruct (ge a 70 && (a <=? 110)); simpl; auto.
Qed.

Lemma shoulder_score_values (sd : ShoulderData) :
  In (score (analyzeShoulderPosture sd)) shoulderScores.
Proof.
  unfold analyzeShoulderPosture, checkForwardProjection, checkAsymmetry,
    shoulderStart, shoulderScores.
  destruct (gt (asymmetry sd) 10); [|destruct (gt (asymmetry sd) 5)];
    (destruct (gt (forwardProjection sd) 20);
      [|destruct (gt (forwardProjection sd) 15)]);
    cbn [score r_score]; vm_compute; auto 10.
Qed.

Lemma scoreCheck_all :
  forallb (fun n =>
    forallb (fun t =>
      forallb (fun s => scoreCheck n t s) shoulderScores) torsoScores)
    neckScores = true.
Proof. vm_compute. reflexivity. Qed.

Lemma scoreCheck_sub_scores (n t s : float) :
  In n neckScores -> In t torsoScores -> In s shoulderScores ->
  scoreCheck n t s = true.
Proof.
  intros Hn Ht Hs.
  pose proof scoreCheck_all as H.
  rewrite forallb_forall in H. specialize (H n Hn).
  rewrite forallb_forall in H. specialize (H t Ht).
  rewrite forallb_forall in H. exact (H s Hs).
Qed.

Lemma withinb_within (lo hi x : float) : withinb lo hi x = true -> within lo hi x.
Proof. unfold withinb, within. intros H. apply andb_prop in H. exact H. Qed.

Lemma sameRationalb_sameRational (a b : option Q) :
  sameRationalb a b = true -> sameRational a b.
Proof. destruct a, b; simpl; intros H; try discriminate; exact H. Qed.

(** C1. For every smoothed measurement (hence for every valid frame) the
    overall score is 0.40 times the neck sub-score plus 0.35 times the torso
    sub-score plus 0.25 times the shoulder sub-score: this is the value that
    [calculateOverallScore] computes in binary64 arithmetic, and that value
    is exactly the rational weighted sum of the three sub-scores.  Each
    sub-score, the penalty-reduced shoulder score included, lies in [0,100]
    and so does the overall score.  The score recorded in the posture state
    is a function of the smoothed angles alone: assessing the same smoothed
    angles again, at another time or with another confidence, gives the same
    score. *)
Theorem C1_overall_score_weighted_sum (sm : Angles) :
  let n := analyzeNeckPosture (neckAngle sm) in
  let t := analyzeTorsoPosture (torsoAngle sm) in
  let s := analyzeShoulderPosture (shoulderData sm) in
  let overall := calculateOverallScore n t s in
  overall = score n * 0.4 + score t * 0.35 + score s * 0.25
  /\ sameRational (value overall) (weightedSum (score n) (score t) (score s))
  /\ within 0 100 (score n)
  /\ within 0 100 (score t)
  /\ within 0 100 (score s)
  /\ within 0 100 overall
  /\ overallScoreOf sm = overall
  /\ (forall M confidence now confidence' now',
        state_score (assessPosture M sm confidence now) = round M overall
        /\ state_score (assessPosture M sm confidence' now')
           = state_score (assessPosture M sm confidence now)).
Proof.
  intros n t s overall.
  pose proof (scoreCheck_sub_scores (score n) (score t) (score s)
                (neck_score_values _) (torso_score_values _)
                (shoulder_score_values _)) as H.
  unfold scoreCheck in H.
  repeat (apply andb_prop in H; destruct H as [H ?]).
  assert (Hov : overall = score n * 0.4 + score t * 0.35 + score s * 0.25)
    by reflexivity.
  rewrite Hov.
  split; [reflexivity|].
  split; [apply sameRationalb_sameRational; assumption|].
  split; [apply withinb_within; assumption|].
  split; [apply withinb_within; assumption|].
  split; [apply withinb_within; assumption|].
  split; [apply withinb_within; assumption|].
  split; [reflexivity|].
  intros M c now c' now'. split; reflexivity.
Qed.

(** For a valid frame [analyzePose] smooths the raw angles and records the
    rounded overall score of the smoothed ones. *)
Lemma analyzePose_valid_frame (M : MathObject) (st : State)
    (landmarks : list (option Landmark)) (imageSize : ImageSize) (now : Z)
    (raw : Angles) :
  landmarks <> [] ->
  isValid (extractMeasurements M landmarks imageSize) = true ->
  measured (extractMeasurements M landmarks imageSize) = Some raw ->
  let smoothed := snd (applySmoothingFilter st raw) in
  let assessment := snd (analyzePose M st landmarks imageSize now) in
  state_score assessment = round M (overallScoreOf smoothed)
  /\ state_status assessment = determinePostureStatus (overallScoreOf smoothed)
  /\ currentState (fst (analyzePose M st landmarks imageSize now)) = assessment.
Proof.
  intros Hne Hv Hm. unfold analyzePose.
  destruct landmarks as [|l ls]; [contradiction|].
  rewrite Hv, Hm.
  destruct (applySmoothingFilter st raw) as [st1 sm].
  cbn [fst snd]. repeat split.
Qed.

(** *** Shoulder status *)

(** The status never moves up the chain while the two penalties are
    applied. *)
Lemma shoulder_status_never_upgraded (sd : ShoulderData) :
  let r1 := checkAsymmetry sd shoulderStart in
  let r2 := checkForwardProjection sd r1 in
  severity (r_status shoulderStart) <= severity (r_status r1)
  /\ severity (r_status r1) <= severity (r_status r2).
Proof.
  unfold checkForwardProjection, checkAsymmetry, shoulderStart.
  destruct (gt (asymmetry sd) 10); [|destruct (gt (asymmetry sd) 5)];
    (destruct (gt (forwardProjection sd) 20);
      [|destruct (gt (forwardProjection sd) 15)]);
    cbn; lia.
Qed.

(** The asymmetry penalty always leaves a status at least as severe as the
    one it assigns on its own. *)
Lemma asymmetry_status_reaches_severity (sd : ShoulderData) :
  severity (r_status (checkAsymmetry sd shoulderStart))
  <= severity (status (analyzeShoulderPosture sd)).
Proof.
  apply (shoulder_status_never_upgraded sd).
Qed.

(** The forward-projection penalty leaves a status at least as severe as the
    one it assigns on its own, except when a slight rounding (15 to 20)
    follows a slight asymmetry (5 to 10). *)
Lemma forward_status_reaches_severity_unless (sd : ShoulderData) :
  severity (r_status (checkForwardProjection sd shoulderStart))
  <= severity (status (analyzeShoulderPosture sd))
  \/ (gt (asymmetry sd) 10 = false /\ gt (asymmetry sd) 5 = true
      /\ gt (forwardProjection sd) 20 = false
      /\ gt (forwardProjection sd) 15 = true).
Proof.
  unfold analyzeShoulderPosture, checkForwardProjection, checkAsymmetry,
    shoulderStart.
  destruct (gt (asymmetry sd) 10); [|destruct (gt (asymmetry sd) 5)];
    (destruct (gt (forwardProjection sd) 20);
      [|destruct (gt (forwardProjection sd) 15)]);
    cbn; try (left; lia); right; auto.
Qed.

(** C3. At asymmetry 7 and forward projection 17 the shoulder analysis
    records the issue "Slight shoulder rounding", whose penalty on its own
    gives the status [warning], yet the resulting status is [good]: less
    severe than the issue that was triggered. *)
Theorem C3_status_below_triggering_issue :
  let sd := {| asymmetry := 7; leftHeight := 0.5; rightHeight := 0.5;
               forwardProjection := 17 |} in
  let a := analyzeShoulderPosture sd in
  status a = good
  /\ issues a = ["Slight shoulder rounding"%string]
  /\ score a = 65
  /\ r_status (checkForwardProjection sd shoulderStart) = warning
  /\ severity (status a)
     < severity (r_status (checkForwardProjection sd shoulderStart)).
Proof.
  vm_compute. repeat split; reflexivity || lia.
Qed.

(** *** Smoothing windows *)

Lemma applySmoothingFilter_channel (c : Channel) (st : State) (m : Angles) :
  windowOf c (fst (applySmoothingFilter st m))
  = keepRecent (push (windowOf c st) (rawOf c m))
  /\ rawOf c (snd (applySmoothingFilter st m))
     = calculateMovingAverage (keepRecent (push (windowOf c st) (rawOf c m))).
Proof. destruct c; split; reflexivity. Qed.

Lemma keepRecent_push_length (w : list float) (v : float) :
  List.length w <= smoothingWindow ->
  List.length (keepRecent (push w v)) <= smoothingWindow.
Proof.
  unfold keepRecent, push, smoothingWindow. intros H.
  destruct (Nat.ltb_spec 10 (List.length (w ++ [v]))) as [Hlt|Hle].
  - destruct w as [|a w]; simpl in *; [lia|].
    rewrite length_app in *. simpl in *. lia.
  - exact Hle.
Qed.

Lemma applySmoothingFilter_bounded (st : State) (m : Angles) :
  windowsBounded st -> windowsBounded (fst (applySmoothingFilter st m)).
Proof.
  intros H c. rewrite (proj1 (applySmoothingFilter_channel c st m)).
  apply keepRecent_push_length, H.
Qed.

Lemma analyzePose_windows (M : MathObject) (st : State) landmarks imageSize now :
  fst (analyzePose M st landmarks imageSize now) = st
  \/ exists m, forall c,
       windowOf c (fst (analyzePose M st landmarks imageSize now))
       = windowOf c (fst (applySmoothingFilter st m)).
Proof.
  unfold analyzePose. destruct landmarks as [|l ls]; [left; reflexivity|].
  destruct (isValid _); [|left; reflexivity].
  destruct (measured _) as [raw|]; [|left; reflexivity].
  right. exists raw. intros c.
  destruct (applySmoothingFilter st raw) as [st1 sm] eqn:E.
  destruct c; reflexivity.
Qed.

(** Every state of the object keeps at most ten values per channel. *)
Lemma reachable_bounded (M : MathObject) (st : State) :
  reachable M st -> windowsBounded st.
Proof.
  induction 1 as [now | st lms img now Hr IH | st m Hr IH | st Hr IH].
  - intros c. destruct c; simpl; unfold smoothingWindow; lia.
  - destruct (analyzePose_windows M st lms img now) as [E | [m E]].
    + rewrite E. exact IH.
    + intros c. rewrite E. apply applySmoothingFilter_bounded, IH.
  - apply applySmoothingFilter_bounded, IH.
  - intros c. destruct c; simpl; unfold smoothingWindow; lia.
Qed.

(** The window after a frame is the last ten of the old window followed by
    the new value: the oldest value leaves first. *)
Lemma keepRecent_push_lastn (w : list float) (v : float) :
  List.length w <= smoothingWindow ->
  keepRecent (push w v) = lastn smoothingWindow (w ++ [v]).
Proof.
  unfold keepRecent, push, lastn, smoothingWindow. intros H.
  rewrite length_app. simpl List.length.
  destruct (Nat.ltb_spec 10 (List.length w + 1)) as [Hlt|Hle].
  - assert (E : List.length w = 10%nat) by lia. rewrite E. simpl.
    destruct w; [discriminate|reflexivity].
  - replace (List.length w + 1 - 10)%nat with 0%nat by lia. reflexivity.
Qed.

Lemma lastn_app_lastn {A : Type} (n : nat) (l1 l2 : list A) :
  lastn n (lastn n l1 ++ l2) = lastn n (l1 ++ l2).
Proof.
  unfold lastn. rewrite !length_app, length_skipn.
  rewrite !skipn_app, skipn_skipn, length_skipn.
  f_equal.
  - f_equal. lia.
  - f_equal. lia.
Qed.

Lemma runFilter_cons (st : State) (m : Angles) (rest : list Angles) :
  runFilter st (m :: rest)
  = (fst (runFilter (fst (applySmoothingFilter st m)) rest),
     snd (applySmoothingFilter st m)
       :: snd (runFilter (fst (applySmoothingFilter st m)) rest)).
Proof.
  cbn [runFilter].
  destruct (applySmoothingFilter st m) as [st1 out].
  cbn [fst snd]. destruct (runFilter st1 rest) as [st2 outs]. reflexivity.
Qed.

(** The windows followed through a run of frames, channel by channel. *)
Lemma runFilter_window (c : Channel) (frames : list Angles) :
  forall st,
    List.length (windowOf c st) <= smoothingWindow ->
    windowOf c (fst (runFilter st frames))
    = lastn smoothingWindow (windowOf c st ++ map (rawOf c) frames).
Proof.
  induction frames as [|m rest IH]; intros st Hb.
  - cbn [runFilter fst map]. rewrite app_nil_r. unfold lastn.
    replace (List.length (windowOf c st) - smoothingWindow)%nat with 0%nat by lia.
    reflexivity.
  - rewrite runFilter_cons. cbn [fst map].
    pose proof (applySmoothingFilter_channel c st m) as [Hw _].
    rewrite IH; rewrite Hw.
    + rewrite keepRecent_push_lastn by exact Hb.
      rewrite lastn_app_lastn, <- app_assoc. reflexivity.
    + apply keepRecent_push_length, Hb.
Qed.

(** The last value emitted in a run is the mean of the final window. *)
Lemma runFilter_last_emitted (c : Channel) (frames : list Angles) :
  forall st n,
    List.length frames = S n ->
    exists out,
      nth_error (snd (runFilter st frames)) n = Some out
      /\ rawOf c out
         = calculateMovingAverage (windowOf c (fst (runFilter st frames))).
Proof.
  induction frames as [|m rest IH]; intros st n Hlen; [discriminate|].
  rewrite runFilter_cons. cbn [fst snd].
  destruct rest as [|m' rest'].
  - assert (n = 0%nat) by (simpl in Hlen; lia). subst n.
    cbn [runFilter fst snd nth_error].
    exists (snd (applySmoothingFilter st m)). split; [reflexivity|].
    pose proof (applySmoothingFilter_channel c st m) as [Hw Ho].
    rewrite Hw. exact Ho.
  - destruct n as [|n']; [simpl in Hlen; lia|].
    destruct (IH (fst (applySmoothingFilter st m)) n') as [o [Hn Ho]];
      [simpl in *; lia|].
    exists o. split; [exact Hn|exact Ho].
Qed.

Lemma map_constant (c : Channel) (V : float) (frames : list Angles) :
  Forall (fun f => rawOf c f = V) frames ->
  map (rawOf c) frames = repeat V (List.length frames).
Proof.
  induction 1 as [|f fs Hf Hfs IH]; simpl; [reflexivity|].
  rewrite Hf, IH. reflexivity.
Qed.

Lemma lastn_app_repeat (w : list float) (V : float) (n k : nat) :
  n <= k -> lastn n (w ++ repeat V k) = repeat V n.
Proof.
  intros H. unfold lastn. rewrite length_app, repeat_length.
  rewrite skipn_app.
  rewrite (skipn_all2 w) by lia. simpl.
  replace (List.length w + k - n - List.length w)%nat with (k - n)%nat by lia.
  replace k with ((k - n) + n)%nat at 2 by lia.
  rewrite repeat_app, skipn_app, repeat_length.
  rewrite skipn_all2 by (rewrite repeat_length; lia).
  replace (k - n - (k - n))%nat with 0%nat by lia. reflexivity.
Qed.

(** The running sum of copies of [V] stays exact as long as the multiples
    of [V] are binary64 numbers. *)
Lemma sumOf_constant (V : float) (v : Z) (n : nat) :
  units V = Some v -> v <> 0%Z ->
  (forall k, (1 <= k <= Z.of_nat (S n))%Z -> representable (k * v)) ->
  units (sumOf (repeat V (S n))) = Some (Z.of_nat (S n) * v)%Z.
Proof.
  intros HV Hv. induction n as [|n IH]; intros Hrep.
  - unfold sumOf. cbn [repeat fold_left].
    destruct (JsFacts.add_zero_l V) as [E|[E _]].
    + rewrite E, HV. f_equal. lia.
    + subst V. change (units (-0)) with (Some 0%Z) in HV. congruence.
  - change (repeat V (S (S n))) with (V :: repeat V (S n)).
    rewrite repeat_cons. unfold sumOf. rewrite fold_left_app.
    cbn [fold_left]. fold (sumOf (repeat V (S n))).
    assert (IH' : units (sumOf (repeat V (S n))) = Some (Z.of_nat (S n) * v)%Z).
    { apply IH. intros k Hk. apply Hrep. lia. }
    destruct (Hrep (Z.of_nat (S (S n)))) as [f Hf]; [lia|].
    assert (Hf' : units f = Some (Z.of_nat (S n) * v + v)%Z)
      by (rewrite Hf; f_equal; lia).
    rewrite (JsFacts.add_exact _ V f _ v IH' HV Hf'); [exact Hf| |exact Hv|]; nia.
Qed.

Lemma meanOfTen_sum (V : float) : meanOfTen V = sumOf (repeat V 10) / 10.
Proof.
  unfold meanOfTen, calculateMovingAverage. cbn [repeat List.length].
  rewrite JsFacts.number_of_nat_10. reflexivity.
Qed.

Lemma units_ten : units 10 = Some (10 * 2 ^ 1074)%Z.
Proof. vm_compute. reflexivity. Qed.

(** The mean of ten copies of [V] is [V] whenever the multiples [k V],
    [k = 1 .. 10], are binary64 numbers ([-0] comes out as [+0]). *)
Lemma meanOfTen_exact (V : float) (v : Z) :
  units V = Some v ->
  (forall k, (1 <= k <= 10)%Z -> representable (k * v)) ->
  meanOfTen V = V \/ (V = (-0)%float /\ meanOfTen V = 0).
Proof.
  intros HV Hrep.
  destruct (Z.eq_dec v 0) as [Hz|Hnz].
  - subst v. destruct (JsFacts.units_zero V HV) as [E|E]; subst V.
    + left. vm_compute. reflexivity.
    + right. split; vm_compute; reflexivity.
  - left. rewrite meanOfTen_sum.
    pose proof (sumOf_constant V v 9 HV Hnz) as Hs.
    change (Z.of_nat 10) with 10%Z in Hs. specialize (Hs Hrep).
    apply (JsFacts.div_exact _ _ _ (10 * v)%Z (10 * 2 ^ 1074)%Z v Hs units_ten HV).
    + pose proof (JsFacts.pow2_pos 1074). lia.
    + exact Hnz.
    + ring.
Qed.

(** In particular for every whole number of magnitude below 2^49. *)
Lemma meanOfTen_whole (z : Z) :
  (Z.abs z < 2 ^ 49)%Z -> meanOfTen (number_of_Z z) = number_of_Z z.
Proof.
  intros Hz.
  assert (Hu : units (number_of_Z z) = Some (z * 2 ^ 1074)%Z)
    by (apply JsFacts.number_of_Z_units; lia).
  destruct (meanOfTen_exact (number_of_Z z) (z * 2 ^ 1074)%Z Hu) as [E|[E _]].
  - intros k Hk.
    replace (k * (z * 2 ^ 1074))%Z with ((k * z) * 2 ^ 1074)%Z by ring.
    apply JsFacts.representable_integer.
    change (2 ^ 49)%Z with 562949953421312%Z in Hz.
    change (2 ^ 53)%Z with 9007199254740992%Z.
    rewrite Z.abs_mul. replace (Z.abs k) with k by lia.
    assert (k * Z.abs z <= 10 * Z.abs z)%Z
      by (apply Z.mul_le_mono_nonneg_r; lia).
    lia.
  - exact E.
  - exfalso. rewrite E in Hu.
    change (units (-0)) with (Some 0%Z) in Hu.
    assert (Hz0 : (z * 2 ^ 1074 = 0)%Z) by congruence.
    assert (Z0' : z = 0%Z) by (pose proof (JsFacts.pow2_pos 1074); nia).
    subst z. apply (f_equal Prim2SF) in E. vm_compute in E. discriminate.
Qed.

Lemma same_value_zero_refl (v : float) : same_value_zero v v = true.
Proof.
  unfold same_value_zero, is_nan. destruct (v =? v); reflexivity.
Qed.

(** The mean of a one-element window is its element, up to the sign of
    zero. *)
Lemma calculateMovingAverage_single (v : float) :
  calculateMovingAverage [v] = v
  \/ (v = (-0)%float /\ calculateMovingAverage [v] = 0).
Proof.
  unfold calculateMovingAverage. cbn [fold_left List.length].
  rewrite JsFacts.number_of_nat_1, JsFacts.div_one_r.
  apply JsFacts.add_zero_l.
Qed.

(** C5 (as amended). Every state of the object keeps at most N = 10 raw
    values per channel, and folding a frame in keeps the last ten of the old
    window followed by the new value (the oldest value is evicted first).
    After 15 consecutive frames whose raw value on a channel is the
    constant V, the window of that channel holds exactly ten copies of V and
    the value emitted with the fifteenth frame is the binary64 mean of ten
    copies of V.  That mean is V itself whenever each multiple k V,
    k = 1 .. 10, is a binary64 number (the partial sums are then formed
    without rounding): in particular for every whole number V of magnitude
    below 2^49.  ([-0] is emitted as [+0].) *)
Theorem C5_window_bound_and_constant_mean
    (M : MathObject) (st : State) (c : Channel) (V : float)
    (frames : list Angles) :
  reachable M st ->
  List.length frames = 15%nat ->
  Forall (fun f => rawOf c f = V) frames ->
  windowsBounded st
  /\ (forall m c',
        windowOf c' (fst (applySmoothingFilter st m))
        = lastn 10 (windowOf c' st ++ [rawOf c' m])
        /\ (List.length (windowOf c' (fst (applySmoothingFilter st m))) <= 10)%nat)
  /\ windowsBounded (fst (runFilter st frames))
  /\ windowOf c (fst (runFilter st frames)) = repeat V 10
  /\ exists out,
       nth_error (snd (runFilter st frames)) 14 = Some out
       /\ rawOf c out = calculateMovingAverage (repeat V 10)
       /\ (forall v, units V = Some v ->
                     (forall k, (1 <= k <= 10)%Z -> representable (k * v)) ->
                     rawOf c out = V \/ (V = (-0)%float /\ rawOf c out = 0))
       /\ (forall z, (Z.abs z < 2 ^ 49)%Z -> V = number_of_Z z ->
                     rawOf c out = V).
Proof.
  intros Hr Hlen Hconst.
  pose proof (reachable_bounded M st Hr) as Hb.
  assert (Hw : windowOf c (fst (runFilter st frames)) = repeat V 10).
  { rewrite runFilter_window by apply Hb.
    rewrite (map_constant c V frames Hconst), Hlen.
    apply lastn_app_repeat. unfold smoothingWindow. lia. }
  split; [exact Hb|].
  split.
  { intros m c'. pose proof (applySmoothingFilter_channel c' st m) as [E _].
    rewrite E. split.
    - apply keepRecent_push_lastn, Hb.
    - apply keepRecent_push_length, Hb. }
  split.
  { clear Hlen Hconst Hw. revert st Hr Hb.
    induction frames as [|m rest IH]; intros st Hr Hb.
    - exact Hb.
    - rewrite runFilter_cons. cbn [fst].
      apply IH.
      + apply reach_applySmoothingFilter, Hr.
      + apply applySmoothingFilter_bounded, Hb. }
  split; [exact Hw|].
  destruct (runFilter_last_emitted c frames st 14 Hlen) as [out [Hn Ho]].
  exists out. split; [exact Hn|].
  rewrite Hw in Ho. split; [exact Ho|].
  split.
  - intros v Hv Hrep. rewrite Ho. apply (meanOfTen_exact V v Hv Hrep).
  - intros z Hz HV. rewrite Ho, HV. apply (meanOfTen_whole z Hz).
Qed.

Lemma C5_window_bound_and_constant_mean_witness :
  windowOf Neck
    (fst (runFilter (constructor 0) (repeat (sampleAngles 12) 15)))
  = repeat 12 10
  /\ exists out,
       nth_error (snd (runFilter (constructor 0) (repeat (sampleAngles 12) 15))) 14
       = Some out
       /\ rawOf Neck out = 12.
Proof.
  destruct (C5_window_bound_and_constant_mean sampleMath (constructor 0) Neck 12
              (repeat (sampleAngles 12) 15))
    as [_ [_ [_ [Hw [out [Hn [_ [_ Hk]]]]]]]].
  - apply reach_constructor.
  - reflexivity.
  - repeat constructor.
  - split; [exact Hw|]. exists out. split; [exact Hn|].
    apply (Hk 12%Z); [vm_compute; reflexivity|vm_compute; reflexivity].
Defined.

(** With the constant raw value V = 0.1 the fifteenth emitted mean is
    0.09999999999999999 and not 0.1: the sum of ten copies of 0.1 is rounded
    below 1.  The mean of a constant stream is therefore not V for every V. *)
Lemma C5_constant_mean_not_exact :
  windowOf Neck
    (fst (runFilter (constructor 0) (repeat (sampleAngles 0.1) 15)))
  = repeat 0.1 10
  /\ exists out,
       nth_error (snd (runFilter (constructor 0) (repeat (sampleAngles 0.1) 15))) 14
       = Some out
       /\ rawOf Neck out = 0x1.9999999999999p-4
       /\ strict_eq (rawOf Neck out) 0.1 = false
       /\ rawOf Neck out <> 0.1.
Proof.
  split; [vm_compute; reflexivity|].
  eexists. split; [vm_compute; reflexivity|].
  split; [vm_compute; reflexivity|].
  split; [vm_compute; reflexivity|].
  intros H. apply (f_equal (fun v => strict_eq v 0.1)) in H.
  vm_compute in H. discriminate.
Qed.

(** C10. After [resetSmoothing] the three windows are empty.  On the next
    frame each window holds that frame's raw value alone and each emitted
    smoothed value is that raw value: identical to it, or [+0] where the raw
    value is [-0] (the two zeros are equal numbers), so that the emitted
    value and the raw value are the same value. *)
Theorem C10_reset_then_identity (st : State) (m : Angles) (c : Channel) :
  let st0 := resetSmoothing st in
  windowOf c st0 = []
  /\ windowOf c (fst (applySmoothingFilter st0 m)) = [rawOf c m]
  /\ rawOf c (snd (applySmoothingFilter st0 m)) = calculateMovingAverage [rawOf c m]
  /\ (rawOf c (snd (applySmoothingFilter st0 m)) = rawOf c m
      \/ (rawOf c m = (-0)%float /\ rawOf c (snd (applySmoothingFilter st0 m)) = 0))
  /\ same_value_zero (rawOf c (snd (applySmoothingFilter st0 m))) (rawOf c m) = true.
Proof.
  intros st0.
  assert (H0 : windowOf c st0 = []) by (destruct c; reflexivity).
  pose proof (applySmoothingFilter_channel c st0 m) as [Hw Ho].
  rewrite H0 in Hw, Ho.
  change (keepRecent (push [] (rawOf c m))) with [rawOf c m] in Hw, Ho.
  split; [exact H0|]. split; [exact Hw|]. split; [exact Ho|].
  rewrite Ho.
  destruct (calculateMovingAverage_single (rawOf c m)) as [E | [Ez E]].
  - rewrite E. split; [left; reflexivity|apply same_value_zero_refl].
  - rewrite E. split; [right; split; [exact Ez|reflexivity]|].
    rewrite Ez. reflexivity.
Qed.

(** *** The frame adapter *)

Lemma not_visible (l : option Landmark) :
  l = None \/ (exists lm, l = Some lm /\ (visibility lm <=? 0.5) = true) ->
  visible l = false.
Proof.
  intros [E | [lm [E Hv]]]; subst l; [reflexivity|].
  unfold visible, gt. apply JsFacts.leb_true_ltb_false. exact Hv.
Qed.

Lemma extractMeasurements_invalid (M : MathObject) landmarks imageSize :
  forallb visible (requiredLandmarks landmarks) = false ->
  extractMeasurements M landmarks imageSize = invalidMeasurements.
Proof.
  unfold extractMeasurements. intros H. rewrite H.
  destruct (landmarkAt landmarks 0); [|reflexivity].
  destruct (landmarkAt landmarks 11); [|reflexivity].
  destruct (landmarkAt landmarks 12); [|reflexivity].
  destruct (landmarkAt landmarks 23); [|reflexivity].
  destruct (landmarkAt landmarks 24); reflexivity.
Qed.

(** C8. When one of the five required landmarks (nose 0, left shoulder 11,
    right shoulder 12, left hip 23, right hip 24) is absent or has
    visibility at most 0.5, [extractMeasurements] returns the invalid
    measurement with confidence 0.  When all five are present with
    visibility above 0.5 it returns a valid measurement whose confidence is
    the arithmetic mean of the five visibilities (summed from 0 in landmark
    order and divided by 5, in binary64 arithmetic). *)
Theorem C8_frame_adapter_validity
    (M : MathObject) (landmarks : list (option Landmark)) (imageSize : ImageSize) :
  ((exists l, In l (requiredLandmarks landmarks)
              /\ (l = None
                  \/ exists lm, l = Some lm /\ (visibility lm <=? 0.5) = true)) ->
   isValid (extractMeasurements M landmarks imageSize) = false
   /\ confidence (extractMeasurements M landmarks imageSize) = 0
   /\ extractMeasurements M landmarks imageSize = invalidMeasurements)
  /\
  (forall nose leftShoulder rightShoulder leftHip rightHip,
     landmarkAt landmarks 0 = Some nose ->
     landmarkAt landmarks 11 = Some leftShoulder ->
     landmarkAt landmarks 12 = Some rightShoulder ->
     landmarkAt landmarks 23 = Some leftHip ->
     landmarkAt landmarks 24 = Some rightHip ->
     gt (visibility nose) 0.5 = true ->
     gt (visibility leftShoulder) 0.5 = true ->
     gt (visibility rightShoulder) 0.5 = true ->
     gt (visibility leftHip) 0.5 = true ->
     gt (visibility rightHip) 0.5 = true ->
     isValid (extractMeasurements M landmarks imageSize) = true
     /\ confidence (extractMeasurements M landmarks imageSize)
        = (0 + visibility nose + visibility leftShoulder
           + visibility rightShoulder + visibility leftHip
           + visibility rightHip) / 5).
Proof.
  split.
  - intros [l [Hin Hl]].
    assert (Hf : forallb visible (requiredLandmarks landmarks) = false).
    { destruct (forallb visible (requiredLandmarks landmarks)) eqn:E;
        [|reflexivity].
      rewrite forallb_forall in E. specialize (E l Hin).
      rewrite (not_visible l Hl) in E. discriminate. }
    rewrite (extractMeasurements_invalid M landmarks imageSize Hf).
    repeat split.
  - intros nose ls rs lh rh E0 E11 E12 E23 E24 V0 V11 V12 V23 V24.
    unfold extractMeasurements, requiredLandmarks.
    rewrite E0, E11, E12, E23, E24.
    cbn [forallb visible]. rewrite V0, V11, V12, V23, V24.
    cbn [andb negb isValid confidence sumVisibility fold_left List.length].
    rewrite JsFacts.number_of_nat_5. split; reflexivity.
Qed.

Lemma C8_frame_adapter_validity_witness :
  (isValid (extractMeasurements sampleMath (repeat (Some sampleLandmark) 25)
              sampleImage) = true
   /\ confidence (extractMeasurements sampleMath (repeat (Some sampleLandmark) 25)
                    sampleImage)
      = (0 + 0.9 + 0.9 + 0.9 + 0.9 + 0.9) / 5)
  /\ (isValid (extractMeasurements sampleMath
                 (repeat (Some sampleLandmark) 12) sampleImage) = false
      /\ confidence (extractMeasurements sampleMath
                       (repeat (Some sampleLandmark) 12) sampleImage) = 0).
Proof.
  split.
  - apply (proj2 (C8_frame_adapter_validity sampleMath
                    (repeat (Some sampleLandmark) 25) sampleImage)
             sampleLandmark sampleLandmark sampleLandmark sampleLandmark
             sampleLandmark); reflexivity.
  - destruct (proj1 (C8_frame_adapter_validity sampleMath
                       (repeat (Some sampleLandmark) 12) sampleImage))
      as [Hv [Hc _]].
    + exists None. split; [|left; reflexivity].
      right. right. left. reflexivity.
    + split; [exact Hv|exact Hc].
Defined.

End AnalysisProps.


(** ** The session aggregator *)

Module GuardianProps.

Import Js PostureGuardian Spec.
Open Scope Z_scope.

(** *** Binary classification *)

Lemma classifyPosture_good_iff (g : Guardian) (neckAngle torsoAngle : float) :
  classifyPosture g neckAngle torsoAngle = good
  <-> withinThresholds g neckAngle torsoAngle.
Proof.
  unfold classifyPosture, withinThresholds, ge.
  destruct (neckAngle <=? neckThreshold (settings g))%float;
    destruct (torsoThresholdMin (settings g) <=? torsoAngle)%float;
    destruct (torsoAngle <=? torsoThresholdMax (settings g) + 15)%float;
    cbn; split; intros H; try discriminate; try reflexivity;
    try (repeat split; reflexivity);
    destruct H as [H1 [H2 H3]]; discriminate.
Qed.

Lemma classifyPosture_good_or_poor (g : Guardian) (neckAngle torsoAngle : float) :
  classifyPosture g neckAngle torsoAngle = good
  \/ classifyPosture g neckAngle torsoAngle = poor.
Proof.
  unfold classifyPosture.
  destruct (_ && _)%bool; [left|right]; reflexivity.
Qed.

Lemma onPoseResults_state (g : Guardian) (now : Z) (neckAngle torsoAngle : float) :
  isRunning g = true ->
  currentPostureState (sessionData (onPoseResults g now neckAngle torsoAngle))
  = classifyPosture g neckAngle torsoAngle.
Proof.
  intros Hrun. unfold onPoseResults. rewrite Hrun. reflexivity.
Qed.

(** C4 (as amended). For every frame processed while the session is
    running, the binary compaction records the frame as good exactly when
    the neck angle is at most the neck threshold and the torso angle lies
    between [torsoThresholdMin] and [torsoThresholdMax + 15] (both
    inclusive), and as poor otherwise. *)
Theorem C4_binary_classification
    (g : Guardian) (now : Z) (neckAngle torsoAngle : float) :
  isRunning g = true ->
  let p := currentPostureState
             (sessionData (onPoseResults g now neckAngle torsoAngle)) in
  p = classifyPosture g neckAngle torsoAngle
  /\ (p = good <-> withinThresholds g neckAngle torsoAngle)
  /\ (p = poor <-> ~ withinThresholds g neckAngle torsoAngle).
Proof.
  intros Hrun p.
  assert (Hp : p = classifyPosture g neckAngle torsoAngle)
    by (apply onPoseResults_state; exact Hrun).
  split; [exact Hp|]. rewrite Hp.
  split; [apply classifyPosture_good_iff|].
  rewrite <- classifyPosture_good_iff.
  destruct (classifyPosture_good_or_poor g neckAngle torsoAngle) as [E|E];
    rewrite E; split; intros H; try discriminate; try reflexivity.
  exfalso. apply H. reflexivity.
Qed.

Lemma C4_binary_classification_witness :
  currentPostureState
    (sessionData (onPoseResults (startMonitoring constructor 1700000000000)
                    1700000000100 10 90)) = good
  /\ currentPostureState
       (sessionData (onPoseResults (startMonitoring constructor 1700000000000)
                       1700000000100 10 120)) = poor.
Proof.
  split.
  - apply (proj1 (proj2 (C4_binary_classification
                           (startMonitoring constructor 1700000000000)
                           1700000000100 10 90 eq_refl))).
    repeat split; reflexivity.
  - apply (proj2 (proj2 (C4_binary_classification
                           (startMonitoring constructor 1700000000000)
                           1700000000100 10 120 eq_refl))).
    intros [_ [_ H]]. vm_compute in H. discriminate.
Defined.

(** With the default thresholds (15, 85, 95) a frame with neck angle 10 and
    torso angle 100 is classified good although 100 exceeds
    [torsoThresholdMax]: the claim that the torso must lie within
    [torsoThresholdMin .. torsoThresholdMax] fails. *)
Lemma C4_torso_above_max_is_good :
  let g := startMonitoring constructor 1700000000000 in
  let g' := onPoseResults g 1700000000100 10 100 in
  classifyPosture g 10 100 = good
  /\ currentPostureState (sessionData g') = good
  /\ (100 <=? torsoThresholdMax (settings g))%float = false
  /\ ~ ((10 <=? neckThreshold (settings g))%float = true
        /\ (torsoThresholdMin (settings g) <=? 100)%float = true
        /\ (100 <=? torsoThresholdMax (settings g))%float = true).
Proof.
  vm_compute. repeat split; try reflexivity.
  intros [_ [_ H]]. discriminate.
Qed.

(** *** Session data *)

Lemma updateSessionData_history (g : Guardian) (now : Z) (p : Posture) :
  history (updateSessionData g now p)
  = let pushed := history g ++ [sampleOf g (now, p)] in
    if (1000 <? List.length pushed)%nat then lastn 500 pushed else pushed.
Proof.
  unfold history, updateSessionData, sampleOf, sliceLast, lastn.
  destruct (sessionStartTime g) as [start|]; [destruct (start =? 0)|];
    reflexivity.
Qed.

Lemma updateSessionData_frame (g : Guardian) (now : Z) (p : Posture) :
  currentAngles (updateSessionData g now p) = currentAngles g
  /\ sessionStartTime (updateSessionData g now p) = sessionStartTime g.
Proof. split; reflexivity. Qed.

Lemma sampleOf_update (g : Guardian) (now : Z) (p : Posture) f :
  sampleOf (updateSessionData g now p) f = sampleOf g f.
Proof. reflexivity. Qed.

Lemma updateSessionData_goodPostureTime (g : Guardian) (now : Z) (p : Posture) :
  sessionStarted g ->
  goodPostureTime (sessionData (updateSessionData g now p))
  = goodPostureTime (sessionData g) + (if Posture_eqb p good then 100 else 0).
Proof.
  intros [start [Hs Hnz]]. unfold updateSessionData. rewrite Hs.
  apply Z.eqb_neq in Hnz. rewrite Hnz. cbn.
  destruct (Posture_eqb p good); lia.
Qed.

Lemma updateSessionData_totalTime (g : Guardian) (now : Z) (p : Posture) start :
  sessionStartTime g = Some start -> start <> 0 ->
  totalTime (sessionData (updateSessionData g now p)) = now - start.
Proof.
  intros Hs Hnz. unfold updateSessionData. rewrite Hs.
  apply Z.eqb_neq in Hnz. rewrite Hnz. reflexivity.
Qed.

Lemma feedSamples_app (g : Guardian) (a b : list (Z * Posture)) :
  feedSamples g (a ++ b) = feedSamples (feedSamples g a) b.
Proof.
  revert g. induction a as [|[now p] a IH]; intros g; [reflexivity|].
  cbn [feedSamples app]. apply IH.
Qed.

Lemma feedSamples_started (frames : list (Z * Posture)) :
  forall g, sessionStarted g -> sessionStarted (feedSamples g frames).
Proof.
  induction frames as [|[now p] rest IH]; intros g H; [exact H|].
  cbn [feedSamples]. apply IH. exact H.
Qed.

Lemma history_step_length (g : Guardian) (now : Z) (p : Posture) :
  (List.length (history (updateSessionData g now p)) <= 1000)%nat.
Proof.
  rewrite updateSessionData_history. cbv zeta.
  destruct (Nat.ltb_spec 1000 (List.length (history g ++ [sampleOf g (now, p)])))
    as [Hlt|Hle].
  - unfold lastn. rewrite length_skipn. lia.
  - exact Hle.
Qed.

(** While at most 1000 samples have been appended nothing is evicted. *)
Lemma feedSamples_history_no_eviction (frames : list (Z * Posture)) :
  forall g,
    (List.length (history g) + List.length frames <= 1000)%nat ->
    history (feedSamples g frames) = history g ++ map (sampleOf g) frames.
Proof.
  induction frames as [|[now p] rest IH]; intros g H.
  - cbn. rewrite app_nil_r. reflexivity.
  - cbn [feedSamples map]. cbn [List.length] in H.
    assert (E : history (updateSessionData g now p)
                = history g ++ [sampleOf g (now, p)]).
    { rewrite updateSessionData_history. cbv zeta.
      destruct (Nat.ltb_spec 1000
                  (List.length (history g ++ [sampleOf g (now, p)])))
        as [Hlt|Hle]; [|reflexivity].
      rewrite length_app in Hlt. cbn [List.length] in Hlt. lia. }
    rewrite IH.
    + rewrite E, <- app_assoc. reflexivity.
    + rewrite E, length_app. cbn [List.length]. lia.
Qed.

Lemma feedSamples_history_bounded (frames : list (Z * Posture)) :
  forall g,
    (List.length (history g) <= 1000)%nat ->
    (List.length (history (feedSamples g frames)) <= 1000)%nat.
Proof.
  induction frames as [|[now p] rest IH]; intros g H; [exact H|].
  cbn [feedSamples]. apply IH, history_step_length.
Qed.

(** C6. The session history holds at most 1000 entries after every append.
    When it holds 1000 entries, the next append leaves exactly the most
    recent 500 (the new sample included); in particular a session that
    appends 1001 samples ends with exactly the 500 most recent ones. *)
Theorem C6_history_capped (g : Guardian) (now : Z) (p : Posture) :
  (List.length (history (updateSessionData g now p)) <= 1000)%nat
  /\ (List.length (history g) = 1000%nat ->
      history (updateSessionData g now p)
      = lastn 500 (history g ++ [sampleOf g (now, p)])
      /\ List.length (history (updateSessionData g now p)) = 500%nat)
  /\ (forall frames,
        (List.length (history g) <= 1000)%nat ->
        (List.length (history (feedSamples g frames)) <= 1000)%nat)
  /\ (forall frames,
        history g = [] -> List.length frames = 1001%nat ->
        history (feedSamples g frames) = lastn 500 (map (sampleOf g) frames)
        /\ List.length (history (feedSamples g frames)) = 500%nat).
Proof.
  split; [apply history_step_length|].
  split.
  { intros Hlen. rewrite updateSessionData_history. cbv zeta.
    assert (Hp : List.length (history g ++ [sampleOf g (now, p)]) = 1001%nat)
      by (rewrite length_app, Hlen; reflexivity).
    rewrite Hp. change (1000 <? 1001)%nat with true. cbv iota.
    split; [reflexivity|].
    rewrite ListFacts.lastn_length_min, Hp. reflexivity. }
  split; [intros frames; apply feedSamples_history_bounded|].
  intros frames Hempty Hlen.
  assert (Hsplit : frames = firstn 1000 frames ++ skipn 1000 frames)
    by (symmetry; apply firstn_skipn).
  assert (Hfront : List.length (firstn 1000 frames) = 1000%nat)
    by (rewrite length_firstn; lia).
  assert (Hback : List.length (skipn 1000 frames) = 1%nat)
    by (rewrite length_skipn; lia).
  destruct (skipn 1000 frames) as [|[now' p'] [|? ?]] eqn:Eback;
    try discriminate.
  remember (firstn 1000 frames) as front eqn:Efront.
  clear Efront Eback Hback. subst frames.
  assert (Hh : history (feedSamples g front) = map (sampleOf g) front).
  { rewrite feedSamples_history_no_eviction; rewrite Hempty; [reflexivity|].
    cbn [List.length]. lia. }
  assert (Hs : sampleOf (feedSamples g front) (now', p') = sampleOf g (now', p')).
  { clear. revert g. induction front as [|[n q] fr IH]; intros g; [reflexivity|].
    cbn [feedSamples]. rewrite IH. apply sampleOf_update. }
  assert (Hall : history (feedSamples g (front ++ [(now', p')]))
                 = lastn 500 (map (sampleOf g) (front ++ [(now', p')]))).
  { rewrite feedSamples_app. cbn [feedSamples].
    rewrite updateSessionData_history. cbv zeta. rewrite Hh, Hs.
    assert (Hp : List.length (map (sampleOf g) front ++ [sampleOf g (now', p')])
                 = 1001%nat)
      by (rewrite length_app, length_map, Hfront; reflexivity).
    rewrite Hp. change (1000 <? 1001)%nat with true. cbv iota.
    rewrite map_app. reflexivity. }
  split; [exact Hall|].
  rewrite Hall, ListFacts.lastn_length_min, length_map, Hlen. reflexivity.
Qed.

Lemma C6_history_capped_witness :
  List.length
    (history (feedSamples (startMonitoring constructor 1700000000000)
                (repeat (1700000000100%Z, good) 1001))) = 500%nat
  /\ (List.length
        (history (feedSamples (startMonitoring constructor 1700000000000)
                    (repeat (1700000000100%Z, good) 1000))) <= 1000)%nat.
Proof.
  pose proof (C6_history_capped (startMonitoring constructor 1700000000000)
                1700000000100 good) as [_ [_ [Hle H1001]]].
  split.
  - apply (H1001 (repeat (1700000000100%Z, good) 1001)).
    + reflexivity.
    + apply repeat_length.
  - apply Hle. cbn. lia.
Defined.

(** *** Good-posture time *)

Lemma feedSamples_goodPostureTime (frames : list (Z * Posture)) :
  forall g,
    sessionStarted g ->
    goodPostureTime (sessionData (feedSamples g frames))
    = goodPostureTime (sessionData g) + 100 * goodFrames frames.
Proof.
  unfold goodFrames.
  induction frames as [|[now p] rest IH]; intros g Hs.
  - cbn. lia.
  - cbn [feedSamples filter snd]. rewrite IH.
    + rewrite (updateSessionData_goodPostureTime g now p Hs).
      destruct (Posture_eqb p good); cbn [List.length]; lia.
    + destruct Hs as [start [Hs Hnz]]. exists start. split; [exact Hs|exact Hnz].
Qed.

(** The integer model of the counters is the binary64 arithmetic of the
    source below 2^53: [k] additions of 100 give the number 100 k, and the
    difference of two clock values is their integer difference. *)
Lemma accumulated_exact (k : nat) :
  100 * Z.of_nat k < 2 ^ 53 ->
  accumulated k = number_of_Z (100 * Z.of_nat k).
Proof.
  induction k as [|k IH]; intros Hk; [reflexivity|].
  change (accumulated (S k)) with (accumulated k + 100)%float.
  rewrite IH by lia.
  change 100%float with (number_of_Z 100).
  rewrite JsFacts.number_of_Z_add.
  - f_equal. lia.
  - lia.
  - change (2 ^ 53) with 9007199254740992. lia.
  - lia.
Qed.

Lemma elapsed_exact (now start : Z) :
  0 <= start <= now -> now < 2 ^ 53 ->
  (number_of_Z now - number_of_Z start)%float = number_of_Z (now - start).
Proof.
  intros H Hn. apply JsFacts.number_of_Z_sub; lia.
Qed.

(** C9. While a session is running, a frame whose binary state is good adds
    exactly 100 ms to [goodPostureTime] and a frame whose state is poor
    leaves it unchanged.  The increment does not depend on the clock: after
    any run of frames the accumulated time is the initial one plus 100 ms
    per good frame, whatever the timestamps, so two runs with the same
    states accumulate the same time, and a fresh session that has seen k
    good frames holds 100 k ms.  The accumulated time is not bounded by the
    elapsed time [totalTime]: two good frames 1 ms apart give 200 ms of good
    time in a session of 2 ms.  The binary64 accumulation of the source
    agrees with these integers: k additions of 100 starting from 0 give the
    number 100 k as long as 100 k is below 2^53. *)
Theorem C9_good_time_fixed_increment
    (g : Guardian) (now : Z) (frames frames' : list (Z * Posture)) :
  sessionStarted g ->
  goodPostureTime (sessionData (updateSessionData g now good))
  = goodPostureTime (sessionData g) + 100
  /\ goodPostureTime (sessionData (updateSessionData g now poor))
     = goodPostureTime (sessionData g)
  /\ goodPostureTime (sessionData (feedSamples g frames))
     = goodPostureTime (sessionData g) + 100 * goodFrames frames
  /\ (map snd frames = map snd frames' ->
      goodPostureTime (sessionData (feedSamples g frames))
      = goodPostureTime (sessionData (feedSamples g frames')))
  /\ (goodPostureTime (sessionData g) = 0 ->
      goodPostureTime (sessionData (feedSamples g frames))
      = 100 * goodFrames frames)
  /\ (let g0 := startMonitoring constructor 1700000000000 in
      let g2 := feedSamples g0 [(1700000000001, good); (1700000000002, good)] in
      sessionStarted g0
      /\ goodPostureTime (sessionData g2) = 200
      /\ totalTime (sessionData g2) = 2)
  /\ (forall k : nat,
        100 * Z.of_nat k < 2 ^ 53 ->
        accumulated k = number_of_Z (100 * Z.of_nat k)).
Proof.
  intros Hs.
  split.
  { rewrite (updateSessionData_goodPostureTime g now good Hs). reflexivity. }
  split.
  { rewrite (updateSessionData_goodPostureTime g now poor Hs). cbn. lia. }
  split; [apply feedSamples_goodPostureTime; exact Hs|].
  split.
  { intros Hsame.
    rewrite !feedSamples_goodPostureTime by exact Hs.
    f_equal. f_equal. unfold goodFrames. f_equal.
    clear Hs. revert frames' Hsame.
    induction frames as [|[n p] fr IH]; intros [|[n' p'] fr'] Hsame;
      try discriminate; [reflexivity|].
    cbn [map snd] in Hsame. inversion Hsame; subst p'.
    cbn [filter snd]. destruct (Posture_eqb p good); cbn [List.length];
      rewrite (IH fr'); auto. }
  split.
  { intros Hz. rewrite feedSamples_goodPostureTime by exact Hs. lia. }
  split.
  { cbv zeta. split.
    { exists 1700000000000. split; [reflexivity|discriminate]. }
    split; reflexivity. }
  exact accumulated_exact.
Qed.

Lemma C9_good_time_fixed_increment_witness :
  goodPostureTime
    (sessionData
       (feedSamples (startMonitoring constructor 1700000000000)
          [(1700000000033, good); (1700000000066, poor);
           (1700000009000, good)])) = 200.
Proof.
  destruct (C9_good_time_fixed_increment
              (startMonitoring constructor 1700000000000) 1700000000033
              [(1700000000033, good); (1700000000066, poor);
               (1700000009000, good)] [])
    as [_ [_ [_ [_ [H _]]]]].
  - exists 1700000000000. split; [reflexivity|discriminate].
  - rewrite H; reflexivity.
Defined.

(** *** Session score *)

Lemma updateStatistics_weekly (stats : Statistics) (sd : SessionData)
    (today : string) (dayIndex : nat) :
  weeklyData stats = None -> (dayIndex < 7)%nat ->
  match weeklyData (updateStatistics stats sd today dayIndex) with
  | Some w => nth_error w dayIndex = Some (sessionScore sd)
  | None => False
  end.
Proof.
  intros Hw Hd. unfold updateStatistics. rewrite Hw.
  destruct (negb _); [destruct (ge _ _)|]; cbn [weeklyData];
    do 7 (destruct dayIndex as [|dayIndex]; [reflexivity|]); lia.
Qed.

(** C7. The session score computed on stop is [goodPostureTime / totalTime]
    times 100 when [totalTime] is positive and 0 when [totalTime] is 0 (or
    negative), so the quotient is never formed with a zero divisor; this is
    the score that [saveSessionData] records for the day. *)
Theorem C7_session_score (sd : SessionData) :
  (0 < totalTime sd ->
   sessionScore sd
   = (number_of_Z (goodPostureTime sd) / number_of_Z (totalTime sd) * 100)%float)
  /\ (totalTime sd = 0 -> sessionScore sd = 0%float)
  /\ (totalTime sd <= 0 -> sessionScore sd = 0%float)
  /\ (forall g today dayIndex,
        sessionData g = sd -> savedStats g = None -> (dayIndex < 7)%nat ->
        match savedStats (stopMonitoring g today dayIndex) with
        | Some stats =>
            match weeklyData stats with
            | Some w => nth_error w dayIndex = Some (sessionScore sd)
            | None => False
            end
        | None => False
        end).
Proof.
  unfold sessionScore.
  split.
  { intros H. apply Z.ltb_lt in H. rewrite H. reflexivity. }
  split.
  { intros H. rewrite H. reflexivity. }
  split.
  { intros H. destruct (Z.ltb_spec 0 (totalTime sd)); [lia|reflexivity]. }
  intros g today dayIndex Hsd Hnone Hd.
  unfold stopMonitoring, saveSessionData, loadStatistics.
  cbn [savedStats sessionData]. rewrite Hnone, Hsd.
  apply (updateStatistics_weekly emptyStatistics sd today dayIndex);
    [reflexivity|exact Hd].
Qed.

Lemma C7_session_score_witness :
  sessionScore {| totalTime := 1000; goodPostureTime := 800;
                  poorPostureWarnings := 0; currentPostureState := good;
                  postureHistory := [] |}
  = (number_of_Z 800 / number_of_Z 1000 * 100)%float
  /\ sessionScore {| totalTime := 0; goodPostureTime := 0;
                     poorPostureWarnings := 0; currentPostureState := unknown;
                     postureHistory := [] |} = 0%float.
Proof.
  split.
  - exact (proj1 (C7_session_score
                    {| totalTime := 1000; goodPostureTime := 800;
                       poorPostureWarnings := 0; currentPostureState := good;
                       postureHistory := [] |}) eq_refl).
  - exact (proj1 (proj2 (C7_session_score
                           {| totalTime := 0; goodPostureTime := 0;
                              poorPostureWarnings := 0;
                              currentPostureState := unknown;
                              postureHistory := [] |})) eq_refl).
Defined.

(** *** The daily streak kept by [saveSessionData] *)

(** On the first session of a day the streak grows by one when the session
    scores at least 70, whatever the date of the previous session was. *)
Lemma updateStatistics_streak_new_day (stats : Statistics) (sd : SessionData)
    (today : string) (dayIndex : nat) :
  lastSessionDate stats <> Some today ->
  ge (sessionScore sd) 70 = true ->
  let stats' := updateStatistics stats sd today dayIndex in
  currentStreak stats' = Some (orZero (currentStreak stats) + 1)
  /\ bestStreak stats'
     = Some (Z.max (orZero (bestStreak stats)) (orZero (currentStreak stats) + 1))
  /\ lastSessionDate stats' = Some today.
Proof.
  intros Hday Hscore. unfold updateStatistics.
  assert (Hsame : match lastSessionDate stats with
                  | Some d => String.eqb d today
                  | None => false
                  end = false).
  { destruct (lastSessionDate stats) as [d|]; [|reflexivity].
    destruct (String.eqb_spec d today); [subst d; contradiction|reflexivity]. }
  rewrite Hsame, Hscore. cbn. repeat split.
Qed.

Lemma updateStatistics_streak_reset (stats : Statistics) (sd : SessionData)
    (today : string) (dayIndex : nat) :
  lastSessionDate stats <> Some today ->
  ge (sessionScore sd) 70 = false ->
  let stats' := updateStatistics stats sd today dayIndex in
  currentStreak stats' = Some 0
  /\ bestStreak stats' = bestStreak stats
  /\ lastSessionDate stats' = Some today.
Proof.
  intros Hday Hscore. unfold updateStatistics.
  assert (Hsame : match lastSessionDate stats with
                  | Some d => String.eqb d today
                  | None => false
                  end = false).
  { destruct (lastSessionDate stats) as [d|]; [|reflexivity].
    destruct (String.eqb_spec d today); [subst d; contradiction|reflexivity]. }
  rewrite Hsame, Hscore. cbn. repeat split.
Qed.

Lemma updateStatistics_streak_same_day (stats : Statistics) (sd : SessionData)
    (today : string) (dayIndex : nat) :
  lastSessionDate stats = Some today ->
  let stats' := updateStatistics stats sd today dayIndex in
  currentStreak stats' = currentStreak stats
  /\ bestStreak stats' = bestStreak stats
  /\ lastSessionDate stats' = Some today.
Proof.
  intros Hday. unfold updateStatistics.
  rewrite Hday, String.eqb_refl. cbn. repeat split.
Qed.

End GuardianProps.


(** ** The day streak *)

Module StreakProps.

Import Js Spec.
Open Scope Z_scope.

Section Dates.

Variable parseDate : string -> option Z.

(** A date is never the day after itself. *)
Lemma isConsecutiveDay_same (d : string) :
  DataStorage.isConsecutiveDay parseDate (Some d) d = false.
Proof.
  unfold DataStorage.isConsecutiveDay.
  destruct (parseDate d) as [t|]; [|reflexivity].
  rewrite Z.sub_diag. reflexivity.
Qed.

Lemma insertSorted_In (s x : string) (l : list string) :
  In x (DataStorage.insertSorted s l) <-> x = s \/ In x l.
Proof.
  induction l as [|h t IH]; cbn.
  - split; intros [H|H]; auto.
  - destruct (String.leb s h); cbn.
    + split; intros [H|H]; auto.
    + rewrite IH. split; intros H; intuition.
Qed.

Lemma insertSorted_NoDup (s : string) (l : list string) :
  ~ In s l -> NoDup l -> NoDup (DataStorage.insertSorted s l).
Proof.
  induction l as [|h t IH]; intros Hs Hl; cbn.
  - constructor; [intros []|constructor].
  - destruct (String.leb s h).
    + constructor; assumption.
    + inversion Hl as [|? ? Hh Ht]; subst.
      constructor.
      * rewrite insertSorted_In. intros [E|Hin].
        -- apply Hs. left. exact E.
        -- contradiction.
      * apply IH; [|exact Ht]. intros Hin. apply Hs. right. exact Hin.
Qed.

Lemma sort_In (x : string) (l : list string) :
  In x (DataStorage.sort l) <-> In x l.
Proof.
  induction l as [|h t IH]; cbn; [tauto|].
  rewrite insertSorted_In, IH. split; intros [H|H]; auto.
Qed.

Lemma sort_NoDup (l : list string) : NoDup l -> NoDup (DataStorage.sort l).
Proof.
  induction 1 as [|h t Hh Ht IH]; cbn; [constructor|].
  apply insertSorted_NoDup; [|exact IH]. rewrite sort_In. exact Hh.
Qed.

(** Whatever the days recorded, [calculateStreak] returns 0 or 1: the loop
    compares each date with itself ([dates[streak]] is the date being
    visited), so only the first date can count, and only when it is today. *)
Lemma calculateStreak_at_most_one {A : Type} (dailyStats : list (string * A))
    (today : string) :
  NoDup (map fst dailyStats) ->
  (DataStorage.calculateStreak parseDate dailyStats today <= 1)%nat.
Proof.
  intros Hnd. unfold DataStorage.calculateStreak.
  assert (Hd : NoDup (rev (DataStorage.sort (map fst dailyStats))))
    by (apply NoDup_rev, sort_NoDup, Hnd).
  destruct (rev (DataStorage.sort (map fst dailyStats))) as [|d0 [|d1 rest]].
  - cbn. lia.
  - cbn [DataStorage.streakLoop nth_error].
    rewrite isConsecutiveDay_same, orb_false_r.
    destruct (String.eqb d0 today); lia.
  - cbn [DataStorage.streakLoop nth_error].
    rewrite isConsecutiveDay_same, orb_false_r.
    destruct (String.eqb_spec d0 today) as [E0|N0]; [|lia].
    cbn [DataStorage.streakLoop nth_error].
    rewrite isConsecutiveDay_same, orb_false_r.
    destruct (String.eqb_spec d1 today) as [E1|N1]; [|lia].
    exfalso. inversion Hd as [|? ? Hin _]; subst. apply Hin. left. reflexivity.
Qed.

End Dates.

(** C2. Two runs of the code against the claim.  (1) [saveSessionData]:
    the stored statistics hold a streak of 3 whose last session was on
    Monday 1 January 2024; a session scoring 80 ends on Thursday 4 January,
    two calendar days having been missed: the streak becomes 4 and the best
    streak 4, where the claim resets the streak.  (2) [calculateStreak]:
    with sessions recorded on Tuesday 2 and Wednesday 3 January 2024 and
    today being Wednesday 3 January, the streak returned is 1, where two
    consecutive days make a streak of 2. *)
Theorem C2_streak_survives_missed_days :
  let stats :=
    {| PostureGuardian.totalSessions := Some 3;
       PostureGuardian.statsTotalTime := Some 3000;
       PostureGuardian.avgScore := Some 80%float;
       PostureGuardian.currentStreak := Some 3;
       PostureGuardian.bestStreak := Some 3;
       PostureGuardian.lastSessionDate := Some "Mon Jan 01 2024"%string;
       PostureGuardian.weeklyData := None |} in
  let sd :=
    {| PostureGuardian.totalTime := 1000;
       PostureGuardian.goodPostureTime := 800;
       PostureGuardian.poorPostureWarnings := 0;
       PostureGuardian.currentPostureState := PostureGuardian.good;
       PostureGuardian.postureHistory := [] |} in
  let stats' :=
    PostureGuardian.updateStatistics stats sd "Thu Jan 04 2024"%string 4 in
  PostureGuardian.sessionScore sd = 80%float
  /\ PostureGuardian.currentStreak stats' = Some 4
  /\ PostureGuardian.bestStreak stats' = Some 4
  /\ PostureGuardian.lastSessionDate stats' = Some "Thu Jan 04 2024"%string
  /\ (forall parseDate,
        DataStorage.calculateStreak parseDate
          [("Tue Jan 02 2024"%string, tt); ("Wed Jan 03 2024"%string, tt)]
          "Wed Jan 03 2024"%string = 1%nat).
Proof.
  cbv zeta. split; [vm_compute; reflexivity|].
  split; [vm_compute; reflexivity|].
  split; [vm_compute; reflexivity|].
  split; [vm_compute; reflexivity|].
  intros parseDate.
  unfold DataStorage.calculateStreak.
  change (rev (DataStorage.sort
                 (map fst [("Tue Jan 02 2024"%string, tt);
                           ("Wed Jan 03 2024"%string, tt)])))
    with ["Wed Jan 03 2024"%string; "Tue Jan 02 2024"%string].
  cbn [DataStorage.streakLoop nth_error].
  rewrite !isConsecutiveDay_same. reflexivity.
Qed.

End StreakProps.

(** ** The order of binary64 numbers, NaN, and [Math.max]

    The comparisons are decided by [SFcompare], which orders the numbers
    lexicographically by sign class, exponent and mantissa; this gives
    transitivity and totality away from NaN.  An addition or subtraction
    of finite numbers never produces NaN. *)

Module JsOrderFacts.

Import Js Spec JsFacts.
Open Scope Z_scope.

Lemma SFcompare_key (x y : spec_float) :
  match SFcompare x y, SFkey x, SFkey y with
  | Some Lt, Some k, Some k' => lexlt k k'
  | Some Eq, Some k, Some k' => k = k'
  | Some Gt, Some k, Some k' => lexlt k' k
  | None, None, _ | None, _, None => True
  | _, _, _ => False
  end.
Proof.
  destruct x as [sx|sx| |sx mx ex], y as [sy|sy| |sy my ey]; simpl;
    try exact I;
    try (destruct sx; simpl; lia); try (destruct sy; simpl; lia);
    try (destruct sx, sy; simpl; try reflexivity; lia).
  destruct sx, sy; simpl; try lia;
    destruct (Z.compare_spec ex ey); simpl; try lia;
    rewrite ?Pos.compare_cont_spec; simpl;
    destruct (Pos.compare_spec mx my); simpl; subst; try reflexivity; try lia.
Qed.

Lemma leb_key (x y : float) :
  (x <=? y)%float = true <->
  exists k k', SFkey (Prim2SF x) = Some k /\ SFkey (Prim2SF y) = Some k' /\ lexle k k'.
Proof.
  rewrite leb_spec. unfold SFleb.
  pose proof (SFcompare_key (Prim2SF x) (Prim2SF y)) as H.
  destruct (SFcompare (Prim2SF x) (Prim2SF y)) as [[ | | ]|];
    destruct (SFkey (Prim2SF x)) as [[[a b] c]|], (SFkey (Prim2SF y)) as [[[a' b'] c']|];
    try contradiction; simpl in *;
    (split; [ intros E; try discriminate E;
              try (eexists; eexists; split; [reflexivity|split; [reflexivity|]]; simpl;
                   first [ injection H as -> -> ->; lia | lia ])
            | intros (k & k' & E1 & E2 & L); try discriminate E1; try discriminate E2;
              try reflexivity;
              injection E1 as <-; injection E2 as <-; simpl in L; lia ]).
Qed.

Lemma ltb_key (x y : float) :
  (x <? y)%float = true <->
  exists k k', SFkey (Prim2SF x) = Some k /\ SFkey (Prim2SF y) = Some k' /\ lexlt k k'.
Proof.
  rewrite ltb_spec. unfold SFltb.
  pose proof (SFcompare_key (Prim2SF x) (Prim2SF y)) as H.
  destruct (SFcompare (Prim2SF x) (Prim2SF y)) as [[ | | ]|];
    destruct (SFkey (Prim2SF x)) as [[[a b] c]|], (SFkey (Prim2SF y)) as [[[a' b'] c']|];
    try contradiction; simpl in *;
    (split; [ intros E; try discriminate E;
              try (eexists; eexists; split; [reflexivity|split; [reflexivity|]]; simpl;
                   first [ injection H as -> -> ->; lia | lia ])
            | intros (k & k' & E1 & E2 & L); try discriminate E1; try discriminate E2;
              try reflexivity;
              injection E1 as <-; injection E2 as <-; simpl in L;
              first [ injection H as -> -> ->; lia | lia ] ]).
Qed.

Lemma leb_trans (x y z : float) :
  (x <=? y)%float = true -> (y <=? z)%float = true -> (x <=? z)%float = true.
Proof.
  rewrite !leb_key.
  intros (k1 & k2 & E1 & E2 & L12) (k2' & k3 & E2' & E3 & L23).
  rewrite E2 in E2'. injection E2' as <-.
  exists k1, k3. split; [assumption|split; [assumption|]].
  destruct k1 as [[a b] c], k2 as [[a' b'] c'], k3 as [[a'' b''] c'']; simpl in *. lia.
Qed.

Lemma ltb_leb (x y : float) : (x <? y)%float = true -> (x <=? y)%float = true.
Proof.
  rewrite ltb_key, leb_key. intros (k & k' & E1 & E2 & L).
  exists k, k'. split; [assumption|split; [assumption|]].
  destruct k as [[a b] c], k' as [[a' b'] c']; simpl in *. lia.
Qed.

Lemma is_nan_spec (x : float) : is_nan x = true <-> Prim2SF x = S754_nan.
Proof.
  unfold is_nan. rewrite eqb_spec. unfold SFeqb.
  destruct (Prim2SF x) as [s|s| |s m e]; simpl.
  - split; discriminate.
  - destruct s; split; discriminate.
  - split; reflexivity.
  - destruct s; simpl; rewrite Z.compare_refl, ?Pos.compare_cont_spec, Pos.compare_refl;
      split; discriminate.
Qed.

Lemma is_nan_false_key (x : float) :
  is_nan x = false -> exists k, SFkey (Prim2SF x) = Some k.
Proof.
  intros H. destruct (Prim2SF x) as [s|s| |s m e] eqn:E.
  - eexists; reflexivity.
  - destruct s; eexists; reflexivity.
  - apply is_nan_spec in E. congruence.
  - destruct s; eexists; reflexivity.
Qed.

(** Two numbers are comparable unless one of them is NaN. *)
Lemma leb_total (x y : float) :
  is_nan x = false -> is_nan y = false ->
  (x <=? y)%float = false -> (y <? x)%float = true.
Proof.
  intros Hx Hy H.
  destruct (is_nan_false_key x Hx) as [[[a b] c] Ex].
  destruct (is_nan_false_key y Hy) as [[[a' b'] c'] Ey].
  apply ltb_key. exists (a', b', c'), (a, b, c).
  split; [assumption|split; [assumption|]].
  assert (N : ~ lexle (a, b, c) (a', b', c')).
  { intros L. assert ((x <=? y)%float = true) as T; [|congruence].
    apply leb_key. eexists; eexists; eauto. }
  simpl in *. lia.
Qed.

Lemma leb_not_nan (x y : float) :
  (x <=? y)%float = true -> is_nan x = false /\ is_nan y = false.
Proof.
  rewrite leb_key. intros (k & k' & E1 & E2 & _).
  split; apply not_true_iff_false; intros H; apply is_nan_spec in H;
    rewrite H in *; discriminate.
Qed.

Lemma leb_refl (x : float) : is_nan x = false -> (x <=? x)%float = true.
Proof.
  intros H. destruct (is_nan_false_key x H) as [[[a b] c] E].
  apply leb_key. exists (a, b, c), (a, b, c). repeat split; try assumption.
  simpl. lia.
Qed.

Lemma abs_opp (x : float) : abs (- x) = abs x.
Proof.
  apply Prim2SF_inj. rewrite !abs_spec, opp_spec.
  destruct (Prim2SF x) as [s|s| |s m e]; reflexivity.
Qed.

Lemma add_nan_l (x y : float) : is_nan x = true -> is_nan (x + y) = true.
Proof.
  intros H. apply is_nan_spec. rewrite add_spec.
  apply is_nan_spec in H. rewrite H. reflexivity.
Qed.

Lemma add_nan_r (x y : float) : is_nan y = true -> is_nan (x + y) = true.
Proof.
  intros H. apply is_nan_spec. rewrite add_spec.
  apply is_nan_spec in H. rewrite H.
  destruct (Prim2SF x) as [s|s| |s m e]; reflexivity.
Qed.

Lemma div_nan_l (x y : float) : is_nan x = true -> is_nan (x / y) = true.
Proof.
  intros H. apply is_nan_spec. rewrite div_spec.
  apply is_nan_spec in H. rewrite H. reflexivity.
Qed.

Lemma leb_nan_l (x y : float) : is_nan x = true -> (x <=? y)%float = false.
Proof.
  intros H. apply not_true_iff_false. intros L.
  apply leb_not_nan in L. destruct L; congruence.
Qed.

Lemma leb_nan_r (x y : float) : is_nan y = true -> (x <=? y)%float = false.
Proof.
  intros H. apply not_true_iff_false. intros L.
  apply leb_not_nan in L. destruct L; congruence.
Qed.

Lemma gt_not_nan (x y : float) : gt x y = true -> is_nan x = false.
Proof.
  unfold gt. intros H. apply ltb_leb in H. apply leb_not_nan in H. tauto.
Qed.

(** *** Sums of finite numbers *)

Lemma shr_1_nonneg (mrs : shr_record) : 0 <= shr_m mrs -> 0 <= shr_m (shr_1 mrs).
Proof.
  destruct mrs as [m r s]. cbn [shr_m]. intros H.
  destruct m as [|p|p]; cbn; [lia| |lia].
  destruct p; cbn; lia.
Qed.

Lemma shr_nonneg (mrs : shr_record) (e n : Z) :
  0 <= shr_m mrs -> 0 <= shr_m (fst (shr mrs e n)).
Proof.
  intros H. unfold shr. destruct n as [|p|p]; cbn [fst]; try exact H.
  rewrite iter_pos_nat.
  induction (Pos.to_nat p) as [|k IH]; cbn [Nat.iter]; [exact H|].
  apply shr_1_nonneg. exact IH.
Qed.

Lemma shr_fexp_nonneg (m e : Z) (l : location) :
  0 <= m -> 0 <= shr_m (fst (shr_fexp prec emax m e l)).
Proof.
  intros H. unfold shr_fexp. apply shr_nonneg.
  destruct l as [|[ | | ]]; exact H.
Qed.

Lemma round_nearest_even_nonneg (m : Z) (l : location) :
  0 <= m -> 0 <= round_nearest_even m l.
Proof.
  intros H. unfold round_nearest_even.
  destruct l as [|[ | | ]]; try lia. destruct (Z.even m); lia.
Qed.

Lemma binary_round_aux_not_nan (sx : bool) (m e : Z) (l : location) :
  0 <= m -> binary_round_aux prec emax sx m e l <> S754_nan.
Proof.
  intros H. unfold binary_round_aux.
  pose proof (shr_fexp_nonneg m e l H) as H1.
  destruct (shr_fexp prec emax m e l) as [mrs' e']. cbn [fst] in H1.
  pose proof (shr_fexp_nonneg _ e' loc_Exact
                (round_nearest_even_nonneg _ (loc_of_shr_record mrs') H1)) as H2.
  destruct (shr_fexp prec emax _ e' loc_Exact) as [mrs'' e'']. cbn [fst] in H2.
  destruct (shr_m mrs'') as [|p|p]; [discriminate| |lia].
  destruct (e'' <=? emax - prec); discriminate.
Qed.

Lemma binary_normalize_not_nan (m e : Z) (szero : bool) :
  binary_normalize prec emax m e szero <> S754_nan.
Proof.
  unfold binary_normalize, binary_round.
  destruct m as [|p|p]; [discriminate| |].
  - destruct (shl_align p e _) as [mz ez]. apply binary_round_aux_not_nan. lia.
  - destruct (shl_align p e _) as [mz ez]. apply binary_round_aux_not_nan. lia.
Qed.

(** Adding or subtracting a finite number gives NaN only from NaN. *)
Lemma add_finite_not_nan (x y : float) (s : bool) (m : positive) (e : Z) :
  Prim2SF y = S754_finite s m e -> is_nan x = false -> is_nan (x + y) = false.
Proof.
  intros Hy Hx. apply not_true_iff_false. intros N.
  apply is_nan_spec in N. rewrite add_spec, Hy in N.
  assert (Nx : Prim2SF x <> S754_nan).
  { intros E. apply is_nan_spec in E. congruence. }
  unfold SF64add, SFadd in N.
  destruct (Prim2SF x) as [sx|sx| |sx mx ex]; try discriminate; try congruence.
  exact (binary_normalize_not_nan _ _ _ N).
Qed.

Lemma sub_finite_not_nan (x y : float) (s : bool) (m : positive) (e : Z) :
  Prim2SF y = S754_finite s m e -> is_nan x = false -> is_nan (x - y) = false.
Proof.
  intros Hy Hx. apply not_true_iff_false. intros N.
  apply is_nan_spec in N. rewrite sub_spec, Hy in N.
  assert (Nx : Prim2SF x <> S754_nan).
  { intros E. apply is_nan_spec in E. congruence. }
  unfold SF64sub, SFsub in N.
  destruct (Prim2SF x) as [sx|sx| |sx mx ex]; try discriminate; try congruence.
  exact (binary_normalize_not_nan _ _ _ N).
Qed.

Lemma Math_max_lower (a b : float) :
  is_nan a = false -> is_nan b = false ->
  (a <=? Math_max a b)%float = true /\ is_nan (Math_max a b) = false.
Proof.
  intros Na Nb. unfold Math_max. rewrite Na, Nb. cbn [orb].
  destruct (a <? b)%float eqn:L.
  - split; [apply ltb_leb; exact L|exact Nb].
  - destruct (is_zero a && is_zero b && get_sign a && negb (get_sign b)) eqn:Z.
    + split; [|exact Nb].
      apply andb_prop in Z. destruct Z as [Z _].
      apply andb_prop in Z. destruct Z as [Z _].
      apply andb_prop in Z. destruct Z as [Za Zb].
      unfold is_zero in Za, Zb.
      rewrite eqb_spec in Za, Zb. rewrite leb_spec.
      unfold SFeqb, SFleb in *.
      destruct (Prim2SF a) as [sa|sa| |sa ma ea], (Prim2SF b) as [sb|sb| |sb mb eb];
        try discriminate; try reflexivity;
        try (destruct sa; discriminate); try (destruct sb; discriminate).
    + split; [apply leb_refl; exact Na|exact Na].
Qed.

(** *** Clamping *)

Lemma Math_min_one (c : float) :
  is_nan c = false ->
  (Math_min 1 c <=? 1)%float = true
  /\ (Math_min 1 c = 1%float \/ Math_min 1 c = c).
Proof.
  intros N. unfold Math_min. rewrite N.
  change (is_nan 1 || false) with false. cbv iota.
  destruct (c <? 1)%float eqn:L.
  - split; [apply ltb_leb; exact L|right; reflexivity].
  - change (is_zero 1) with false. cbn [andb].
    split; [reflexivity|left; reflexivity].
Qed.

Lemma Math_max_minus_one (m : float) :
  is_nan m = false -> (m <=? 1)%float = true ->
  within (-1) 1 (Math_max (-1) m).
Proof.
  intros N U. unfold Math_max, within. rewrite N.
  change (is_nan (-1) || false) with false. cbv iota.
  destruct (-1 <? m)%float eqn:L.
  - split; [apply ltb_leb; exact L|exact U].
  - change (is_zero (-1)) with false. cbn [andb]. split; reflexivity.
Qed.

Lemma Math_min_nan (a b : float) : is_nan b = true -> Math_min a b = nan.
Proof. intros N. unfold Math_min. rewrite N, orb_true_r. reflexivity. Qed.

Lemma clamp_domain (c : float) :
  let x := Math_max (-1) (Math_min 1 c) in
  is_nan x = true \/ within (-1) 1 x.
Proof.
  cbv zeta. destruct (is_nan c) eqn:N.
  - left. rewrite (Math_min_nan 1 c N). reflexivity.
  - right. destruct (Math_min_one c N) as [U _].
    apply Math_max_minus_one; [|exact U].
    destruct (leb_not_nan _ _ U) as [H _]. exact H.
Qed.

Lemma abs_not_negative (x : float) : (abs x <? 0)%float = false.
Proof.
  rewrite ltb_spec, abs_spec. unfold SFltb.
  destruct (Prim2SF x) as [s|s| |s m e]; reflexivity.
Qed.

End JsOrderFacts.

(** ** Suffixes of lists *)

Module SuffixFacts.

Import Spec ListFacts.

Lemma lastn_app_long {A : Type} (n : nat) (l1 l2 : list A) :
  (n <= List.length l2)%nat -> lastn n (l1 ++ l2) = lastn n l2.
Proof.
  intros H. unfold lastn. rewrite length_app.
  rewrite skipn_app.
  replace (List.length l1 + List.length l2 - n - List.length l1)%nat
    with (List.length l2 - n)%nat by lia.
  rewrite skipn_all2 by lia. reflexivity.
Qed.

Lemma lastn_snoc {A : Type} (k : nat) (l : list A) (x : A) :
  (k <= List.length l)%nat -> lastn k l ++ [x] = lastn (S k) (l ++ [x]).
Proof.
  intros H. unfold lastn. rewrite length_app. cbn [List.length].
  replace (List.length l + 1 - S k)%nat with (List.length l - k)%nat by lia.
  rewrite skipn_app.
  replace (List.length l - k - List.length l)%nat with 0%nat by lia.
  reflexivity.
Qed.

Lemma lastn_lastn {A : Type} (j k : nat) (l : list A) :
  (j <= k)%nat -> lastn j (lastn k l) = lastn j l.
Proof.
  intros H. unfold lastn. rewrite length_skipn, skipn_skipn. f_equal. lia.
Qed.

Lemma lastn_all {A : Type} (k : nat) (l : list A) :
  (List.length l <= k)%nat -> lastn k l = l.
Proof.
  intros H. unfold lastn. replace (List.length l - k)%nat with 0%nat by lia.
  reflexivity.
Qed.

Lemma lastn_In {A : Type} (k : nat) (l : list A) (x : A) :
  In x (lastn k l) -> In x l.
Proof.
  unfold lastn. intros H.
  rewrite <- (firstn_skipn (List.length l - k) l). apply in_or_app. right. exact H.
Qed.

End SuffixFacts.

(** ** Assessments *)

Module AssessmentProps.

Import Js PostureAnalysis Spec AnalysisSpec.
Import JsFacts JsOrderFacts ListFacts SuffixFacts AnalysisProps.
Open Scope float_scope.

(** *** The outcomes of the three analyses *)

Ltac solve_in := simpl; repeat (first [left; reflexivity | right]); fail.

Lemma neck_outcome (a : float) : In (outcome (analyzeNeckPosture a)) neckOutcomes.
Proof.
  unfold analyzeNeckPosture, outcome.
  destruct (abs a <=? 5); [solve_in|].
  destruct (abs a <=? 10); [solve_in|].
  destruct (abs a <=? 20); destruct (gt a 0); solve_in.
Qed.

Lemma torso_outcome (a : float) : In (outcome (analyzeTorsoPosture a)) torsoOutcomes.
Proof.
  unfold analyzeTorsoPosture, outcome.
  destruct (ge a 85 && (a <=? 95)); [solve_in|].
  destruct (ge a 80 && (a <=? 100)); [solve_in|].
  destruct (ge a 70 && (a <=? 110)); [destruct (a <? 85)|destruct (a <? 70)]; solve_in.
Qed.

Lemma shoulder_outcome (sd : ShoulderData) :
  In (outcome (analyzeShoulderPosture sd)) shoulderOutcomes.
Proof.
  unfold analyzeShoulderPosture, checkForwardProjection, checkAsymmetry, outcome,
    shoulderStart.
  destruct (gt (asymmetry sd) 10); [|destruct (gt (asymmetry sd) 5)];
    cbn [r_score r_status r_issues];
    (destruct (gt (forwardProjection sd) 20);
     [|destruct (gt (forwardProjection sd) 15)]);
    cbn [r_score r_status r_issues score status issues app]; solve_in.
Qed.

(** Every property of the three outcomes that holds on the finitely many
    combinations holds of every assessment. *)
Lemma outcomes_all (P : Outcome -> Outcome -> Outcome -> bool) :
  forallb (fun n => forallb (fun t => forallb (P n t) shoulderOutcomes)
                      torsoOutcomes) neckOutcomes = true ->
  forall sm : Angles,
    P (outcome (analyzeNeckPosture (neckAngle sm)))
      (outcome (analyzeTorsoPosture (torsoAngle sm)))
      (outcome (analyzeShoulderPosture (shoulderData sm))) = true.
Proof.
  intros H sm.
  rewrite forallb_forall in H.
  specialize (H _ (neck_outcome (neckAngle sm))).
  rewrite forallb_forall in H.
  specialize (H _ (torso_outcome (torsoAngle sm))).
  rewrite forallb_forall in H.
  exact (H _ (shoulder_outcome (shoulderData sm))).
Qed.

Lemma assessPosture_outcomes (M : MathObject) (sm : Angles) (c : float) (now : Z) :
  let n := outcome (analyzeNeckPosture (neckAngle sm)) in
  let t := outcome (analyzeTorsoPosture (torsoAngle sm)) in
  let s := outcome (analyzeShoulderPosture (shoulderData sm)) in
  state_status (assessPosture M sm c now) = determinePostureStatus (overallOf n t s)
  /\ state_issues (assessPosture M sm c now) = issuesOf n t s
  /\ recommendations (assessPosture M sm c now)
     = generateRecommendations (issuesOf n t s).
Proof. repeat split. Qed.

(** *** Issues and recommendations *)










Lemma statusCheck_all :
  forallb (fun n => forallb (fun t => forallb (statusCheck n t) shoulderOutcomes)
                      torsoOutcomes) neckOutcomes = true.
Proof. vm_compute. reflexivity. Qed.

Lemma recommendationsCheck_all :
  forallb (fun n => forallb (fun t => forallb (recommendationsCheck n t)
                                        shoulderOutcomes)
                      torsoOutcomes) neckOutcomes = true.
Proof. vm_compute. reflexivity. Qed.

Lemma Status_eqb_eq (a b : Status) : Status_eqb a b = true <-> a = b.
Proof. destruct a, b; simpl; split; congruence. Qed.

Lemma isNil_eq {A : Type} (l : list A) : isNil l = true <-> l = [].
Proof. destruct l; simpl; split; congruence. Qed.

(** X7. The overall status of an assessment is never unknown.  An
    assessment with no issue is excellent or good, so a warning or poor
    status always comes with at least one issue and one recommendation;
    an excellent status is only reached when neither the neck nor the
    torso analysis raises an issue. *)
Theorem X7_status_and_issues
    (M : MathObject) (sm : Angles) (confidence : float) (now : Z) :
  let a := assessPosture M sm confidence now in
  state_status a <> unknown
  /\ (state_issues a = [] -> state_status a = excellent \/ state_status a = good)
  /\ (state_status a = warning \/ state_status a = poor ->
      state_issues a <> [] /\ recommendations a <> [])
  /\ (state_status a = excellent ->
      issues (analyzeNeckPosture (neckAngle sm)) = []
      /\ issues (analyzeTorsoPosture (torsoAngle sm)) = []).
Proof.
  cbv zeta.
  destruct (assessPosture_outcomes M sm confidence now) as (Es & Ei & Er).
  rewrite Es, Ei, Er.
  pose proof (outcomes_all statusCheck statusCheck_all sm) as H.
  unfold statusCheck in H.
  set (n := outcome (analyzeNeckPosture (neckAngle sm))) in *.
  set (t := outcome (analyzeTorsoPosture (torsoAngle sm))) in *.
  set (s := outcome (analyzeShoulderPosture (shoulderData sm))) in *.
  change (issues (analyzeNeckPosture (neckAngle sm))) with (snd n).
  change (issues (analyzeTorsoPosture (torsoAngle sm))) with (snd t).
  apply andb_prop in H. destruct H as [H H3].
  apply andb_prop in H. destruct H as [H1 H2].
  assert (A : issuesOf n t s = [] ->
              determinePostureStatus (overallOf n t s) = excellent
              \/ determinePostureStatus (overallOf n t s) = good).
  { intros E. rewrite E in H2. simpl in H2.
    apply orb_prop in H2. rewrite !Status_eqb_eq in H2. exact H2. }
  split; [|split; [exact A|split]].
  - intros E. rewrite E in H1. discriminate.
  - intros W.
    assert (N : issuesOf n t s <> []).
    { intros E. destruct (A E) as [X|X]; rewrite X in W; destruct W; discriminate. }
    split; [exact N|].
    destruct (issuesOf n t s); [congruence|discriminate].
  - intros E. rewrite E in H3. simpl in H3.
    apply andb_prop in H3. rewrite !isNil_eq in H3. exact H3.
Qed.

(** X9. An assessment carries one recommendation per issue, in the same
    order: the table entry of the issue, or the generic text for an issue
    the table does not list.  Of the issues the analysers raise exactly
    two have no entry: severe backward head tilt and severe backward
    lean. *)
Theorem X9_recommendations
    (M : MathObject) (sm : Angles) (confidence : float) (now : Z) :
  let a := assessPosture M sm confidence now in
  List.length (recommendations a) = List.length (state_issues a)
  /\ (forall i issue,
        nth_error (state_issues a) i = Some issue ->
        (nth_error (recommendations a) i
         = Some (match lookup issue recommendationMap with
                 | Some r => r
                 | None => genericRecommendation
                 end))
        /\ (lookup issue recommendationMap = None <-> In issue unmappedIssues)).
Proof.
  cbv zeta.
  destruct (assessPosture_outcomes M sm confidence now) as (_ & Ei & Er).
  rewrite Ei, Er.
  pose proof (outcomes_all recommendationsCheck recommendationsCheck_all sm) as H.
  unfold recommendationsCheck in H.
  set (l := issuesOf _ _ _) in *.
  split; [apply length_map|].
  intros i issue E. split.
  - unfold generateRecommendations. rewrite nth_error_map, E. reflexivity.
  - rewrite forallb_forall in H. specialize (H issue (nth_error_In _ _ E)).
    apply Bool.eqb_prop in H.
    split.
    + intros N. rewrite N in H. symmetry in H.
      apply existsb_exists in H. destruct H as (u & I & Eu).
      apply String.eqb_eq in Eu. subst u. exact I.
    + intros I.
      assert (T : existsb (String.eqb issue) unmappedIssues = true).
      { apply existsb_exists. exists issue. split; [exact I|apply String.eqb_refl]. }
      rewrite T in H. destruct (lookup issue recommendationMap); [discriminate|reflexivity].
Qed.

(** *** Monotonicity *)

Ltac order_contradiction :=
  match goal with
  | H : true = true -> false = true |- _ => discriminate (H eq_refl)
  | H : ?x = true -> ?y = true, H1 : ?x = true, H2 : ?y = false |- _ =>
      rewrite (H H1) in H2; discriminate H2
  end.

Lemma determinePostureStatus_monotone (s1 s2 : float) :
  (s1 <=? s2) = true ->
  (severity (determinePostureStatus s2) <= severity (determinePostureStatus s1))%nat.
Proof.
  intros L. unfold determinePostureStatus, ge.
  assert (H90 : (90 <=? s1) = true -> (90 <=? s2) = true)
    by (intros H; exact (leb_trans _ _ _ H L)).
  assert (H75 : (75 <=? s1) = true -> (75 <=? s2) = true)
    by (intros H; exact (leb_trans _ _ _ H L)).
  assert (H60 : (60 <=? s1) = true -> (60 <=? s2) = true)
    by (intros H; exact (leb_trans _ _ _ H L)).
  destruct (90 <=? s1) eqn:A1, (75 <=? s1) eqn:B1, (60 <=? s1) eqn:C1,
           (90 <=? s2) eqn:A2, (75 <=? s2) eqn:B2, (60 <=? s2) eqn:C2;
    simpl; try lia; order_contradiction.
Qed.

Lemma analyzeNeckPosture_monotone (a b : float) :
  (abs a <=? abs b) = true ->
  (score (analyzeNeckPosture b) <=? score (analyzeNeckPosture a)) = true
  /\ (severity (status (analyzeNeckPosture a))
      <= severity (status (analyzeNeckPosture b)))%nat.
Proof.
  intros L. unfold analyzeNeckPosture.
  assert (H5 : (abs b <=? 5) = true -> (abs a <=? 5) = true)
    by (intros H; exact (leb_trans _ _ _ L H)).
  assert (H10 : (abs b <=? 10) = true -> (abs a <=? 10) = true)
    by (intros H; exact (leb_trans _ _ _ L H)).
  assert (H20 : (abs b <=? 20) = true -> (abs a <=? 20) = true)
    by (intros H; exact (leb_trans _ _ _ L H)).
  destruct (abs a <=? 5) eqn:A1, (abs a <=? 10) eqn:B1, (abs a <=? 20) eqn:C1,
           (abs b <=? 5) eqn:A2, (abs b <=? 10) eqn:B2, (abs b <=? 20) eqn:C2;
    cbn [score status severity];
    try (split; [reflexivity|lia]); order_contradiction.
Qed.

Lemma analyzeNeckPosture_symmetric (a : float) :
  score (analyzeNeckPosture (- a)) = score (analyzeNeckPosture a)
  /\ status (analyzeNeckPosture (- a)) = status (analyzeNeckPosture a).
Proof.
  unfold analyzeNeckPosture. rewrite abs_opp.
  destruct (abs a <=? 5); [split; reflexivity|].
  destruct (abs a <=? 10); [split; reflexivity|].
  destruct (abs a <=? 20); split; reflexivity.
Qed.

Lemma neckMonotoneCheck_all :
  forallb (fun n => forallb (fun n' => forallb (fun t =>
    forallb (neckMonotoneCheck n n' t) shoulderOutcomes) torsoOutcomes)
    neckOutcomes) neckOutcomes = true.
Proof. vm_compute. reflexivity. Qed.

Lemma torsoMonotoneCheck_all :
  forallb (fun t => forallb (fun t' => forallb (fun n =>
    forallb (torsoMonotoneCheck t t' n) shoulderOutcomes) neckOutcomes)
    torsoOutcomes) torsoOutcomes = true.
Proof. vm_compute. reflexivity. Qed.

Lemma overallScoreOf_outcomes (sm : Angles) :
  overallScoreOf sm
  = overallOf (outcome (analyzeNeckPosture (neckAngle sm)))
              (outcome (analyzeTorsoPosture (torsoAngle sm)))
              (outcome (analyzeShoulderPosture (shoulderData sm))).
Proof. reflexivity. Qed.

Lemma overall_monotone_neck (sm : Angles) (a b : float) :
  (score (analyzeNeckPosture b) <=? score (analyzeNeckPosture a)) = true ->
  (overallScoreOf (withNeck sm b) <=? overallScoreOf (withNeck sm a)) = true.
Proof.
  intros L. rewrite !overallScoreOf_outcomes. cbn [withNeck neckAngle torsoAngle shoulderData].
  pose proof neckMonotoneCheck_all as H.
  rewrite forallb_forall in H. specialize (H _ (neck_outcome a)).
  rewrite forallb_forall in H. specialize (H _ (neck_outcome b)).
  rewrite forallb_forall in H. specialize (H _ (torso_outcome (torsoAngle sm))).
  rewrite forallb_forall in H. specialize (H _ (shoulder_outcome (shoulderData sm))).
  unfold neckMonotoneCheck in H. unfold outcome at 1 2 in H. cbn [fst] in H.
  rewrite L in H. exact H.
Qed.

Lemma overall_monotone_torso (sm : Angles) (a b : float) :
  (score (analyzeTorsoPosture b) <=? score (analyzeTorsoPosture a)) = true ->
  (overallScoreOf (withTorso sm b) <=? overallScoreOf (withTorso sm a)) = true.
Proof.
  intros L. rewrite !overallScoreOf_outcomes. cbn [withTorso neckAngle torsoAngle shoulderData].
  pose proof torsoMonotoneCheck_all as H.
  rewrite forallb_forall in H. specialize (H _ (torso_outcome a)).
  rewrite forallb_forall in H. specialize (H _ (torso_outcome b)).
  rewrite forallb_forall in H. specialize (H _ (neck_outcome (neckAngle sm))).
  rewrite forallb_forall in H. specialize (H _ (shoulder_outcome (shoulderData sm))).
  unfold torsoMonotoneCheck in H. unfold outcome at 1 2 in H. cbn [fst] in H.
  rewrite L in H. exact H.
Qed.

(** X5. The neck analysis depends on the magnitude of the angle only
    (score and status are the same for [a] and [-a]) and is monotone in it:
    a smaller magnitude never gives a lower neck score or a worse neck
    status, and, with the torso and shoulders unchanged, never a lower
    overall score or a worse overall status. *)
Theorem X5_neck_symmetric_monotone (sm : Angles) (a b : float) :
  (abs a <=? abs b) = true ->
  ((score (analyzeNeckPosture b) <=? score (analyzeNeckPosture a)) = true
   /\ (severity (status (analyzeNeckPosture a))
       <= severity (status (analyzeNeckPosture b)))%nat)
  /\ (overallScoreOf (withNeck sm b) <=? overallScoreOf (withNeck sm a)) = true
  /\ (forall M confidence now,
        (severity (state_status (assessPosture M (withNeck sm a) confidence now))
         <= severity (state_status (assessPosture M (withNeck sm b) confidence now)))%nat)
  /\ score (analyzeNeckPosture (- a)) = score (analyzeNeckPosture a)
  /\ status (analyzeNeckPosture (- a)) = status (analyzeNeckPosture a).
Proof.
  intros L.
  pose proof (analyzeNeckPosture_monotone a b L) as [S1 S2].
  pose proof (overall_monotone_neck sm a b S1) as O.
  split; [split; assumption|].
  split; [exact O|].
  split; [|exact (analyzeNeckPosture_symmetric a)].
  intros M confidence now.
  exact (determinePostureStatus_monotone _ _ O).
Qed.

Lemma X5_neck_symmetric_monotone_witness :
  (severity (status (analyzeNeckPosture 3))
   <= severity (status (analyzeNeckPosture (-12))))%nat.
Proof.
  apply (X5_neck_symmetric_monotone (sampleAngles 0) 3 (-12)).
  vm_compute. reflexivity.
Defined.

Lemma analyzeTorsoPosture_monotone (a b : float) :
  ((b <=? a) && (a <=? 90) || (90 <=? a) && (a <=? b)) = true ->
  (score (analyzeTorsoPosture b) <=? score (analyzeTorsoPosture a)) = true
  /\ (severity (status (analyzeTorsoPosture a))
      <= severity (status (analyzeTorsoPosture b)))%nat.
Proof.
  intros L. unfold analyzeTorsoPosture, ge.
  apply orb_prop in L. destruct L as [L|L]; apply andb_prop in L; destruct L as [L1 L2].
  - (* b <= a <= 90 *)
    assert (U95 : (a <=? 95) = true) by (apply (leb_trans _ _ _ L2); reflexivity).
    assert (U100 : (a <=? 100) = true) by (apply (leb_trans _ _ _ L2); reflexivity).
    assert (U110 : (a <=? 110) = true) by (apply (leb_trans _ _ _ L2); reflexivity).
    assert (H85 : (85 <=? b) = true -> (85 <=? a) = true)
      by (intros H; exact (leb_trans _ _ _ H L1)).
    assert (H80 : (80 <=? b) = true -> (80 <=? a) = true)
      by (intros H; exact (leb_trans _ _ _ H L1)).
    assert (H70 : (70 <=? b) = true -> (70 <=? a) = true)
      by (intros H; exact (leb_trans _ _ _ H L1)).
    rewrite U95, U100, U110.
    destruct (85 <=? a) eqn:A1, (80 <=? a) eqn:B1, (70 <=? a) eqn:C1,
             (85 <=? b) eqn:A2, (80 <=? b) eqn:B2, (70 <=? b) eqn:C2;
      destruct (b <=? 95), (b <=? 100), (b <=? 110);
      cbn [andb score status severity];
      try (split; [reflexivity|lia]); order_contradiction.
  - (* 90 <= a <= b *)
    assert (U85 : (85 <=? a) = true) by (apply (fun H => leb_trans _ _ _ H L1); reflexivity).
    assert (U80 : (80 <=? a) = true) by (apply (fun H => leb_trans _ _ _ H L1); reflexivity).
    assert (U70 : (70 <=? a) = true) by (apply (fun H => leb_trans _ _ _ H L1); reflexivity).
    assert (H95 : (b <=? 95) = true -> (a <=? 95) = true)
      by (intros H; exact (leb_trans _ _ _ L2 H)).
    assert (H100 : (b <=? 100) = true -> (a <=? 100) = true)
      by (intros H; exact (leb_trans _ _ _ L2 H)).
    assert (H110 : (b <=? 110) = true -> (a <=? 110) = true)
      by (intros H; exact (leb_trans _ _ _ L2 H)).
    rewrite U85, U80, U70.
    destruct (a <=? 95) eqn:A1, (a <=? 100) eqn:B1, (a <=? 110) eqn:C1,
             (b <=? 95) eqn:A2, (b <=? 100) eqn:B2, (b <=? 110) eqn:C2;
      destruct (85 <=? b), (80 <=? b), (70 <=? b);
      cbn [andb score status severity];
      try (split; [reflexivity|lia]); order_contradiction.
Qed.

(** X6. The torso analysis is monotone towards upright: an angle that
    lies between another angle and 90 degrees never gets a lower torso
    score or a worse torso status, and, with the neck and shoulders
    unchanged, never a lower overall score or a worse overall status. *)
Theorem X6_torso_monotone (sm : Angles) (a b : float) :
  ((b <=? a) && (a <=? 90) || (90 <=? a) && (a <=? b)) = true ->
  ((score (analyzeTorsoPosture b) <=? score (analyzeTorsoPosture a)) = true
   /\ (severity (status (analyzeTorsoPosture a))
       <= severity (status (analyzeTorsoPosture b)))%nat)
  /\ (overallScoreOf (withTorso sm b) <=? overallScoreOf (withTorso sm a)) = true
  /\ (forall M confidence now,
        (severity (state_status (assessPosture M (withTorso sm a) confidence now))
         <= severity (state_status (assessPosture M (withTorso sm b) confidence now)))%nat).
Proof.
  intros L.
  pose proof (analyzeTorsoPosture_monotone a b L) as [S1 S2].
  pose proof (overall_monotone_torso sm a b S1) as O.
  split; [split; assumption|].
  split; [exact O|].
  intros M confidence now.
  exact (determinePostureStatus_monotone _ _ O).
Qed.

Lemma X6_torso_monotone_witness :
  (severity (status (analyzeTorsoPosture 88))
   <= severity (status (analyzeTorsoPosture 75)))%nat.
Proof.
  apply (X6_torso_monotone (sampleAngles 0) 88 75).
  vm_compute. reflexivity.
Defined.

(** *** Frames that cannot be used *)

(** X1. A frame that [analyzePose] cannot use (an empty landmark array,
    or a required landmark that is missing or not visible) is answered
    with the default state (status unknown, score 0, confidence 0) and
    changes nothing in the object: the smoothing windows and
    [currentState] stay as they were. *)
Theorem X1_analyzePose_undetected_frame
    (M : MathObject) (st : State) (landmarks : list (option Landmark))
    (imageSize : ImageSize) (now : Z) :
  landmarks = [] \/ forallb visible (requiredLandmarks landmarks) = false ->
  analyzePose M st landmarks imageSize now = (st, getDefaultPostureState now)
  /\ state_status (snd (analyzePose M st landmarks imageSize now)) = unknown
  /\ state_score (snd (analyzePose M st landmarks imageSize now)) = 0
  /\ state_confidence (snd (analyzePose M st landmarks imageSize now)) = Some 0
  /\ currentState (fst (analyzePose M st landmarks imageSize now)) = currentState st
  /\ forall c, windowOf c (fst (analyzePose M st landmarks imageSize now))
               = windowOf c st.
Proof.
  intros H.
  assert (E : analyzePose M st landmarks imageSize now
              = (st, getDefaultPostureState now)).
  { destruct H as [-> | H]; [reflexivity|].
    unfold analyzePose. destruct landmarks as [|l ls]; [reflexivity|].
    rewrite (extractMeasurements_invalid M _ imageSize H). reflexivity. }
  rewrite E. repeat split.
Qed.

Lemma X1_analyzePose_undetected_frame_witness :
  analyzePose sampleMath (constructor 0) (repeat (Some sampleLandmark) 12)
    sampleImage 5
  = (constructor 0, getDefaultPostureState 5).
Proof.
  apply (X1_analyzePose_undetected_frame sampleMath (constructor 0)
           (repeat (Some sampleLandmark) 12) sampleImage 5).
  right. vm_compute. reflexivity.
Defined.

(** *** The smoothing filter over a run *)

Lemma runFilter_length (frames : list Angles) :
  forall st, List.length (snd (runFilter st frames)) = List.length frames.
Proof.
  induction frames as [|m rest IH]; intros st; [reflexivity|].
  rewrite runFilter_cons. simpl. rewrite IH. reflexivity.
Qed.

Lemma runFilter_last_passthrough (frames : list Angles) :
  forall st n out m,
    nth_error (snd (runFilter st frames)) n = Some out ->
    nth_error frames n = Some m ->
    forwardProjection (shoulderData out) = forwardProjection (shoulderData m)
    /\ leftHeight (shoulderData out) = leftHeight (shoulderData m)
    /\ rightHeight (shoulderData out) = rightHeight (shoulderData m).
Proof.
  induction frames as [|f rest IH]; intros st n out m Ho Hm.
  - destruct n; discriminate.
  - rewrite runFilter_cons in Ho. destruct n as [|n]; simpl in Ho, Hm.
    + injection Ho as <-. injection Hm as <-. repeat split.
    + exact (IH _ _ _ _ Ho Hm).
Qed.

(** X3. After any run of measurements from a state with bounded windows,
    each window holds the last ten raw values pushed, and the value emitted
    for the last frame is their binary64 mean; the forward projection is
    passed through unsmoothed.  From ten frames on, the window and the
    emitted value no longer depend on the state the run started from. *)
Theorem X3_smoothing_mean_of_last_ten
    (c : Channel) (st : State) (frames : list Angles) (n : nat) :
  windowsBounded st ->
  List.length frames = S n ->
  exists out m,
    nth_error (snd (runFilter st frames)) n = Some out
    /\ nth_error frames n = Some m
    /\ windowOf c (fst (runFilter st frames))
       = lastn 10 (windowOf c st ++ map (rawOf c) frames)
    /\ rawOf c out
       = calculateMovingAverage (lastn 10 (windowOf c st ++ map (rawOf c) frames))
    /\ forwardProjection (shoulderData out) = forwardProjection (shoulderData m)
    /\ ((10 <= S n)%nat ->
        rawOf c out = calculateMovingAverage (lastn 10 (map (rawOf c) frames))
        /\ forall st',
             windowsBounded st' ->
             windowOf c (fst (runFilter st' frames))
             = windowOf c (fst (runFilter st frames))
             /\ exists out',
                  nth_error (snd (runFilter st' frames)) n = Some out'
                  /\ rawOf c out' = rawOf c out).
Proof.
  intros B L.
  destruct (runFilter_last_emitted c frames st n L) as (out & Ho & Eo).
  assert (Hm : exists m, nth_error frames n = Some m).
  { destruct (nth_error frames n) as [m|] eqn:E; [eauto|].
    apply nth_error_None in E. lia. }
  destruct Hm as (m & Hm).
  pose proof (runFilter_window c frames st (B c)) as W.
  exists out, m.
  split; [exact Ho|]. split; [exact Hm|]. split; [exact W|].
  split; [rewrite Eo, W; reflexivity|].
  split; [exact (proj1 (runFilter_last_passthrough frames st n out m Ho Hm))|].
  intros G.
  assert (LL : forall s0, windowsBounded s0 ->
             windowOf c (fst (runFilter s0 frames)) = lastn 10 (map (rawOf c) frames)).
  { intros s0 B0. rewrite (runFilter_window c frames s0 (B0 c)).
    apply lastn_app_long. rewrite length_map. lia. }
  split; [rewrite Eo, (LL st B); reflexivity|].
  intros st' B'.
  split; [rewrite (LL st' B'), (LL st B); reflexivity|].
  destruct (runFilter_last_emitted c frames st' n L) as (out' & Ho' & Eo').
  exists out'. split; [exact Ho'|].
  rewrite Eo', Eo, (LL st' B'), (LL st B). reflexivity.
Qed.

Lemma X3_smoothing_mean_of_last_ten_witness :
  exists out m,
    nth_error (snd (runFilter (constructor 0)
                      (repeat (sampleAngles 4) 3 ++ repeat (sampleAngles 12) 10))) 12
    = Some out
    /\ nth_error (repeat (sampleAngles 4) 3 ++ repeat (sampleAngles 12) 10) 12 = Some m
    /\ rawOf Neck out = 12.
Proof.
  destruct (X3_smoothing_mean_of_last_ten Neck (constructor 0)
              (repeat (sampleAngles 4) 3 ++ repeat (sampleAngles 12) 10) 12)
    as (out & m & Ho & Hm & _ & _ & _ & G).
  - intros c. destruct c; simpl; lia.
  - reflexivity.
  - exists out, m. split; [exact Ho|]. split; [exact Hm|].
    rewrite (proj1 (G ltac:(lia))). vm_compute. reflexivity.
Defined.

(** *** NaN measurements *)

Lemma sum_nan_acc (values : list float) :
  forall acc, is_nan acc = true ->
    is_nan (fold_left (fun sum value => sum + value) values acc) = true.
Proof.
  induction values as [|v rest IH]; intros acc H; simpl; [exact H|].
  apply IH. apply add_nan_l. exact H.
Qed.

Lemma sum_nan (values : list float) :
  forall acc, existsb is_nan values = true ->
    is_nan (fold_left (fun sum value => sum + value) values acc) = true.
Proof.
  induction values as [|v rest IH]; intros acc H; simpl in *; [discriminate|].
  destruct (is_nan v) eqn:N.
  - apply sum_nan_acc. apply add_nan_r. exact N.
  - apply IH. exact H.
Qed.

Lemma calculateMovingAverage_nan (values : list float) :
  existsb is_nan values = true -> is_nan (calculateMovingAverage values) = true.
Proof.
  intros H. unfold calculateMovingAverage.
  destruct values as [|v rest]; [discriminate|].
  apply div_nan_l. apply sum_nan. exact H.
Qed.

Lemma existsb_app_r {A : Type} (f : A -> bool) (l1 l2 : list A) :
  existsb f l2 = true -> existsb f (l1 ++ l2) = true.
Proof. intros H. rewrite existsb_app, H. apply orb_true_r. Qed.

(** A NaN among the last ten values pushed stays in the window. *)
Lemma lastn_keeps_nan (pre post : list float) (v : float) :
  is_nan v = true -> (List.length post < 10)%nat ->
  existsb is_nan (lastn 10 (pre ++ v :: post)) = true.
Proof.
  intros N L. unfold lastn.
  rewrite length_app. simpl List.length.
  rewrite skipn_app.
  replace (List.length pre + S (List.length post) - 10 - List.length pre)%nat
    with 0%nat by lia.
  simpl skipn. apply existsb_app_r. simpl. rewrite N. reflexivity.
Qed.

(** The value emitted for a frame is the mean of the window it leaves. *)
Lemma runFilter_emitted (c : Channel) (frames : list Angles) :
  forall st i out,
    windowsBounded st ->
    nth_error (snd (runFilter st frames)) i = Some out ->
    rawOf c out
    = calculateMovingAverage
        (lastn 10 (windowOf c st ++ map (rawOf c) (firstn (S i) frames))).
Proof.
  induction frames as [|f rest IH]; intros st i out B H.
  - destruct i; discriminate.
  - rewrite runFilter_cons in H. destruct i as [|i].
    + assert (E : snd (applySmoothingFilter st f) = out)
        by (cbn [snd nth_error] in H; congruence).
      rewrite <- E, (proj2 (applySmoothingFilter_channel c st f)).
      rewrite (keepRecent_push_lastn _ _ (B c)). reflexivity.
    + cbn [snd nth_error] in H.
      rewrite (IH _ _ _ (applySmoothingFilter_bounded st f B) H).
      rewrite (proj1 (applySmoothingFilter_channel c st f)).
      rewrite (keepRecent_push_lastn _ _ (B c)).
      change (firstn (S (S i)) (f :: rest)) with (f :: firstn (S i) rest).
      cbn [map].
      change (lastn smoothingWindow) with (@lastn float 10).
      rewrite lastn_app_lastn, <- app_assoc. reflexivity.
Qed.

(** X4. A NaN measurement on a channel makes the smoothed value of that
    channel NaN for that frame and for the nine frames after it; a NaN
    angle is rated poor by the neck analysis (score 30) and the torso
    analysis (score 20), and a NaN score is given status poor. *)
Theorem X4_nan_measurement_persists
    (c : Channel) (st : State) (m : Angles) (frames : list Angles) :
  windowsBounded st ->
  is_nan (rawOf c m) = true ->
  (List.length frames <= 9)%nat ->
  Forall (fun out => is_nan (rawOf c out) = true)
         (snd (runFilter st (m :: frames)))
  /\ List.length (snd (runFilter st (m :: frames))) = S (List.length frames)
  /\ (forall a, is_nan a = true ->
        status (analyzeNeckPosture a) = poor
        /\ score (analyzeNeckPosture a) = 30
        /\ status (analyzeTorsoPosture a) = poor
        /\ score (analyzeTorsoPosture a) = 20
        /\ determinePostureStatus a = poor).
Proof.
  intros B N L.
  split; [|split].
  - apply Forall_forall. intros out I.
    apply In_nth_error in I. destruct I as (i & Hi).
    assert (Li : (i < S (List.length frames))%nat).
    { change (S (List.length frames)) with (List.length (m :: frames)).
      rewrite <- (runFilter_length (m :: frames) st).
      apply nth_error_Some. rewrite Hi. discriminate. }
    rewrite (runFilter_emitted c _ st i out B Hi).
    apply calculateMovingAverage_nan.
    change (firstn (S i) (m :: frames)) with (m :: firstn i frames).
    cbn [map]. apply lastn_keeps_nan; [exact N|].
    rewrite length_map, length_firstn. lia.
  - apply runFilter_length.
  - intros a Na.
    unfold analyzeNeckPosture, analyzeTorsoPosture, determinePostureStatus, ge.
    assert (Nabs : is_nan (abs a) = true).
    { apply is_nan_spec. rewrite abs_spec. apply is_nan_spec in Na. rewrite Na. reflexivity. }
    rewrite !(leb_nan_l (abs a) _ Nabs), !(leb_nan_r _ a Na), !(leb_nan_l a _ Na).
    cbn [andb]. repeat split.
Qed.

Lemma X4_nan_measurement_persists_witness :
  Forall (fun out => is_nan (rawOf Neck out) = true)
         (snd (runFilter (constructor 0)
                 (sampleAngles nan :: repeat (sampleAngles 3) 9))).
Proof.
  apply (X4_nan_measurement_persists Neck (constructor 0) (sampleAngles nan)
           (repeat (sampleAngles 3) 9)).
  - intros c. destruct c; simpl; lia.
  - reflexivity.
  - simpl. lia.
Defined.

(** *** A stream of frames *)

Lemma applySmoothingFilter_windows (st st' : State) (m : Angles) :
  recentMeasurements st = recentMeasurements st' ->
  recentMeasurements (fst (applySmoothingFilter st m))
  = recentMeasurements (fst (applySmoothingFilter st' m))
  /\ snd (applySmoothingFilter st m) = snd (applySmoothingFilter st' m).
Proof.
  intros E. unfold applySmoothingFilter. cbn [fst snd recentMeasurements].
  rewrite E. split; reflexivity.
Qed.

Lemma runFilter_windows (frames : list Angles) :
  forall st st',
    recentMeasurements st = recentMeasurements st' ->
    recentMeasurements (fst (runFilter st frames))
    = recentMeasurements (fst (runFilter st' frames))
    /\ snd (runFilter st frames) = snd (runFilter st' frames).
Proof.
  induction frames as [|f rest IH]; intros st st' E; [split; [exact E|reflexivity]|].
  rewrite !runFilter_cons. cbn [fst snd].
  destruct (applySmoothingFilter_windows st st' f E) as [E1 E2].
  destruct (IH _ _ E1) as [E3 E4].
  split; [exact E3|]. rewrite E2, E4. reflexivity.
Qed.

Lemma analyzePose_cases (M : MathObject) (st : State) (frame : Frame) :
  let '(landmarks, imageSize, now) := frame in
  (acceptedMeasurements M frame = []
   /\ analyzePose M st landmarks imageSize now = (st, getDefaultPostureState now))
  \/ (exists raw,
        acceptedMeasurements M frame = [raw]
        /\ recentMeasurements (fst (analyzePose M st landmarks imageSize now))
           = recentMeasurements (fst (applySmoothingFilter st raw))
        /\ snd (analyzePose M st landmarks imageSize now)
           = assessPosture M (snd (applySmoothingFilter st raw))
               (confidence (extractMeasurements M landmarks imageSize)) now
        /\ currentState (fst (analyzePose M st landmarks imageSize now))
           = snd (analyzePose M st landmarks imageSize now)).
Proof.
  destruct frame as [[landmarks imageSize] now].
  unfold acceptedMeasurements, analyzePose.
  destruct landmarks as [|l ls]; [left; split; reflexivity|].
  destruct (isValid _); [|left; split; reflexivity].
  destruct (measured _) as [raw|]; [|left; split; reflexivity].
  right. exists raw.
  destruct (applySmoothingFilter st raw) as [st1 sm]. repeat split.
Qed.

Lemma runPose_cons (M : MathObject) (st : State) landmarks imageSize now
    (rest : list Frame) :
  runPose M st ((landmarks, imageSize, now) :: rest)
  = (fst (runPose M (fst (analyzePose M st landmarks imageSize now)) rest),
     snd (analyzePose M st landmarks imageSize now)
       :: snd (runPose M (fst (analyzePose M st landmarks imageSize now)) rest)).
Proof.
  cbn [runPose].
  destruct (analyzePose M st landmarks imageSize now) as [st1 out].
  cbn [fst snd]. destruct (runPose M st1 rest). reflexivity.
Qed.

(** X2. Over a run of [analyzePose] calls the smoothing windows are
    those obtained by feeding the filter the measurements of the accepted
    frames only: frames answered with the default state are skipped, not
    recorded; a run with no accepted frame leaves the object unchanged and
    returns only unknown states. *)
Theorem X2_undetected_frames_skipped
    (M : MathObject) (frames : list Frame) (st : State) :
  recentMeasurements (fst (runPose M st frames))
  = recentMeasurements
      (fst (runFilter st (flat_map (acceptedMeasurements M) frames)))
  /\ List.length (snd (runPose M st frames)) = List.length frames
  /\ (flat_map (acceptedMeasurements M) frames = [] ->
      fst (runPose M st frames) = st
      /\ Forall (fun a => state_status a = unknown) (snd (runPose M st frames))).
Proof.
  revert st. induction frames as [|[[landmarks imageSize] now] rest IH]; intros st.
  - repeat split. constructor.
  - rewrite runPose_cons. cbn [fst snd flat_map List.length].
    pose proof (analyzePose_cases M st (landmarks, imageSize, now)) as C.
    cbv beta iota in C.
    destruct C as [[E A] | (raw & E & W & _)].
    + rewrite E, A. cbn [fst snd app]. destruct (IH st) as (I1 & I2 & I3).
      split; [exact I1|]. split; [rewrite I2; reflexivity|].
      intros F. destruct (I3 F) as [J1 J2]. split; [exact J1|].
      constructor; [reflexivity|exact J2].
    + rewrite E. cbn [app].
      destruct (IH (fst (analyzePose M st landmarks imageSize now))) as (I1 & I2 & _).
      split; [|split; [rewrite I2; reflexivity|discriminate]].
      rewrite I1. rewrite runFilter_cons. cbn [fst].
      apply (runFilter_windows _ _ _ W).
Qed.

End AssessmentProps.

(** ** Sessions *)

Module SessionProps.

Import Js PostureGuardian Spec GuardianSpec.
Import JsFacts JsOrderFacts ListFacts SuffixFacts GuardianProps.
Open Scope Z_scope.

(** *** Warnings *)

Lemma onPoseResults_step (g : Guardian) (now : Z) (neckAngle torsoAngle : float) :
  isRunning g = true ->
  let p := classifyPosture g neckAngle torsoAngle in
  let g' := onPoseResults g now neckAngle torsoAngle in
  isRunning g' = true
  /\ settings g' = settings g
  /\ currentPostureState (sessionData g') = p
  /\ poorPostureWarnings (sessionData g')
     = poorPostureWarnings (sessionData g)
       + (if Posture_eqb p poor
             && negb (Posture_eqb (currentPostureState (sessionData g)) poor)
          then 1 else 0).
Proof.
  intros R. cbv zeta. unfold onPoseResults. rewrite R. cbn [negb].
  unfold analyzePosture.
  set (g1 := {| isRunning := isRunning g; sessionStartTime := sessionStartTime g;
                sessionData := sessionData g;
                currentAngles := {| neck := neckAngle; torso := torsoAngle |};
                settings := settings g; savedStats := savedStats g |}).
  change (classifyPosture g1 neckAngle torsoAngle)
    with (classifyPosture g neckAngle torsoAngle).
  set (p := classifyPosture g neckAngle torsoAngle).
  assert (C : currentPostureState (sessionData (updateSessionData g1 now p))
              = currentPostureState (sessionData g)).
  { unfold updateSessionData. cbn [sessionData currentPostureState].
    destruct (sessionStartTime g1) as [start|]; [destruct (start =? 0)|]; reflexivity. }
  assert (W : poorPostureWarnings (sessionData (updateSessionData g1 now p))
              = poorPostureWarnings (sessionData g)).
  { unfold updateSessionData. cbn [sessionData poorPostureWarnings].
    destruct (sessionStartTime g1) as [start|]; [destruct (start =? 0)|]; reflexivity. }
  assert (R2 : isRunning (updateSessionData g1 now p) = true) by exact R.
  assert (S2 : settings (updateSessionData g1 now p) = settings g) by reflexivity.
  rewrite C.
  set (g2 := updateSessionData g1 now p) in *.
  unfold handlePostureChange. rewrite C.
  clearbody g2.
  destruct p, (currentPostureState (sessionData g));
    cbn [Posture_eqb negb andb setCurrentPostureState sessionData
         poorPostureWarnings currentPostureState isRunning settings];
    rewrite ?W; repeat split; try assumption; try lia.
Qed.

Lemma classifyPosture_settings (g g' : Guardian) (neckAngle torsoAngle : float) :
  settings g' = settings g ->
  classifyPosture g' neckAngle torsoAngle = classifyPosture g neckAngle torsoAngle.
Proof. intros E. unfold classifyPosture. rewrite E. reflexivity. Qed.

Lemma feedFrames_warnings (frames : list (Z * float * float)) :
  forall g0 g,
    isRunning g = true -> settings g = settings g0 ->
    isRunning (feedFrames g frames) = true
    /\ settings (feedFrames g frames) = settings g0
    /\ poorPostureWarnings (sessionData (feedFrames g frames))
       = poorPostureWarnings (sessionData g)
         + transitionsIntoPoor (currentPostureState (sessionData g))
             (map (classifyFrame g0) frames).
Proof.
  induction frames as [|[[now n] t] rest IH]; intros g0 g R S.
  - cbn. repeat split; try assumption. lia.
  - cbn [feedFrames map transitionsIntoPoor].
    destruct (onPoseResults_step g now n t R) as (R' & S' & C' & W').
    destruct (IH g0 (onPoseResults g now n t) R' (eq_trans S' S)) as (I1 & I2 & I3).
    split; [exact I1|]. split; [exact I2|].
    rewrite (classifyPosture_settings g0 g n t S) in W', C'.
    change (classifyFrame g0 (now, n, t)) with (classifyPosture g0 n t).
    rewrite I3, W', C'. lia.
Qed.

Lemma transitionsIntoPoor_bounds (states : list Posture) :
  forall previous,
    0 <= transitionsIntoPoor previous states
    <= Z.of_nat (List.length (filter (fun p => Posture_eqb p poor) states)).
Proof.
  induction states as [|p rest IH]; intros previous; [cbn; lia|].
  cbn [transitionsIntoPoor filter]. specialize (IH p).
  destruct (Posture_eqb p poor), (Posture_eqb previous poor); cbn [andb negb List.length];
    lia.
Qed.

(** X10. While monitoring runs, [poorPostureWarnings] counts the
    transitions into poor: over a run of frames it grows by the number of
    frames classified poor whose predecessor state is not poor.  It never
    decreases, grows by at most the number of poor frames, and stays the
    same through a run of poor frames that starts in the poor state. *)
Theorem X10_warnings_count_transitions
    (g : Guardian) (frames : list (Z * float * float)) :
  isRunning g = true ->
  let states := map (classifyFrame g) frames in
  poorPostureWarnings (sessionData (feedFrames g frames))
  = poorPostureWarnings (sessionData g)
    + transitionsIntoPoor (currentPostureState (sessionData g)) states
  /\ poorPostureWarnings (sessionData g)
     <= poorPostureWarnings (sessionData (feedFrames g frames))
     <= poorPostureWarnings (sessionData g)
        + Z.of_nat (List.length (filter (fun p => Posture_eqb p poor) states))
  /\ (currentPostureState (sessionData g) = poor ->
      Forall (fun p => p = poor) states ->
      poorPostureWarnings (sessionData (feedFrames g frames))
      = poorPostureWarnings (sessionData g)).
Proof.
  intros R. cbv zeta.
  destruct (feedFrames_warnings frames g g R eq_refl) as (_ & _ & W).
  pose proof (transitionsIntoPoor_bounds (map (classifyFrame g) frames)
                (currentPostureState (sessionData g))) as B.
  split; [exact W|]. split; [lia|].
  intros C F. rewrite W, C.
  clear W B. induction F as [|p rest Hp F IH]; [cbn; lia|].
  cbn [transitionsIntoPoor]. rewrite Hp at 1. cbn. rewrite Hp. lia.
Qed.

Lemma X10_warnings_count_transitions_witness :
  poorPostureWarnings
    (sessionData
       (feedFrames (startMonitoring constructor 1700000000000)
          [(1700000000100, 10%float, 90%float);
           (1700000000200, 30%float, 90%float);
           (1700000000300, 40%float, 90%float);
           (1700000000400, 5%float, 90%float);
           (1700000000500, 10%float, 120%float)])) = 2.
Proof.
  rewrite (proj1 (X10_warnings_count_transitions
                    (startMonitoring constructor 1700000000000) _ eq_refl)).
  vm_compute. reflexivity.
Defined.

(** *** History and totals *)

Lemma feedSamples_sampleOf (frames : list (Z * Posture)) :
  forall g f, sampleOf (feedSamples g frames) f = sampleOf g f.
Proof.
  induction frames as [|[now p] rest IH]; intros g f; [reflexivity|].
  cbn [feedSamples]. rewrite IH. apply sampleOf_update.
Qed.

Lemma feedSamples_snoc (g : Guardian) (frames : list (Z * Posture)) now p :
  feedSamples g (frames ++ [(now, p)])
  = updateSessionData (feedSamples g frames) now p.
Proof. rewrite feedSamples_app. reflexivity. Qed.

Lemma feedSamples_history_suffix (frames : list (Z * Posture)) (g : Guardian) :
  (List.length (history g) <= 1000)%nat ->
  let all := history g ++ map (sampleOf g) frames in
  let h := history (feedSamples g frames) in
  h = lastn (List.length h) all
  /\ (Nat.min 500 (List.length all) <= List.length h <= 1000)%nat.
Proof.
  intros B. cbv zeta.
  induction frames as [|[now p] frames IH] using rev_ind.
  - cbn [feedSamples map]. rewrite app_nil_r.
    split; [symmetry; apply lastn_all; lia|lia].
  - destruct IH as [IH1 IH2].
    rewrite feedSamples_snoc, updateSessionData_history. cbv zeta.
    rewrite feedSamples_sampleOf, map_app, app_assoc. cbn [map].
    set (s := sampleOf g (now, p)).
    set (all := history g ++ map (sampleOf g) frames) in *.
    set (h := history (feedSamples g frames)) in *.
    assert (Lh : (List.length h <= List.length all)%nat).
    { rewrite IH1, lastn_length_min. lia. }
    assert (P : h ++ [s] = lastn (S (List.length h)) (all ++ [s])).
    { rewrite IH1 at 1. apply lastn_snoc. exact Lh. }
    assert (La : List.length (all ++ [s]) = S (List.length all))
      by (rewrite length_app; cbn; lia).
    assert (Lp : List.length (h ++ [s]) = S (List.length h))
      by (rewrite length_app; cbn; lia).
    rewrite La.
    destruct (Nat.ltb_spec 1000 (List.length (h ++ [s]))) as [Hlt|Hle].
    + assert (L5 : List.length (lastn 500 (h ++ [s])) = 500%nat)
        by (rewrite lastn_length_min; lia).
      rewrite L5. split; [|lia].
      rewrite P. apply lastn_lastn. lia.
    + rewrite Lp. split; [exact P|lia].
Qed.

(** X11. The session history is always the most recent part of the
    sequence of samples appended: eviction never reorders or drops a
    sample from the middle, the 500 most recent samples (all of them when
    fewer) are always kept, and at most 1000 are. *)
Theorem X11_history_most_recent_samples
    (g : Guardian) (frames : list (Z * Posture)) :
  (List.length (history g) <= 1000)%nat ->
  let all := history g ++ map (sampleOf g) frames in
  let h := history (feedSamples g frames) in
  h = lastn (List.length h) all
  /\ (Nat.min 500 (List.length all) <= List.length h <= 1000)%nat
  /\ (forall sample, In sample h -> In sample all)
  /\ lastn 500 h = lastn 500 all.
Proof.
  intros B. cbv zeta.
  destruct (feedSamples_history_suffix frames g B) as [S L].
  split; [exact S|]. split; [exact L|]. split.
  - intros sample I. rewrite S in I. exact (lastn_In _ _ _ I).
  - rewrite S.
    destruct (Nat.le_gt_cases 500 (List.length (history (feedSamples g frames))))
      as [G|G].
    + apply lastn_lastn. exact G.
    + assert (U : (List.length (history (feedSamples g frames))
                   <= List.length (history g ++ map (sampleOf g) frames))%nat).
      { rewrite S at 1. rewrite lastn_length_min. lia. }
      assert (E : List.length (history g ++ map (sampleOf g) frames)
                  = List.length (history (feedSamples g frames))) by lia.
      rewrite <- E.
      rewrite (lastn_all (List.length (history g ++ map (sampleOf g) frames))) by lia.
      reflexivity.
Qed.

Lemma X11_history_most_recent_samples_witness :
  lastn 500
    (history (feedSamples (startMonitoring constructor 1700000000000)
                (repeat (1700000000100, good) 1200)))
  = lastn 500
      (map (sampleOf (startMonitoring constructor 1700000000000))
           (repeat (1700000000100, good) 1200)).
Proof.
  apply (X11_history_most_recent_samples
           (startMonitoring constructor 1700000000000)
           (repeat (1700000000100, good) 1200)).
  simpl. lia.
Defined.

Lemma feedSamples_totalTime (g : Guardian) (frames : list (Z * Posture))
    (now : Z) (p : Posture) (start : Z) :
  sessionStartTime g = Some start -> start <> 0 ->
  totalTime (sessionData (feedSamples g (frames ++ [(now, p)]))) = now - start.
Proof.
  intros Hs Hnz. rewrite feedSamples_snoc.
  apply updateSessionData_totalTime; [|exact Hnz].
  clear now p. induction frames as [|[now p] frames IH] using rev_ind; [exact Hs|].
  rewrite feedSamples_snoc. exact IH.
Qed.

(** X12. After a run of frames in a started session, [totalTime] is
    the clock of the last frame minus the start time, whatever the number
    of frames, while [goodPostureTime] is 100 ms per good frame; the
    session score is formed from these two, it is 0 when the clock has not
    advanced, and the good time exceeds the total time exactly when the
    good frames came faster than one per 100 ms on average. *)
Theorem X12_session_totals
    (g : Guardian) (frames : list (Z * Posture)) (now : Z) (p : Posture)
    (start : Z) :
  sessionStartTime g = Some start -> start <> 0 ->
  let run := frames ++ [(now, p)] in
  let sd := sessionData (feedSamples g run) in
  totalTime sd = now - start
  /\ goodPostureTime sd = goodPostureTime (sessionData g) + 100 * goodFrames run
  /\ (0 < now - start ->
      sessionScore sd
      = (number_of_Z (goodPostureTime (sessionData g) + 100 * goodFrames run)
         / number_of_Z (now - start) * 100)%float)
  /\ (now <= start -> sessionScore sd = 0%float)
  /\ (goodPostureTime (sessionData g) = 0 ->
      (totalTime sd < goodPostureTime sd <-> now - start < 100 * goodFrames run)).
Proof.
  intros Hs Hnz. cbv zeta.
  pose proof (feedSamples_totalTime g frames now p start Hs Hnz) as T.
  pose proof (feedSamples_goodPostureTime (frames ++ [(now, p)]) g
                (ex_intro _ start (conj Hs Hnz))) as G.
  split; [exact T|]. split; [exact G|].
  unfold sessionScore. rewrite T, G.
  split; [|split].
  - intros H. apply Z.ltb_lt in H. rewrite H. reflexivity.
  - intros H. destruct (Z.ltb_spec 0 (now - start)); [lia|reflexivity].
  - intros Z0. rewrite Z0. lia.
Qed.

Lemma X12_session_totals_witness :
  let sd := sessionData
              (feedSamples (startMonitoring constructor 1700000000000)
                 ([(1700000000033, good); (1700000000066, good)]
                  ++ [(1700000000099, good)])) in
  totalTime sd = 99 /\ goodPostureTime sd = 300.
Proof.
  cbv zeta.
  destruct (X12_session_totals (startMonitoring constructor 1700000000000)
              [(1700000000033, good); (1700000000066, good)]
              1700000000099 good 1700000000000 eq_refl ltac:(lia))
    as (T & G & _).
  split; [exact T|exact G].
Defined.

(** *** Saved statistics *)

Lemma updateStatistics_counters (stats : Statistics) (sd : SessionData)
    (today : string) (dayIndex : nat) :
  streakInvariant stats ->
  let stats' := updateStatistics stats sd today dayIndex in
  streakInvariant stats'
  /\ totalSessions stats' = Some (orZero (totalSessions stats) + 1)
  /\ statsTotalTime stats' = Some (orZero (statsTotalTime stats) + totalTime sd)
  /\ orZero (bestStreak stats) <= orZero (bestStreak stats')
  /\ orZero (currentStreak stats') <= orZero (currentStreak stats) + 1.
Proof.
  intros [[I0 I1] I2]. cbv zeta. unfold streakInvariant, updateStatistics.
  destruct (negb _); [destruct (ge _ _)|];
    cbn [currentStreak bestStreak totalSessions statsTotalTime orZero];
    repeat split; try lia.
Qed.

(** X15. Saving sessions keeps the streak counters ordered: 0 <=
    currentStreak <= bestStreak <= totalSessions.  Each save adds one to
    the number of sessions and the session time to the total time, the
    best streak never decreases, and the current streak grows by at most
    one per session. *)
Theorem X15_statistics_counters
    (stats : Statistics) (sessions : list (SessionData * string * nat)) :
  streakInvariant stats ->
  let stats' := recordSessions stats sessions in
  streakInvariant stats'
  /\ orZero (totalSessions stats')
     = orZero (totalSessions stats) + Z.of_nat (List.length sessions)
  /\ orZero (statsTotalTime stats')
     = orZero (statsTotalTime stats) + fold_right Z.add 0 (map sessionTime sessions)
  /\ orZero (bestStreak stats) <= orZero (bestStreak stats')
  /\ orZero (currentStreak stats')
     <= orZero (currentStreak stats) + Z.of_nat (List.length sessions).
Proof.
  intros I. revert stats I.
  induction sessions as [|[[sd today] dayIndex] rest IH]; intros stats I; cbv zeta.
  - cbn. repeat split; try apply I; lia.
  - cbn [recordSessions].
    destruct (updateStatistics_counters stats sd today dayIndex I)
      as (J & T & U & B & C).
    destruct (IH _ J) as (K & T' & U' & B' & C').
    split; [exact K|].
    rewrite T', U', T, U. cbn [orZero map fold_right List.length].
    change (sessionTime (sd, today, dayIndex)) with (totalTime sd).
    repeat split; lia.
Qed.

Lemma X15_statistics_counters_witness :
  streakInvariant emptyStatistics
  /\ streakInvariant
       (recordSessions emptyStatistics
          [({| totalTime := 1000; goodPostureTime := 800; poorPostureWarnings := 0;
               currentPostureState := good; postureHistory := [] |},
            "Mon Jan 01 2024"%string, 1%nat);
           ({| totalTime := 1000; goodPostureTime := 100; poorPostureWarnings := 3;
               currentPostureState := poor; postureHistory := [] |},
            "Tue Jan 02 2024"%string, 2%nat)]).
Proof.
  assert (E : streakInvariant emptyStatistics) by (unfold streakInvariant; cbn; lia).
  split; [exact E|].
  apply (X15_statistics_counters emptyStatistics). exact E.
Defined.

(** *** The weekly data *)







(** *** Angles *)

(** X14. [calculateAngleBetweenVectors] calls [Math.acos] only on NaN
    or on a number in [-1, 1]: two arc cosine functions that agree there
    give the same angles.  The neck angle returned is never negative. *)
Theorem X14_angle_between_vectors_domain
    (acos acos' : float -> float) :
  (forall x, is_nan x = true \/ within (-1) 1 x -> acos x = acos' x) ->
  (forall v1 v2,
     calculateAngleBetweenVectors acos v1 v2
     = calculateAngleBetweenVectors acos' v1 v2)
  /\ (forall landmarks,
        calculateNeckAngle acos landmarks = calculateNeckAngle acos' landmarks
        /\ calculateTorsoAngle acos landmarks = calculateTorsoAngle acos' landmarks
        /\ (calculateNeckAngle acos landmarks <? 0)%float = false).
Proof.
  intros H.
  assert (A : forall v1 v2, calculateAngleBetweenVectors acos v1 v2
                            = calculateAngleBetweenVectors acos' v1 v2).
  { intros v1 v2. unfold calculateAngleBetweenVectors.
    rewrite (H _ (clamp_domain _)). reflexivity. }
  split; [exact A|].
  intros landmarks. unfold calculateNeckAngle, calculateTorsoAngle.
  destruct (PostureAnalysis.landmarkAt landmarks 7) as [ear|],
           (PostureAnalysis.landmarkAt landmarks 11) as [shoulder|],
           (PostureAnalysis.landmarkAt landmarks 23) as [hip|],
           (PostureAnalysis.landmarkAt landmarks 25) as [knee|];
    rewrite ?A; repeat split; try reflexivity; apply abs_not_negative.
Qed.

Lemma X14_angle_between_vectors_domain_witness :
  calculateAngleBetweenVectors (fun x => x) (1, 0)%float (0, 1)%float
  = calculateAngleBetweenVectors
      (fun x => if is_nan x || (-1 <=? x)%float && (x <=? 1)%float then x else 0%float)
      (1, 0)%float (0, 1)%float.
Proof.
  apply (X14_angle_between_vectors_domain (fun x => x)
           (fun x => if is_nan x || (-1 <=? x)%float && (x <=? 1)%float
                     then x else 0%float)).
  intros x [N | [L U]].
  - rewrite N. reflexivity.
  - rewrite L, U, orb_true_r. reflexivity.
Defined.

(** *** Frames with missing landmarks *)

Lemma onPoseResults_good_frame (g : Guardian) (now : Z) (neckAngle torsoAngle : float) :
  isRunning g = true -> sessionStarted g ->
  classifyPosture g neckAngle torsoAngle = good ->
  let g' := onPoseResults g now neckAngle torsoAngle in
  currentPostureState (sessionData g') = good
  /\ goodPostureTime (sessionData g') = goodPostureTime (sessionData g) + 100
  /\ poorPostureWarnings (sessionData g') = poorPostureWarnings (sessionData g).
Proof.
  intros R [start [Hs Hnz]] C. cbv zeta.
  destruct (onPoseResults_step g now neckAngle torsoAngle R) as (_ & _ & P & W).
  rewrite C in P, W. split; [exact P|]. split; [|rewrite W; cbn; lia].
  unfold onPoseResults. rewrite R. cbn [negb]. unfold analyzePosture.
  set (g1 := {| isRunning := isRunning g; sessionStartTime := sessionStartTime g;
                sessionData := sessionData g;
                currentAngles := {| neck := neckAngle; torso := torsoAngle |};
                settings := settings g; savedStats := savedStats g |}).
  change (classifyPosture g1 neckAngle torsoAngle)
    with (classifyPosture g neckAngle torsoAngle).
  rewrite C.
  assert (G : goodPostureTime (sessionData (updateSessionData g1 now good))
              = goodPostureTime (sessionData g) + 100).
  { apply (updateSessionData_goodPostureTime g1 now good).
    exists start. split; assumption. }
  set (g2 := updateSessionData g1 now good) in *. clearbody g2.
  unfold handlePostureChange.
  destruct (currentPostureState (sessionData g2));
    cbn [Posture_eqb negb andb setCurrentPostureState sessionData goodPostureTime];
    exact G.
Qed.

(** X13. A frame whose shoulder (11) or hip (23) landmark is missing
    gets neck angle 0 and torso angle 90; with thresholds that admit these
    (the default ones do) the frame is classified good: it adds 100 ms of
    good posture time and raises no warning. *)
Theorem X13_missing_landmarks_count_as_good
    (acos : float -> float) (g : Guardian) (now : Z)
    (landmarks : list (option PostureAnalysis.Landmark)) :
  isRunning g = true -> sessionStarted g ->
  (0 <=? neckThreshold (settings g))%float = true ->
  (torsoThresholdMin (settings g) <=? 90)%float = true ->
  (90 <=? torsoThresholdMax (settings g) + 15)%float = true ->
  PostureAnalysis.landmarkAt landmarks 11 = None
  \/ PostureAnalysis.landmarkAt landmarks 23 = None ->
  calculateNeckAngle acos landmarks = 0%float
  /\ calculateTorsoAngle acos landmarks = 90%float
  /\ let g' := onPoseLandmarks acos g now (Some landmarks) in
     currentPostureState (sessionData g') = good
     /\ goodPostureTime (sessionData g') = goodPostureTime (sessionData g) + 100
     /\ poorPostureWarnings (sessionData g') = poorPostureWarnings (sessionData g).
Proof.
  intros R St Hn Hlo Hhi M.
  assert (N : calculateNeckAngle acos landmarks = 0%float).
  { unfold calculateNeckAngle.
    destruct M as [M|M]; rewrite M;
      destruct (PostureAnalysis.landmarkAt landmarks 7);
      try destruct (PostureAnalysis.landmarkAt landmarks 11); reflexivity. }
  assert (T : calculateTorsoAngle acos landmarks = 90%float).
  { unfold calculateTorsoAngle.
    destruct M as [M|M]; rewrite M;
      try destruct (PostureAnalysis.landmarkAt landmarks 11); reflexivity. }
  split; [exact N|]. split; [exact T|].
  cbv zeta. unfold onPoseLandmarks. rewrite N, T.
  apply onPoseResults_good_frame; [exact R|exact St|].
  unfold classifyPosture, ge. rewrite Hn, Hlo, Hhi. reflexivity.
Qed.

Lemma X13_missing_landmarks_count_as_good_witness :
  currentPostureState
    (sessionData
       (onPoseLandmarks (fun x => x) (startMonitoring constructor 1700000000000)
          1700000000100 (Some []))) = good.
Proof.
  apply (X13_missing_landmarks_count_as_good (fun x => x)
           (startMonitoring constructor 1700000000000) 1700000000100 []).
  - reflexivity.
  - exists 1700000000000. split; [reflexivity|lia].
  - reflexivity.
  - reflexivity.
  - reflexivity.
  - left. reflexivity.
Defined.

(** *** Achievements and reminders *)

(** X17. [checkAchievements] raises no error on the three-entry
    array, keeps the identifiers and never locks an achievement again.
    Perfect Hour is unlocked by 3600000 ms of good posture time, Weekly
    Warrior by a streak of at least 7 and Improvement Champion by a streak
    of at least 5, so a call that unlocks Weekly Warrior leaves Improvement
    Champion unlocked too. *)
Theorem X17_achievements_only_unlock
    (achievements : list Achievement) (sd : SessionData) (stats : Statistics) :
  List.length achievements = 3%nat ->
  exists achievements',
    checkAchievements achievements sd stats = Some achievements'
    /\ map id achievements' = map id achievements
    /\ (forall i, isUnlocked achievements i = Some true ->
                  isUnlocked achievements' i = Some true)
    /\ isUnlocked achievements' 0
       = option_map (fun u => u || (3600000 <=? goodPostureTime sd))
           (isUnlocked achievements 0)
    /\ isUnlocked achievements' 1
       = option_map (fun u => u || streakAtLeast stats 7) (isUnlocked achievements 1)
    /\ isUnlocked achievements' 2
       = option_map (fun u => u || streakAtLeast stats 5) (isUnlocked achievements 2)
    /\ (isUnlocked achievements' 1 = Some true ->
        isUnlocked achievements 1 = Some true
        \/ isUnlocked achievements' 2 = Some true).
Proof.
  intros L.
  destruct achievements as [|[i0 u0] [|[i1 u1] [|[i2 u2] [|]]]]; try discriminate L.
  assert (S75 : streakAtLeast stats 7 = true -> streakAtLeast stats 5 = true).
  { unfold streakAtLeast. destruct (currentStreak stats) as [s|]; [|discriminate].
    rewrite !Z.leb_le. lia. }
  unfold checkAchievements, unlockIf, unlockAchievement, isUnlocked.
  destruct (3600000 <=? goodPostureTime sd), (streakAtLeast stats 7) eqn:E7,
           (streakAtLeast stats 5) eqn:E5, u0, u1, u2;
    cbn; try (specialize (S75 eq_refl); discriminate S75);
    (eexists; split; [reflexivity|]; split; [reflexivity|];
     split; [intros [|[|[|i]]]; cbn; congruence|]; repeat split; auto).
Qed.

Lemma X17_achievements_only_unlock_witness :
  exists achievements',
    checkAchievements initialAchievements
      {| totalTime := 4000000; goodPostureTime := 3600000; poorPostureWarnings := 0;
         currentPostureState := good; postureHistory := [] |}
      {| totalSessions := Some 5; statsTotalTime := Some 0; avgScore := None;
         currentStreak := Some 5; bestStreak := Some 5; lastSessionDate := None;
         weeklyData := None |}
    = Some achievements'
    /\ map unlocked achievements' = [true; false; true].
Proof.
  destruct (X17_achievements_only_unlock initialAchievements
              {| totalTime := 4000000; goodPostureTime := 3600000;
                 poorPostureWarnings := 0; currentPostureState := good;
                 postureHistory := [] |}
              {| totalSessions := Some 5; statsTotalTime := Some 0; avgScore := None;
                 currentStreak := Some 5; bestStreak := Some 5;
                 lastSessionDate := None; weeklyData := None |} eq_refl)
    as (a & E & _).
  exists a. split; [exact E|].
  cbn in E. injection E as <-. reflexivity.
Defined.

Lemma remindersShown_spaced (reminderInterval : Z) (clocks : list Z) :
  forall lastReminder,
    spaced (reminderInterval * 60 * 1000) lastReminder
      (remindersShown true reminderInterval lastReminder clocks).
Proof.
  induction clocks as [|now rest IH]; intros lastReminder; [exact I|].
  cbn [remindersShown]. unfold checkStretchReminder. cbn [negb orb].
  destruct (Z.ltb_spec (reminderInterval * 60 * 1000) (now - lastReminder)) as [H|H].
  - cbn [spaced]. split; [exact H|apply IH].
  - apply IH.
Qed.

(** X18. Over a run of frames, each stretch reminder is shown more than
    [reminderInterval] minutes after the one before it (and after the
    initial [lastReminder]); reminders are shown at frame times only, none
    when the setting is off, and the first frame shows one when the
    interval has already passed. *)
Theorem X18_reminders_spaced
    (stretchReminders : bool) (reminderInterval lastReminder : Z)
    (clocks : list Z) :
  let shown := remindersShown stretchReminders reminderInterval lastReminder clocks in
  spaced (reminderInterval * 60 * 1000) lastReminder shown
  /\ (forall t, In t shown -> In t clocks)
  /\ (stretchReminders = false -> shown = [])
  /\ (forall now rest,
        stretchReminders = true -> clocks = now :: rest ->
        reminderInterval * 60 * 1000 < now - lastReminder ->
        exists later, shown = now :: later).
Proof.
  cbv zeta. split; [|split; [|split]].
  - destruct stretchReminders; [apply remindersShown_spaced|].
    revert lastReminder. induction clocks as [|now rest IH]; intros lastReminder;
      [exact I|]. cbn. apply IH.
  - revert lastReminder. induction clocks as [|now rest IH]; intros lastReminder t H;
      [contradiction|].
    cbn [remindersShown] in H.
    destruct (checkStretchReminder stretchReminders reminderInterval true
                lastReminder now) as [[|] last].
    + destruct H as [<-|H]; [left; reflexivity|right; exact (IH _ _ H)].
    + right. exact (IH _ _ H).
  - intros ->. revert lastReminder.
    induction clocks as [|now rest IH]; intros lastReminder; [reflexivity|].
    cbn. apply IH.
  - intros now rest -> -> H. cbn [remindersShown]. unfold checkStretchReminder.
    cbn [negb orb]. apply Z.ltb_lt in H. rewrite H. eexists. reflexivity.
Qed.

(** *** Calibration *)

Lemma classifyPosture_empty_range (g : Guardian) (neckAngle torsoAngle : float) :
  (torsoThresholdMax (settings g) + 15 <? torsoThresholdMin (settings g))%float = true ->
  classifyPosture g neckAngle torsoAngle = poor.
Proof.
  intros E. unfold classifyPosture, ge.
  destruct (torsoThresholdMin (settings g) <=? torsoAngle)%float eqn:A;
    [|rewrite andb_false_r; reflexivity].
  destruct (torsoAngle <=? torsoThresholdMax (settings g) + 15)%float eqn:B;
    [|rewrite andb_false_r; reflexivity].
  pose proof (leb_trans _ _ _ A B) as C.
  apply leb_true_ltb_false in C. congruence.
Qed.

(** X19. When both current angles are positive, [calibratePosture] sets
    the neck threshold to max(10, neck + 5) and the lower torso threshold
    to max(70, torso - 10): neither is NaN or below its floor, the upper
    torso threshold and the session are untouched.  If the new lower
    threshold exceeds the upper threshold plus 15, every frame is
    classified poor afterwards. *)
Theorem X19_calibratePosture_bounds (g : Guardian) :
  gt (neck (currentAngles g)) 0 = true ->
  gt (torso (currentAngles g)) 0 = true ->
  let g' := calibratePosture g in
  (10 <=? neckThreshold (settings g'))%float = true
  /\ (70 <=? torsoThresholdMin (settings g'))%float = true
  /\ neckThreshold (settings g') = Math_max 10 (neck (currentAngles g) + 5)
  /\ torsoThresholdMin (settings g') = Math_max 70 (torso (currentAngles g) - 10)
  /\ torsoThresholdMax (settings g') = torsoThresholdMax (settings g)
  /\ sessionData g' = sessionData g
  /\ ((torsoThresholdMax (settings g) + 15 <? torsoThresholdMin (settings g'))%float
      = true ->
      forall neckAngle torsoAngle, classifyPosture g' neckAngle torsoAngle = poor).
Proof.
  intros Hn Ht. cbv zeta.
  assert (E : calibratePosture g
              = {| isRunning := isRunning g;
                   sessionStartTime := sessionStartTime g;
                   sessionData := sessionData g;
                   currentAngles := currentAngles g;
                   settings :=
                     {| neckThreshold := Math_max 10 (neck (currentAngles g) + 5);
                        torsoThresholdMin :=
                          Math_max 70 (torso (currentAngles g) - 10);
                        torsoThresholdMax := torsoThresholdMax (settings g) |};
                   savedStats := savedStats g |}).
  { unfold calibratePosture. rewrite Hn, Ht. reflexivity. }
  pose proof (add_finite_not_nan (neck (currentAngles g)) 5 _ _ _ eq_refl
                (gt_not_nan _ _ Hn)) as N1.
  pose proof (sub_finite_not_nan (torso (currentAngles g)) 10 _ _ _ eq_refl
                (gt_not_nan _ _ Ht)) as N2.
  destruct (Math_max_lower 10 _ eq_refl N1) as [L1 _].
  destruct (Math_max_lower 70 _ eq_refl N2) as [L2 _].
  split; [rewrite E; exact L1|]. split; [rewrite E; exact L2|].
  split; [rewrite E; reflexivity|]. split; [rewrite E; reflexivity|].
  split; [rewrite E; reflexivity|]. split; [rewrite E; reflexivity|].
  intros R neckAngle torsoAngle. apply classifyPosture_empty_range.
  rewrite E in *. exact R.
Qed.

Lemma X19_calibratePosture_bounds_witness :
  let g := onPoseResults (startMonitoring constructor 1700000000000)
             1700000000100 2 130 in
  neckThreshold (settings (calibratePosture g)) = 10%float
  /\ torsoThresholdMin (settings (calibratePosture g)) = 120%float
  /\ forall neckAngle torsoAngle,
       classifyPosture (calibratePosture g) neckAngle torsoAngle = poor.
Proof.
  cbv zeta.
  destruct (X19_calibratePosture_bounds
              (onPoseResults (startMonitoring constructor 1700000000000)
                 1700000000100 2 130) eq_refl eq_refl)
    as (_ & _ & N & T & _ & _ & P).
  split; [rewrite N; reflexivity|]. split; [rewrite T; reflexivity|].
  apply P. reflexivity.
Defined.

End SessionProps.

(** ** Stored data *)

Module StorageProps.

Import Js DataStorage Spec StorageSpec.
Import JsOrderFacts StreakProps.
Open Scope Z_scope.

(** *** The streak of [calculateStreak] *)

Lemma ascii_compare_trans_lt (a b c : Ascii.ascii) :
  Ascii.compare a b = Lt -> Ascii.compare b c = Lt -> Ascii.compare a c = Lt.
Proof.
  unfold Ascii.compare. rewrite !N.compare_lt_iff. lia.
Qed.

Lemma ascii_compare_eq (a b : Ascii.ascii) : Ascii.compare a b = Eq -> a = b.
Proof.
  unfold Ascii.compare. intros H. apply N.compare_eq in H.
  rewrite <- (Ascii.ascii_N_embedding a), <- (Ascii.ascii_N_embedding b), H. reflexivity.
Qed.

Lemma string_compare_trans (s1 : string) :
  forall s2 s3,
    String.compare s1 s2 <> Gt -> String.compare s2 s3 <> Gt ->
    String.compare s1 s3 <> Gt.
Proof.
  induction s1 as [|a s1 IH]; intros [|b s2] [|c s3]; cbn; try congruence.
  destruct (Ascii.compare a b) eqn:Eab; try congruence;
    destruct (Ascii.compare b c) eqn:Ebc; try congruence.
  - apply ascii_compare_eq in Eab, Ebc. subst.
    assert (E : Ascii.compare c c = Eq)
      by (unfold Ascii.compare; apply N.compare_refl).
    rewrite E. apply IH.
  - apply ascii_compare_eq in Eab. subst. rewrite Ebc. congruence.
  - apply ascii_compare_eq in Ebc. subst. rewrite Eab. congruence.
  - rewrite (ascii_compare_trans_lt _ _ _ Eab Ebc). congruence.
Qed.

Lemma string_leb_trans (s1 s2 s3 : string) :
  String.leb s1 s2 = true -> String.leb s2 s3 = true -> String.leb s1 s3 = true.
Proof.
  unfold String.leb. intros H12 H23.
  pose proof (string_compare_trans s1 s2 s3) as T.
  destruct (String.compare s1 s2); try discriminate;
    destruct (String.compare s2 s3); try discriminate;
    destruct (String.compare s1 s3); try reflexivity;
    exfalso; apply T; congruence.
Qed.

Lemma string_leb_refl (s : string) : String.leb s s = true.
Proof. destruct (String.leb_total s s); assumption. Qed.

Section Dates.

Variable parseDate : string -> option Z.

Lemma insertSorted_ordered (s : string) (l : list string) :
  ordered l -> ordered (DataStorage.insertSorted s l).
Proof.
  induction l as [|h t IH]; cbn [ordered DataStorage.insertSorted].
  - intros _. split; constructor.
  - intros [Hh Ht]. destruct (String.leb s h) eqn:E.
    + cbn [ordered]. split; [|split; assumption].
      constructor; [exact E|].
      eapply Forall_impl; [|exact Hh]. intros x Hx.
      exact (string_leb_trans _ _ _ E Hx).
    + cbn [ordered]. split; [|exact (IH Ht)].
      apply Forall_forall. intros x Hx.
      apply (insertSorted_In parseDate) in Hx. destruct Hx as [->|Hx].
      * destruct (String.leb_total s h) as [L|L]; [congruence|exact L].
      * rewrite Forall_forall in Hh. exact (Hh _ Hx).
Qed.

Lemma sort_ordered (l : list string) : ordered (DataStorage.sort l).
Proof.
  induction l as [|h t IH]; cbn [DataStorage.sort fold_right]; [exact I|].
  apply insertSorted_ordered. exact IH.
Qed.

Lemma ordered_last (l : list string) (m : string) :
  ordered (l ++ [m]) -> forall x, In x (l ++ [m]) -> String.leb x m = true.
Proof.
  induction l as [|h t IH]; cbn [app ordered In]; intros H x Hx.
  - destruct Hx as [<-|[]]. apply string_leb_refl.
  - destruct H as [Hh Ht].
    destruct Hx as [<-|Hx].
    + rewrite Forall_forall in Hh. apply Hh. apply in_or_app. right. left. reflexivity.
    + exact (IH Ht _ Hx).
Qed.

Lemma calculateStreak_head {A : Type} (dailyStats : list (string * A))
    (today : string) :
  NoDup (map fst dailyStats) ->
  DataStorage.calculateStreak parseDate dailyStats today
  = match rev (DataStorage.sort (map fst dailyStats)) with
    | d :: _ => if String.eqb d today then 1%nat else 0%nat
    | [] => 0%nat
    end.
Proof.
  intros Hnd. unfold DataStorage.calculateStreak.
  assert (Hd : NoDup (rev (DataStorage.sort (map fst dailyStats))))
    by (apply NoDup_rev, (sort_NoDup parseDate), Hnd).
  destruct (rev (DataStorage.sort (map fst dailyStats))) as [|d0 [|d1 rest]].
  - reflexivity.
  - cbn [DataStorage.streakLoop nth_error].
    rewrite (isConsecutiveDay_same parseDate), orb_false_r.
    destruct (String.eqb d0 today); reflexivity.
  - cbn [DataStorage.streakLoop nth_error].
    rewrite (isConsecutiveDay_same parseDate), orb_false_r.
    destruct (String.eqb_spec d0 today) as [E0|N0]; [|reflexivity].
    cbn [DataStorage.streakLoop nth_error].
    rewrite (isConsecutiveDay_same parseDate), orb_false_r.
    destruct (String.eqb_spec d1 today) as [E1|N1]; [|reflexivity].
    exfalso. inversion Hd as [|? ? Hin _]; subst. apply Hin. left. reflexivity.
Qed.

Lemma head_is_latest (keys : list string) (today : string) :
  match rev (DataStorage.sort keys) with
  | d :: _ => String.eqb d today
  | [] => false
  end = todayIsLatest keys today.
Proof.
  unfold todayIsLatest.
  pose proof (sort_ordered keys) as O.
  assert (I : forall x, In x (DataStorage.sort keys) <-> In x keys)
    by (intros x; apply (sort_In parseDate)).
  destruct (rev (DataStorage.sort keys)) as [|d rest] eqn:E.
  - assert (N : DataStorage.sort keys = []).
    { apply (f_equal (@rev string)) in E. rewrite rev_involutive in E. exact E. }
    destruct keys as [|k ks]; [reflexivity|].
    exfalso. assert (In k (DataStorage.sort (k :: ks))) by (apply I; left; reflexivity).
    rewrite N in H. exact H.
  - assert (S : DataStorage.sort keys = rev rest ++ [d]).
    { apply (f_equal (@rev string)) in E. rewrite rev_involutive in E. exact E. }
    rewrite S in O, I.
    pose proof (ordered_last _ _ O) as M.
    destruct (String.eqb_spec d today) as [->|N].
    + symmetry. apply andb_true_intro. split.
      * apply existsb_exists. exists today. split; [|apply String.eqb_refl].
        apply I. apply in_or_app. right. left. reflexivity.
      * apply forallb_forall. intros k Hk. apply M, I, Hk.
    + symmetry. apply not_true_iff_false. intros H.
      apply andb_prop in H. destruct H as [H1 H2].
      apply existsb_exists in H1. destruct H1 as (t & Ht & Et).
      apply String.eqb_eq in Et. subst t.
      rewrite forallb_forall in H2.
      assert (Ld : String.leb d today = true).
      { apply H2, I. apply in_or_app. right. left. reflexivity. }
      assert (Lt : String.leb today d = true) by (apply M, I, Ht).
      apply N. apply String.leb_antisym; assumption.
Qed.

(** X20. [calculateStreak] returns 1 when today is a key of the daily
    statistics and no key sorts after it in code-unit order, and 0
    otherwise: never more than 1, and 0 when today has no entry. *)
Theorem X20_calculateStreak_zero_or_one {A : Type} (dailyStats : list (string * A))
    (today : string) :
  NoDup (map fst dailyStats) ->
  DataStorage.calculateStreak parseDate dailyStats today
  = (if todayIsLatest (map fst dailyStats) today then 1%nat else 0%nat)
  /\ (DataStorage.calculateStreak parseDate dailyStats today <= 1)%nat
  /\ (~ In today (map fst dailyStats) ->
      DataStorage.calculateStreak parseDate dailyStats today = 0%nat).
Proof.
  intros Hnd.
  assert (E : DataStorage.calculateStreak parseDate dailyStats today
              = (if todayIsLatest (map fst dailyStats) today then 1%nat else 0%nat)).
  { rewrite (calculateStreak_head dailyStats today Hnd).
    rewrite <- head_is_latest.
    destruct (rev (DataStorage.sort (map fst dailyStats))); reflexivity. }
  split; [exact E|]. split.
  - rewrite E. destruct (todayIsLatest _ _); lia.
  - intros N. rewrite E. unfold todayIsLatest.
    destruct (existsb (String.eqb today) (map fst dailyStats)) eqn:X; [|reflexivity].
    apply existsb_exists in X. destruct X as (t & Ht & Et).
    apply String.eqb_eq in Et. subst t. contradiction.
Qed.

End Dates.

Lemma X20_calculateStreak_zero_or_one_witness :
  DataStorage.calculateStreak (fun _ => None)
    [("Wed Jan 03 2024"%string, tt); ("Mon Jan 08 2024"%string, tt)]
    "Mon Jan 08 2024"%string = 0%nat.
Proof.
  rewrite (proj1 (X20_calculateStreak_zero_or_one (fun _ => None)
                    [("Wed Jan 03 2024"%string, tt); ("Mon Jan 08 2024"%string, tt)]
                    "Mon Jan 08 2024"%string
                    ltac:(repeat constructor; cbn; intuition discriminate))).
  reflexivity.
Defined.

(** *** Stored achievements *)

Lemma findById_None (achievementId : string) (l : list StoredAchievement) :
  findById achievementId l = None <-> ~ In achievementId (map id l).
Proof.
  unfold findById. induction l as [|a l IH]; cbn; [tauto|].
  destruct (String.eqb_spec (id a) achievementId) as [E|N].
  - split; [discriminate|]. intros H. exfalso. apply H. left. exact E.
  - rewrite IH. tauto.
Qed.

Lemma findById_app (achievementId : string) (l : list StoredAchievement) a :
  id a = achievementId ->
  findById achievementId l = None ->
  findById achievementId (l ++ [a]) = Some a.
Proof.
  intros E. unfold findById. induction l as [|b l IH]; cbn.
  - intros _. rewrite E, String.eqb_refl. reflexivity.
  - destruct (String.eqb (id b) achievementId); [discriminate|exact IH].
Qed.

Lemma markFirst_ids (achievementId : string) (l : list StoredAchievement) :
  map id (markFirst achievementId l) = map id l.
Proof.
  induction l as [|a l IH]; cbn; [reflexivity|].
  destruct (String.eqb (id a) achievementId); cbn; [reflexivity|].
  rewrite IH. reflexivity.
Qed.

Lemma markFirst_find (achievementId : string) (l : list StoredAchievement) a :
  findById achievementId l = Some a ->
  findById achievementId (markFirst achievementId l)
  = Some {| id := id a; unlockedAt := unlockedAt a; isNew := false |}.
Proof.
  unfold findById. induction l as [|b l IH]; cbn; [discriminate|].
  destruct (String.eqb (id b) achievementId) eqn:E.
  - intros H. injection H as <-. cbn. rewrite E. reflexivity.
  - intros H. cbn. rewrite E. exact (IH H).
Qed.

(** X21. [unlockAchievement] records an identifier once: the first call
    returns true exactly when the identifier is not stored yet, a second
    call returns false and changes nothing, and identifiers stay unique.
    A newly unlocked achievement is found with [isNew] true, and with
    [isNew] false after [markAchievementAsViewed], which keeps the
    identifiers. *)
Theorem X21_unlockAchievement_once
    (stored : option (list StoredAchievement))
    (achievementId unlockedAt unlockedAt' : string) :
  NoDup (map id (getAchievements stored)) ->
  let '(stored1, first) := unlockAchievement stored achievementId unlockedAt in
  let '(stored2, second) := unlockAchievement stored1 achievementId unlockedAt' in
  second = false
  /\ stored2 = stored1
  /\ (first = true <-> ~ In achievementId (map id (getAchievements stored)))
  /\ (first = false -> stored1 = stored)
  /\ In achievementId (map id (getAchievements stored1))
  /\ NoDup (map id (getAchievements stored1))
  /\ (first = true ->
      findById achievementId (getAchievements stored1)
      = Some {| id := achievementId; unlockedAt := unlockedAt; isNew := true |}
      /\ findById achievementId
           (getAchievements (markAchievementAsViewed stored1 achievementId))
         = Some {| id := achievementId; unlockedAt := unlockedAt; isNew := false |}
      /\ map id (getAchievements (markAchievementAsViewed stored1 achievementId))
         = map id (getAchievements stored1)).
Proof.
  intros ND. unfold unlockAchievement at 1.
  destruct (findById achievementId (getAchievements stored)) as [a|] eqn:F.
  - (* already unlocked *)
    unfold unlockAchievement. rewrite F.
    assert (I : In achievementId (map id (getAchievements stored))).
    { destruct (in_dec string_dec achievementId (map id (getAchievements stored)))
        as [I|N]; [exact I|].
      apply findById_None in N. congruence. }
    repeat split; try assumption; try discriminate; try reflexivity.
    intros N. contradiction.
  - (* new *)
    set (new := {| id := achievementId; unlockedAt := unlockedAt; isNew := true |}).
    pose proof (findById_app achievementId (getAchievements stored) new eq_refl F) as F1.
    unfold unlockAchievement. cbn [getAchievements]. rewrite F1.
    apply findById_None in F.
    split; [reflexivity|]. split; [reflexivity|].
    split; [split; [intros _; exact F|reflexivity]|].
    split; [discriminate|].
    split; [rewrite map_app; apply in_or_app; right; left; reflexivity|].
    split.
    { rewrite map_app. cbn [map id new].
      apply NoDup_app; [exact ND|repeat constructor; intros []|].
      intros x Hx [<-|[]]. contradiction. }
    intros _. split; [reflexivity|].
    unfold markAchievementAsViewed. cbn [getAchievements]. rewrite F1.
    cbn [getAchievements].
    split; [exact (markFirst_find _ _ _ F1)|apply markFirst_ids].
Qed.

Lemma X21_unlockAchievement_once_witness :
  unlockAchievement None "perfect_hour" "2024-01-01T10:00:00.000Z"
  = (Some [ {| id := "perfect_hour"; unlockedAt := "2024-01-01T10:00:00.000Z";
               isNew := true |} ], true)
  /\ snd (unlockAchievement
            (fst (unlockAchievement None "perfect_hour" "2024-01-01T10:00:00.000Z"))
            "perfect_hour" "2024-01-02T10:00:00.000Z") = false.
Proof.
  split; [reflexivity|].
  pose proof (X21_unlockAchievement_once None "perfect_hour"
                "2024-01-01T10:00:00.000Z" "2024-01-02T10:00:00.000Z"
                (NoDup_nil _)) as H.
  destruct (unlockAchievement None "perfect_hour" "2024-01-01T10:00:00.000Z")
    as [stored1 first].
  cbn [fst].
  destruct (unlockAchievement stored1 "perfect_hour" "2024-01-02T10:00:00.000Z")
    as [stored2 second].
  exact (proj1 H).
Defined.

(** *** Session statistics *)

Lemma calculateAverageScore_undefined (newScore : float) :
  is_nan (calculateAverageScore None None newScore) = true.
Proof.
  unfold calculateAverageScore, toNumber.
  apply div_nan_l, add_nan_l. reflexivity.
Qed.

Lemma setDay_keys (today : string) (d : DayStats) (l : list (string * DayStats)) :
  map fst (setDay today d l)
  = if in_dec string_dec today (map fst l) then map fst l
    else map fst l ++ [today].
Proof.
  induction l as [|[date old] l IH]; cbn [setDay map fst app].
  - destruct (in_dec string_dec today []) as [[]|_]. reflexivity.
  - destruct (String.eqb_spec date today) as [->|N].
    + cbn [map fst].
      destruct (in_dec string_dec today (today :: map fst l)) as [_|X];
        [reflexivity|exfalso; apply X; left; reflexivity].
    + cbn [map fst]. rewrite IH.
      destruct (in_dec string_dec today (map fst l)) as [I|I];
        destruct (in_dec string_dec today (date :: map fst l)) as [J|J];
        try reflexivity.
      * exfalso. apply J. right. exact I.
      * exfalso. destruct J as [J|J]; [congruence|contradiction].
Qed.

Lemma setDay_lookup (today : string) (d : DayStats) (l : list (string * DayStats)) :
  lookupDay today (setDay today d l) = Some d.
Proof.
  induction l as [|[date old] l IH]; cbn [setDay lookupDay].
  - rewrite String.eqb_refl. reflexivity.
  - destruct (String.eqb date today) eqn:E; cbn [lookupDay]; rewrite E;
      [reflexivity|exact IH].
Qed.

Lemma setDay_NoDup (today : string) (d : DayStats) (l : list (string * DayStats)) :
  NoDup (map fst l) -> NoDup (map fst (setDay today d l)).
Proof.
  intros H. rewrite setDay_keys.
  destruct (in_dec string_dec today (map fst l)) as [I|N]; [exact H|].
  apply NoDup_app; [exact H|repeat constructor; intros []|].
  intros x Hx [<-|[]]. contradiction.
Qed.

(** X22. [addSessionData] leaves today's entry with a NaN average score
    ([calculateAverageScore] reads [totalSessions] and
    [averagePostureScore], which a day entry does not have).  The overall
    average is computed after the session count has been incremented: for
    the first session it is half the session's score.  The keys of the
    daily statistics stay unique, today is among them, and the streak
    stored is at most 1. *)
Theorem X22_addSessionData_averages
    (parseDate : string -> option Z) (stats : Statistics)
    (sessionData : SessionSummary) (today nowISO : string) :
  NoDup (map fst (dailyStats stats)) ->
  let stats' := addSessionData parseDate stats sessionData today nowISO in
  (exists d, lookupDay today (dailyStats stats') = Some d
             /\ is_nan (dayAverageScore d) = true)
  /\ (totalSessions stats = 0%float -> averagePostureScore stats = 0%float ->
      averagePostureScore stats' = ((0 + averageScore sessionData) / 2)%float)
  /\ (strict_eq (totalSessions stats + 1) 0 = false ->
      averagePostureScore stats'
      = ((averagePostureScore stats * (totalSessions stats + 1)
          + averageScore sessionData) / (totalSessions stats + 1 + 1))%float)
  /\ NoDup (map fst (dailyStats stats'))
  /\ In today (map fst (dailyStats stats'))
  /\ (streakDays stats' <= 1)%nat.
Proof.
  intros ND. cbv zeta. unfold addSessionData.
  cbn [dailyStats averagePostureScore streakDays].
  split; [|split; [|split; [|split; [|split]]]].
  - eexists. split; [apply setDay_lookup|]. cbn [dayAverageScore].
    apply calculateAverageScore_undefined.
  - intros -> ->. reflexivity.
  - intros Z. unfold calculateAverageScore, toNumber. rewrite Z. reflexivity.
  - apply setDay_NoDup. exact ND.
  - rewrite setDay_keys.
    destruct (in_dec string_dec today (map fst (dailyStats stats))) as [I|N];
      [exact I|apply in_or_app; right; left; reflexivity].
  - apply (StreakProps.calculateStreak_at_most_one parseDate).
    apply setDay_NoDup. exact ND.
Qed.

Lemma X22_addSessionData_averages_witness :
  let stats' :=
    addSessionData (fun _ => None) defaultStatistics
      {| duration := 600; goodPostureTime := 480; averageScore := 80;
         postureEvents := [] |}
      "Mon Jan 01 2024" "2024-01-01T10:00:00.000Z" in
  averagePostureScore stats' = 40%float
  /\ exists d, lookupDay "Mon Jan 01 2024" (dailyStats stats') = Some d
               /\ is_nan (dayAverageScore d) = true.
Proof.
  cbv zeta.
  destruct (X22_addSessionData_averages (fun _ => None) defaultStatistics
              {| duration := 600; goodPostureTime := 480; averageScore := 80;
                 postureEvents := [] |}
              "Mon Jan 01 2024" "2024-01-01T10:00:00.000Z" (NoDup_nil _))
    as (D & A & _).
  split; [|exact D].
  rewrite (A eq_refl eq_refl). reflexivity.
Defined.

End StorageProps.
